(** * A shallow embedding of the pub/sub broker

    The development follows [pubsub/models.py], [pubsub/consumers.py] and
    [pubsub/views.py].  The relational tables are lists of rows in insertion
    order, the class-level routing table [_topic_connections] is a finite map
    from topic names to finite sets of consumer handles, and every method of
    the consumer is a computation in a state-and-exception monad over the
    whole broker state, so that Python's [try]/[except] blocks and the
    mutations that precede a raise are kept as the code has them.

    Conventions of the embedding:
    - a consumer instance is named by a handle ([nat]); object identity
      ([connection != self]) is equality of handles;
    - [timezone.now()] reads a logical clock that advances by one per call;
    - [uuid.uuid4()] draws from a counter;
    - a Python [set] is a [gset], iterated in the order of [elements];
    - a socket whose peer is gone is in [closed]: [send] on it raises, any
      other [send] appends the frame to the trace;
    - [print] calls are dropped;
    - an inbound frame is either undecodable or a JSON object whose [type],
      [topic] and [client_id] members are strings when present; the other
      members are arbitrary JSON values (numbers are integers);
    - a [Message.data] text column is represented by the JSON document it
      encodes, [json.loads (json.dumps v)] being [v]. *)

From stdpp Require Import base gmap strings list fin_maps sorting pretty.
From Stdlib Require Import ZArith Lia Ascii.

#[local] Set Warnings "-register-all,-clear-no-such-hyp".

(** ** JSON values and Python's view of them *)

Inductive json : Type :=
| JNull
| JBool (b : bool)
| JInt (z : Z)
| JStr (s : string)
| JArr (items : list json)
| JObj (members : list (string * json)).

(** [bool(v)] *)
Definition truthy (v : json) : bool :=
  match v with
  | JNull => false
  | JBool b => b
  | JInt z => negb (z =? 0)%Z
  | JStr s => negb (String.eqb s "")
  | JArr items => match items with [] => false | _ => true end
  | JObj members => match members with [] => false | _ => true end
  end.

(** [type(v).__name__] *)
Definition type_name (v : json) : string :=
  match v with
  | JNull => "NoneType"
  | JBool _ => "bool"
  | JInt _ => "int"
  | JStr _ => "str"
  | JArr _ => "list"
  | JObj _ => "dict"
  end.

(** [d.get(k)] on the members of a dict *)
Fixpoint obj_get (k : string) (members : list (string * json)) : option json :=
  match members with
  | [] => None
  | (k', v) :: rest => if String.eqb k k' then Some v else obj_get k rest
  end.

(** [v.get(k)] for an envelope; any other value has no members *)
Definition member (k : string) (v : json) : option json :=
  match v with
  | JObj members => obj_get k members
  | _ => None
  end.

(** [if not s] for an optional string: [None] and [""] are both falsy *)
Definition nonempty (s : option string) : option string :=
  match s with
  | Some s => if String.eqb s "" then None else Some s
  | None => None
  end.

(** [str(v)] inside an f-string, for an optional string *)
Definition fmt (s : option string) : string := default "None" s.

(** ** Exceptions *)

Inductive exn_class : Type :=
| AttributeError
| TypeError
| ValueError
| KeyError
| RuntimeError
| NameError
| DoesNotExist
| MultipleObjectsReturned
| IntegrityError
| DatabaseError
| JSONDecodeError
| SendFailure.

Record exn : Type := Exn { exn_kind : exn_class; exn_msg : string }.

Global Instance exn_class_eq_dec : EqDecision exn_class.
Proof. solve_decision. Defined.

(** ** Rows of the four tables ([models.py]) *)

Record TopicRow : Type := mkTopic {
  t_id : nat;
  t_name : string;
  t_created_at : nat;
  t_last_published : option nat;
  t_message_count : nat;
  t_subscriber_count : nat;
  t_is_active : bool;
  t_metadata : json
}.

Record ConnectionRow : Type := mkConnection {
  c_id : string;
  c_connected_at : nat;
  c_last_activity : nat;
  c_is_active : bool
}.

Record SubscriptionRow : Type := mkSubscription {
  s_id : nat;
  s_connection : string;
  s_topic : nat;
  s_subscribed_at : nat;
  s_is_active : bool
}.

Global Instance SubscriptionRow_eq_dec : EqDecision SubscriptionRow.
Proof. solve_decision. Defined.

Record MessageRow : Type := mkMessage {
  m_id : string;
  m_topic : nat;
  m_publisher_connection : option string;
  m_data : json;
  m_published_at : nat;
  m_delivery_attempts : nat;
  m_max_delivery_attempts : nat;
  m_metadata : json
}.

Record DB : Type := mkDB {
  topics : list TopicRow;
  connections : list ConnectionRow;
  subscriptions : list SubscriptionRow;
  messages : list MessageRow;
  next_topic_id : nat;
  next_subscription_id : nat
}.

(** ** Consumer instances and the broker state *)

Record Consumer : Type := mkConsumer {
  connection_id : option string;
  client_id : option string;
  subscribed_topics : gset string;
  connection : option string
}.

(** [PubSubConsumer.__init__] *)
Definition init_consumer : Consumer :=
  {| connection_id := None; client_id := None;
     subscribed_topics := ∅; connection := None |}.

(** What happened on a socket: a frame that went out, or a [send] that raised. *)
Inductive event : Type :=
| Sent (handle : nat) (frame : json)
| SendFailed (handle : nat) (frame : json).

Record World : Type := mkWorld {
  db : DB;
  topic_connections : gmap string (gset nat);
  consumers : gmap nat Consumer;
  trace : list event;
  clock : nat;
  uuid_counter : nat;
  closed : gset nat
}.

Definition empty_db : DB :=
  {| topics := []; connections := []; subscriptions := []; messages := [];
     next_topic_id := 1; next_subscription_id := 1 |}.

Definition empty_world : World :=
  {| db := empty_db; topic_connections := ∅; consumers := ∅; trace := [];
     clock := 0; uuid_counter := 0; closed := ∅ |}.

Definition set_db (d : DB) (w : World) : World :=
  {| db := d; topic_connections := topic_connections w;
     consumers := consumers w; trace := trace w; clock := clock w;
     uuid_counter := uuid_counter w; closed := closed w |}.

Definition set_topic_connections (r : gmap string (gset nat)) (w : World) : World :=
  {| db := db w; topic_connections := r;
     consumers := consumers w; trace := trace w; clock := clock w;
     uuid_counter := uuid_counter w; closed := closed w |}.

Definition set_consumers (cs : gmap nat Consumer) (w : World) : World :=
  {| db := db w; topic_connections := topic_connections w;
     consumers := cs; trace := trace w; clock := clock w;
     uuid_counter := uuid_counter w; closed := closed w |}.

Definition log_event (e : event) (w : World) : World :=
  {| db := db w; topic_connections := topic_connections w;
     consumers := consumers w; trace := trace w ++ [e]; clock := clock w;
     uuid_counter := uuid_counter w; closed := closed w |}.

Definition tick (w : World) : World :=
  {| db := db w; topic_connections := topic_connections w;
     consumers := consumers w; trace := trace w; clock := S (clock w);
     uuid_counter := uuid_counter w; closed := closed w |}.

Definition bump_uuid (w : World) : World :=
  {| db := db w; topic_connections := topic_connections w;
     consumers := consumers w; trace := trace w; clock := clock w;
     uuid_counter := S (uuid_counter w); closed := closed w |}.

(** The peer of [h] goes away: from now on [send] on that socket raises. *)
Definition close_socket (h : nat) (w : World) : World :=
  {| db := db w; topic_connections := topic_connections w;
     consumers := consumers w; trace := trace w; clock := clock w;
     uuid_counter := uuid_counter w; closed := {[h]} ∪ closed w |}.

(** ** The monad: state that survives a raise, and exceptions *)

Inductive outcome (A : Type) : Type :=
| Ok (a : A)
| Raise (e : exn).
Arguments Ok {A} a.
Arguments Raise {A} e.

Definition M (A : Type) : Type := World → outcome A * World.

Global Instance M_ret : MRet M := λ A a w, (Ok a, w).
Global Instance M_bind : MBind M := λ A B f m w,
  match m w with
  | (Ok a, w') => f a w'
  | (Raise e, w') => (Raise e, w')
  end.

Definition raise {A} (e : exn) : M A := λ w, (Raise e, w).

(** [try: body  except Exception as e: handler e] *)
Definition try_except {A} (body : M A) (handler : exn → M A) : M A := λ w,
  match body w with
  | (Ok a, w') => (Ok a, w')
  | (Raise e, w') => handler e w'
  end.

Definition get_world : M World := λ w, (Ok w, w).
Definition modify (f : World → World) : M unit := λ w, (Ok tt, f w).

Fixpoint for_each {A} (l : list A) (body : A → M unit) : M unit :=
  match l with
  | [] => mret tt
  | x :: rest => body x ;; for_each rest body
  end.

(** [timezone.now()] *)
Definition now : M nat := λ w, (Ok (clock w), tick w).

(** [datetime.isoformat()] of a reading of the logical clock *)
Definition isoformat (t : nat) : string := pretty t.

(** [str(uuid.uuid4())] *)
Definition uuid_text (n : nat) : string := "uuid-" +:+ pretty n.
Definition uuid4 : M string := λ w, (Ok (uuid_text (uuid_counter w)), bump_uuid w).

(** [await handle.send(text_data=json.dumps(frame))] *)
Definition send (handle : nat) (frame : json) : M unit := λ w,
  if decide (handle ∈ closed w)
  then (Raise (Exn SendFailure "socket closed"), log_event (SendFailed handle frame) w)
  else (Ok tt, log_event (Sent handle frame) w).

(** Attributes of [self] *)
Definition self_of (w : World) (self : nat) : Consumer :=
  default init_consumer (consumers w !! self).

Definition get_self (self : nat) : M Consumer := λ w, (Ok (self_of w self), w).

Definition set_self (self : nat) (f : Consumer → Consumer) : M unit :=
  modify (λ w, set_consumers (<[self := f (self_of w self)]> (consumers w)) w).

(** ** The ORM: managers and model methods ([models.py]) *)

Definition get_db : M DB := λ w, (Ok (db w), w).
Definition put_db (d : DB) : M unit := modify (set_db d).

Definition with_topics (f : list TopicRow → list TopicRow) (d : DB) : DB :=
  {| topics := f (topics d); connections := connections d;
     subscriptions := subscriptions d; messages := messages d;
     next_topic_id := next_topic_id d;
     next_subscription_id := next_subscription_id d |}.

Definition with_connections (f : list ConnectionRow → list ConnectionRow) (d : DB) : DB :=
  {| topics := topics d; connections := f (connections d);
     subscriptions := subscriptions d; messages := messages d;
     next_topic_id := next_topic_id d;
     next_subscription_id := next_subscription_id d |}.

Definition with_subscriptions (f : list SubscriptionRow → list SubscriptionRow) (d : DB) : DB :=
  {| topics := topics d; connections := connections d;
     subscriptions := f (subscriptions d); messages := messages d;
     next_topic_id := next_topic_id d;
     next_subscription_id := next_subscription_id d |}.

Definition with_messages (f : list MessageRow → list MessageRow) (d : DB) : DB :=
  {| topics := topics d; connections := connections d;
     subscriptions := subscriptions d; messages := f (messages d);
     next_topic_id := next_topic_id d;
     next_subscription_id := next_subscription_id d |}.

Definition set_subscriber_count (n : nat) (r : TopicRow) : TopicRow :=
  mkTopic (t_id r) (t_name r) (t_created_at r) (t_last_published r)
          (t_message_count r) n (t_is_active r) (t_metadata r).

Definition set_message_count (n : nat) (r : TopicRow) : TopicRow :=
  mkTopic (t_id r) (t_name r) (t_created_at r) (t_last_published r)
          n (t_subscriber_count r) (t_is_active r) (t_metadata r).

Definition set_last_published (t : nat) (r : TopicRow) : TopicRow :=
  mkTopic (t_id r) (t_name r) (t_created_at r) (Some t)
          (t_message_count r) (t_subscriber_count r) (t_is_active r) (t_metadata r).

Definition set_last_activity (t : nat) (r : ConnectionRow) : ConnectionRow :=
  mkConnection (c_id r) (c_connected_at r) t (c_is_active r).

Definition set_is_active (b : bool) (r : SubscriptionRow) : SubscriptionRow :=
  mkSubscription (s_id r) (s_connection r) (s_topic r) (s_subscribed_at r) b.

Definition set_publisher (p : option string) (r : MessageRow) : MessageRow :=
  mkMessage (m_id r) (m_topic r) p (m_data r) (m_published_at r)
            (m_delivery_attempts r) (m_max_delivery_attempts r) (m_metadata r).

(** [Topic.objects.get(name=name)] *)
Definition Topic_get (name : string) : M TopicRow :=
  d ← get_db;
  match filter (λ r, t_name r = name) (topics d) with
  | [] => raise (Exn DoesNotExist "Topic matching query does not exist.")
  | [r] => mret r
  | _ => raise (Exn MultipleObjectsReturned "get() returned more than one Topic")
  end.

(** [Topic.objects.create(name=name, metadata=metadata)]; [name] is unique *)
Definition Topic_create (name : string) (metadata : json) : M TopicRow :=
  created ← now;
  d ← get_db;
  if decide (name ∈ t_name <$> topics d)
  then raise (Exn IntegrityError "UNIQUE constraint failed: pubsub_topics.name")
  else
    let r := mkTopic (next_topic_id d) name created None 0 0 true metadata in
    put_db {| topics := topics d ++ [r]; connections := connections d;
              subscriptions := subscriptions d; messages := messages d;
              next_topic_id := S (next_topic_id d);
              next_subscription_id := next_subscription_id d |};;
    mret r.

(** [Topic.objects.get_or_create(name=name, defaults={'metadata': {}})].
    Django looks the row up once more when the insert fails; with nothing
    running in between that lookup fails again and the insert's error is
    raised, which is what happens here. *)
Definition Topic_get_or_create (name : string) : M (TopicRow * bool) :=
  try_except (r ← Topic_get name; mret (r, false))
    (λ e, if decide (exn_kind e = DoesNotExist)
          then r ← Topic_create name (JObj []); mret (r, true)
          else raise e).

(** [topic.save(update_fields=[...])]: an UPDATE by primary key *)
Definition Topic_save (topic : TopicRow) (upd : TopicRow → TopicRow) : M unit :=
  d ← get_db;
  if decide (t_id topic ∈ t_id <$> topics d)
  then put_db (with_topics (map (λ r, if decide (t_id r = t_id topic) then upd r else r)) d)
  else raise (Exn DatabaseError "Save with update_fields did not affect any rows.").

(** [Topic.update_last_published] *)
Definition update_last_published (topic : TopicRow) : M unit :=
  t ← now; Topic_save topic (set_last_published t).

(** [Topic.increment_message_count] *)
Definition increment_message_count (topic : TopicRow) : M unit :=
  Topic_save topic (set_message_count (t_message_count topic + 1)).

(** [Topic.update_subscriber_count] *)
Definition update_subscriber_count (topic : TopicRow) (count : nat) : M unit :=
  Topic_save topic (set_subscriber_count count).

(** [Connection.objects.create(id=id, ...)] *)
Definition Connection_create (id : string) : M ConnectionRow :=
  connected ← now;
  active ← now;
  d ← get_db;
  if decide (id ∈ c_id <$> connections d)
  then raise (Exn IntegrityError "UNIQUE constraint failed: pubsub_connections.id")
  else
    let r := mkConnection id connected active true in
    put_db (with_connections (λ l, l ++ [r]) d);; mret r.

(** [Connection.update_activity], called on the attribute [self.connection] *)
Definition update_activity (conn : option string) : M unit :=
  match conn with
  | None => raise (Exn AttributeError "'NoneType' object has no attribute 'update_activity'")
  | Some c =>
    t ← now;
    d ← get_db;
    if decide (c ∈ c_id <$> connections d)
    then put_db (with_connections
                   (map (λ r, if decide (c_id r = c) then set_last_activity t r else r)) d)
    else raise (Exn DatabaseError "Save with update_fields did not affect any rows.")
  end.

(** The rows of [TopicSubscription.objects.filter(connection=c, topic=topic)] *)
Definition subscriptions_of (c : string) (tid : nat) (d : DB) : list SubscriptionRow :=
  filter (λ s, s_connection s = c ∧ s_topic s = tid) (subscriptions d).

(** [TopicSubscription.objects.get(connection=conn, topic=topic)] *)
Definition Subscription_get (conn : option string) (topic : TopicRow) : M SubscriptionRow :=
  match conn with
  | None => raise (Exn DoesNotExist "TopicSubscription matching query does not exist.")
  | Some c =>
    d ← get_db;
    match subscriptions_of c (t_id topic) d with
    | [] => raise (Exn DoesNotExist "TopicSubscription matching query does not exist.")
    | [s] => mret s
    | _ => raise (Exn MultipleObjectsReturned "get() returned more than one TopicSubscription")
    end
  end.

(** [TopicSubscription.objects.create(connection=conn, topic=topic, is_active=True)] *)
Definition Subscription_create (conn : option string) (topic : TopicRow) : M SubscriptionRow :=
  subscribed ← now;
  d ← get_db;
  match conn with
  | None => raise (Exn IntegrityError "NOT NULL constraint failed: pubsub_topic_subscriptions.connection_id")
  | Some c =>
    if decide (c ∈ c_id <$> connections d ∧ t_id topic ∈ t_id <$> topics d)
    then
      if decide (subscriptions_of c (t_id topic) d = [])
      then
        let s := mkSubscription (next_subscription_id d) c (t_id topic) subscribed true in
        put_db {| topics := topics d; connections := connections d;
                  subscriptions := subscriptions d ++ [s]; messages := messages d;
                  next_topic_id := next_topic_id d;
                  next_subscription_id := S (next_subscription_id d) |};;
        mret s
      else raise (Exn IntegrityError "UNIQUE constraint failed: pubsub_topic_subscriptions.connection_id, pubsub_topic_subscriptions.topic_id")
    else raise (Exn IntegrityError "FOREIGN KEY constraint failed")
  end.

(** [TopicSubscription.objects.get_or_create(connection=conn, topic=topic,
    defaults={'is_active': True})] *)
Definition Subscription_get_or_create (conn : option string) (topic : TopicRow)
  : M (SubscriptionRow * bool) :=
  try_except (s ← Subscription_get conn topic; mret (s, false))
    (λ e, if decide (exn_kind e = DoesNotExist)
          then s ← Subscription_create conn topic; mret (s, true)
          else raise e).

(** [subscription.save()]: UPDATE by primary key, INSERT when no row has it *)
Definition Subscription_save (s : SubscriptionRow) : M unit :=
  d ← get_db;
  if decide (s_id s ∈ s_id <$> subscriptions d)
  then put_db (with_subscriptions (map (λ r, if decide (s_id r = s_id s) then s else r)) d)
  else put_db (with_subscriptions (λ l, l ++ [s]) d).

(** [topic.subscriptions.filter(is_active=True).count()] *)
Definition active_count (tid : nat) (d : DB) : nat :=
  length (filter (λ s, s_topic s = tid ∧ s_is_active s = true) (subscriptions d)).

(** [TopicSubscription.objects.filter(topic=topic).count()] *)
Definition subscription_count (tid : nat) (d : DB) : nat :=
  length (filter (λ s, s_topic s = tid) (subscriptions d)).

(** [Message.objects.filter(topic=topic).count()] *)
Definition message_count (tid : nat) (d : DB) : nat :=
  length (filter (λ m, m_topic m = tid) (messages d)).

(** [Message.objects.create(topic=topic, publisher_connection=conn, data=data,
    metadata=metadata)] *)
Definition Message_create (topic : TopicRow) (conn : option string)
    (data metadata : json) : M MessageRow :=
  id ← uuid4;
  published ← now;
  d ← get_db;
  if bool_decide (t_id topic ∈ t_id <$> topics d) &&
     match conn with
     | Some c => bool_decide (c ∈ c_id <$> connections d)
     | None => true
     end
  then
    let m := mkMessage id (t_id topic) conn data published 0 3 metadata in
    put_db (with_messages (λ l, l ++ [m]) d);; mret m
  else raise (Exn IntegrityError "FOREIGN KEY constraint failed").

(** [order_by('-published_at')] *)
Definition newer_first (a b : MessageRow) : Prop := m_published_at b ≤ m_published_at a.

Global Instance newer_first_dec : RelDecision newer_first.
Proof. intros a b. unfold newer_first. apply _. Defined.

Definition order_by_published_desc (l : list MessageRow) : list MessageRow :=
  merge_sort newer_first l.

(** [Topic.objects.all()], under [Meta.ordering = ['-created_at']] *)
Definition created_later (a b : TopicRow) : Prop := t_created_at b ≤ t_created_at a.

Global Instance created_later_dec : RelDecision created_later.
Proof. intros a b. unfold created_later. apply _. Defined.

Definition Topic_all (d : DB) : list TopicRow :=
  merge_sort created_later (topics d).

(** ** Inbound frames *)

(** The members the consumer reads from a decoded frame.  [req_request_id] is
    [data.get('request_id')] with [JNull] for Python's [None]; [req_last_n]
    and [req_message] are [None] when the key is absent, so that the defaults
    of [data.get('last_n', 0)] and [data.get('message', {})] stay in the
    handlers. *)
Record Request : Type := mkRequest {
  req_type : option string;
  req_request_id : json;
  req_topic : option string;
  req_client_id : option string;
  req_last_n : option json;
  req_message : option json
}.

Inductive frame : Type :=
| Undecodable
| Decoded (data : Request).

(** ** The consumer ([consumers.py]) *)

(** The dict built by [send_error]: [request_id] is added only when truthy *)
Definition error_envelope (error_message : string) (request_id : json) (t : nat) : json :=
  let error_data :=
    [("type", JStr "error"); ("error", JStr error_message);
     ("timestamp", JStr (isoformat t))] in
  JObj (if truthy request_id then error_data ++ [("request_id", request_id)]
        else error_data).

(** [PubSubConsumer.send_error] *)
Definition send_error (self : nat) (error_message : string) (request_id : json) : M unit :=
  t ← now;
  send self (error_envelope error_message request_id t).

(** [PubSubConsumer.create_connection_record] *)
Definition create_connection_record (self : nat) : M bool :=
  try_except
    (me ← get_self self;
     id ← match connection_id me with Some id => mret id | None => uuid4 end;
     row ← Connection_create id;
     set_self self (λ c, mkConsumer (connection_id c) (client_id c)
                                    (subscribed_topics c) (Some (c_id row)));;
     mret true)
    (λ _, mret false).

(** [PubSubConsumer.connect] *)
Definition connect (self : nat) : M unit :=
  id ← uuid4;
  set_self self (λ c, mkConsumer (Some id) (client_id c)
                                 (subscribed_topics c) (connection c));;
  create_connection_record self;;
  t ← now;
  send self (JObj [("type", JStr "connected"); ("connection_id", JStr id);
                   ("status", JStr "success"); ("timestamp", JStr (isoformat t))]).

(** [_topic_connections[topic_name].discard(self)], then the eviction of an
    emptied entry; nothing happens when the topic has no entry *)
Definition registry_discard (topic_name : string) (self : nat) : M unit :=
  modify (λ w,
    match topic_connections w !! topic_name with
    | Some s =>
      let s' := s ∖ {[self]} in
      if decide (s' = ∅)
      then set_topic_connections (delete topic_name (topic_connections w)) w
      else set_topic_connections (<[topic_name := s']> (topic_connections w)) w
    | None => w
    end).

(** [PubSubConsumer.cleanup_connection].  The first statement deletes the
    subscription rows of the connection; [self.connection.delete()] then
    cascades over what refers to the row (subscriptions again, by [CASCADE];
    the publisher of messages, by [SET_NULL]) and deletes the row itself. *)
Definition cleanup_connection (self : nat) : M bool :=
  try_except
    (me ← get_self self;
     match connection me with
     | Some c =>
       d ← get_db;
       put_db (with_subscriptions (filter (λ s, s_connection s ≠ c)) d);;
       d ← get_db;
       put_db (with_messages
                 (map (λ m, if decide (m_publisher_connection m = Some c)
                            then set_publisher None m else m))
                 (with_subscriptions (filter (λ s, s_connection s ≠ c))
                    (with_connections (filter (λ r, c_id r ≠ c)) d)));;
       mret true
     | None => mret true
     end)
    (λ _, mret false).

(** [PubSubConsumer.disconnect] *)
Definition disconnect (self : nat) : M unit :=
  me ← get_self self;
  match nonempty (connection_id me) with
  | Some _ =>
    for_each (elements (subscribed_topics me))
             (λ topic_name, registry_discard topic_name self);;
    cleanup_connection self;;
    mret tt
  | None => mret tt
  end.

(** [PubSubConsumer.get_or_create_topic] *)
Definition get_or_create_topic (topic_name : string) : M (option TopicRow) :=
  try_except ('(topic, _) ← Topic_get_or_create topic_name; mret (Some topic))
             (λ _, mret None).

(** [PubSubConsumer.get_topic] *)
Definition get_topic (topic_name : string) : M (option TopicRow) :=
  try_except (topic ← Topic_get topic_name; mret (Some topic))
             (λ _, mret None).

(** [PubSubConsumer.subscribe_to_topic] *)
Definition subscribe_to_topic (self : nat) (topic : TopicRow) (client : string) : M bool :=
  try_except
    (me ← get_self self;
     '(subscription, created) ← Subscription_get_or_create (connection me) topic;
     (if created : bool then mret tt
      else Subscription_save (set_is_active true subscription));;
     d ← get_db;
     update_subscriber_count topic (active_count (t_id topic) d);;
     update_activity (connection me);;
     mret true)
    (λ _, mret false).

(** [PubSubConsumer.unsubscribe_from_topic] *)
Definition unsubscribe_from_topic (self : nat) (topic_name client : string) : M bool :=
  try_except
    (topic ← Topic_get topic_name;
     me ← get_self self;
     subscription ← Subscription_get (connection me) topic;
     Subscription_save (set_is_active false subscription);;
     d ← get_db;
     update_subscriber_count topic (active_count (t_id topic) d);;
     update_activity (connection me);;
     mret true)
    (λ _, mret false).

(** [PubSubConsumer.publish_message] *)
Definition publish_message (self : nat) (topic : TopicRow) (message_data : json)
    (client : string) : M (option string) :=
  try_except
    (me ← get_self self;
     message ← Message_create topic (connection me) message_data
                 (JObj [("client_id", JStr client)]);
     increment_message_count topic;;
     update_last_published topic;;
     update_activity (connection me);;
     mret (Some (m_id message)))
    (λ _, mret None).

(** [last_n > 0] *)
Definition gt_zero (v : json) : M bool :=
  match v with
  | JInt z => mret (0 <? z)%Z
  | JBool b => mret b
  | _ => raise (Exn TypeError ("'>' not supported between instances of '"
                               +:+ type_name v +:+ "' and 'int'"))
  end.

(** The stop of the slice [[:last_n]] of a queryset, checked when the slice
    is taken: [None] leaves the queryset without a limit, a negative number
    is refused, and a value that cannot be compared with [0] raises. *)
Definition slice_stop (v : json) : M (option Z) :=
  match v with
  | JNull => mret None
  | JInt z => if (z <? 0)%Z
              then raise (Exn ValueError "Negative indexing is not supported.")
              else mret (Some z)
  | JBool b => mret (Some (if b then 1 else 0)%Z)
  | _ => raise (Exn TypeError ("'<' not supported between instances of '"
                               +:+ type_name v +:+ "' and 'int'"))
  end.

(** The largest [LIMIT] the database takes, [2^63 - 1]: a larger literal is
    no integer for SQLite and the query fails with "datatype mismatch". *)
Definition max_limit : Z := 9223372036854775807.

(** The dict built for one row in [get_last_n_messages] *)
Definition history_envelope (topic : TopicRow) (message : MessageRow) : json :=
  JObj [("type", JStr "message");
        ("topic", JStr (t_name topic));
        ("message", JObj [("id", JStr (m_id message));
                          ("payload", m_data message);
                          ("timestamp", JStr (isoformat (m_published_at message)))])].

(** [Message.objects.filter(topic=topic).order_by('-published_at')[:n]] *)
Definition recent_messages (topic : TopicRow) (n : nat) (d : DB) : list MessageRow :=
  take n (order_by_published_desc (filter (λ m, m_topic m = t_id topic) (messages d))).

(** The rows of [Message.objects.filter(topic=topic).order_by('-published_at')[:stop]],
    fetched when the loop of [get_last_n_messages] starts *)
Definition fetch_recent (topic : TopicRow) (stop : option Z) : M (list MessageRow) :=
  d ← get_db;
  match stop with
  | None =>
    mret (order_by_published_desc (filter (λ m, m_topic m = t_id topic) (messages d)))
  | Some z =>
    if (max_limit <? z)%Z
    then raise (Exn IntegrityError "datatype mismatch")
    else mret (recent_messages topic (Z.to_nat z) d)
  end.

(** [PubSubConsumer.get_last_n_messages] *)
Definition get_last_n_messages (topic : TopicRow) (last_n : json) : M (list json) :=
  try_except
    (stop ← slice_stop last_n;
     rows ← fetch_recent topic stop;
     mret (history_envelope topic <$> rows))
    (λ _, mret []).

(** [PubSubConsumer.send_last_n_messages_async] *)
Definition send_last_n_messages_async (self : nat) (topic : TopicRow) (last_n : json)
    (request_id : json) : M unit :=
  try_except
    (messages_data ← get_last_n_messages topic last_n;
     for_each messages_data (λ message_data, send self message_data))
    (λ _, mret tt).

(** [PubSubConsumer.update_connection_activity] *)
Definition update_connection_activity (self : nat) : M bool :=
  try_except
    (me ← get_self self;
     match connection me with
     | Some c => update_activity (Some c);; mret true
     | None => mret true
     end)
    (λ _, mret false).

(** The envelope acknowledging a subscribe *)
Definition subscribed_ack (topic_name client : string) (request_id : json) (t : nat) : json :=
  JObj [("type", JStr "subscribed"); ("topic", JStr topic_name);
        ("client_id", JStr client); ("request_id", request_id);
        ("status", JStr "success"); ("timestamp", JStr (isoformat t))].

(** The envelope acknowledging an unsubscribe *)
Definition unsubscribed_ack (topic_name client : string) (request_id : json) (t : nat) : json :=
  JObj [("type", JStr "unsubscribed"); ("topic", JStr topic_name);
        ("client_id", JStr client); ("request_id", request_id);
        ("status", JStr "success"); ("timestamp", JStr (isoformat t))].

(** [self._topic_connections[topic_name].add(self)], creating the entry first *)
Definition registry_add (topic_name : string) (self : nat) : M unit :=
  modify (λ w,
    set_topic_connections
      (<[topic_name := default ∅ (topic_connections w !! topic_name) ∪ {[self]}]>
         (topic_connections w)) w).

(** [PubSubConsumer.handle_subscribe] *)
Definition handle_subscribe (self : nat) (data : Request) (request_id : json) : M unit :=
  try_except
    (let last_n := default (JInt 0) (req_last_n data) in
     match nonempty (req_topic data) with
     | None => send_error self "Missing topic name" request_id
     | Some topic_name =>
       match nonempty (req_client_id data) with
       | None => send_error self "Missing client_id" request_id
       | Some client =>
         set_self self (λ c, mkConsumer (connection_id c) (Some client)
                                        (subscribed_topics c) (connection c));;
         topic ← get_or_create_topic topic_name;
         match topic with
         | None =>
           send_error self ("Failed to get/create topic: " +:+ topic_name) request_id
         | Some topic =>
           success ← subscribe_to_topic self topic client;
           if success : bool then
             set_self self (λ c, mkConsumer (connection_id c) (client_id c)
                                   (subscribed_topics c ∪ {[topic_name]}) (connection c));;
             registry_add topic_name self;;
             t ← now;
             send self (subscribed_ack topic_name client request_id t);;
             wanted ← gt_zero last_n;
             if wanted : bool
             then send_last_n_messages_async self topic last_n request_id
             else mret tt
           else
             send_error self ("Failed to subscribe to topic: " +:+ topic_name) request_id
         end
       end
     end)
    (λ e, send_error self ("Subscribe error: " +:+ exn_msg e) request_id).

(** [PubSubConsumer.handle_unsubscribe] *)
Definition handle_unsubscribe (self : nat) (data : Request) (request_id : json) : M unit :=
  try_except
    (match nonempty (req_topic data) with
     | None => send_error self "Missing topic name" request_id
     | Some topic_name =>
       match nonempty (req_client_id data) with
       | None => send_error self "Missing client_id" request_id
       | Some client =>
         success ← unsubscribe_from_topic self topic_name client;
         if success : bool then
           set_self self (λ c, mkConsumer (connection_id c) (client_id c)
                                 (subscribed_topics c ∖ {[topic_name]}) (connection c));;
           registry_discard topic_name self;;
           t ← now;
           send self (unsubscribed_ack topic_name client request_id t)
         else
           send_error self ("Failed to unsubscribe from topic: " +:+ topic_name) request_id
       end
     end)
    (λ e, send_error self ("Unsubscribe error: " +:+ exn_msg e) request_id).

(** The envelope fanned out by [broadcast_message] *)
Definition broadcast_envelope (topic_name : string) (payload : json) (message_id : string)
    (publisher_client_id : string) (t : nat) : json :=
  JObj [("type", JStr "message");
        ("topic", JStr topic_name);
        ("message", JObj [("id", JStr message_id);
                          ("payload", payload);
                          ("timestamp", JStr (isoformat t))]);
        ("publisher_client_id", JStr publisher_client_id)].

(** [message_data.get('payload', {})] *)
Definition payload_of (message_data : json) : M json :=
  match message_data with
  | JObj members => mret (default (JObj []) (obj_get "payload" members))
  | _ => raise (Exn AttributeError ("'" +:+ type_name message_data
                                    +:+ "' object has no attribute 'get'"))
  end.

(** [self._topic_connections[topic_name].discard(connection)] on the live set *)
Definition registry_drop_failed (topic_name : string) (failed : nat) : M unit :=
  w ← get_world;
  match topic_connections w !! topic_name with
  | Some s => modify (set_topic_connections
                        (<[topic_name := s ∖ {[failed]}]> (topic_connections w)))
  | None => raise (Exn KeyError topic_name)
  end.

(** The body of the loop of [broadcast_message]: the publisher is skipped, a
    send that raises removes the handle from the live set *)
Definition fan_out_step (self : nat) (topic_name : string) (frame : json) (conn : nat)
  : M unit :=
  if decide (conn ≠ self)
  then try_except (send conn frame) (λ _, registry_drop_failed topic_name conn)
  else mret tt.

(** [PubSubConsumer.broadcast_message] *)
Definition broadcast_message (self : nat) (topic_name : string) (message_data : json)
    (message_id publisher_client_id : string) : M unit :=
  try_except
    (payload ← payload_of message_data;
     t ← now;
     let broadcast_data :=
       broadcast_envelope topic_name payload message_id publisher_client_id t in
     w ← get_world;
     match topic_connections w !! topic_name with
     | Some active_connections =>
       for_each (elements active_connections)
                (fan_out_step self topic_name broadcast_data)
     | None => mret tt
     end)
    (λ _, mret tt).

(** [PubSubConsumer.handle_publish] *)
Definition handle_publish (self : nat) (data : Request) (request_id : json) : M unit :=
  try_except
    (let message_data := default (JObj []) (req_message data) in
     match nonempty (req_topic data) with
     | None => send_error self "Missing topic name" request_id
     | Some topic_name =>
       if negb (truthy message_data)
       then send_error self "Missing message data" request_id
       else
         match nonempty (req_client_id data) with
         | None => send_error self "Missing client_id" request_id
         | Some client =>
           topic ← get_topic topic_name;
           match topic with
           | None => send_error self ("Topic not found: " +:+ topic_name) request_id
           | Some topic =>
             message_id ← publish_message self topic message_data client;
             match nonempty message_id with
             | None =>
               send_error self ("Failed to publish message to topic: " +:+ topic_name)
                          request_id
             | Some message_id =>
               t ← now;
               send self (JObj [("type", JStr "published"); ("topic", JStr topic_name);
                                ("message_id", JStr message_id);
                                ("client_id", JStr client);
                                ("request_id", request_id);
                                ("status", JStr "success");
                                ("timestamp", JStr (isoformat t))]);;
               broadcast_message self topic_name message_data message_id client
             end
           end
         end
     end)
    (λ e, send_error self ("Publish error: " +:+ exn_msg e) request_id).

(** [PubSubConsumer.handle_ping] *)
Definition handle_ping (self : nat) (data : Request) (request_id : json) : M unit :=
  try_except
    (update_connection_activity self;;
     t ← now;
     send self (JObj [("type", JStr "pong"); ("request_id", request_id);
                      ("timestamp", JStr (isoformat t))]))
    (λ e, send_error self ("Ping error: " +:+ exn_msg e) request_id).

(** The deletion notice *)
Definition topic_deleted_notice (topic_name : string) (t : nat) : json :=
  JObj [("type", JStr "info"); ("topic", JStr topic_name);
        ("msg", JStr "topic_deleted"); ("ts", JStr (isoformat t))].

(** The loop of [notify_topic_deleted].  It iterates over the local copy
    [connections] and, when a send raises, discards from that same copy; a
    Python set iterator whose set has changed size raises [RuntimeError] the
    next time it is advanced, also when no element is left. *)
Fixpoint notify_loop (pending : list nat) (connections : gset nat) (notice : json)
  : M (gset nat) :=
  match pending with
  | [] => mret connections
  | conn :: rest =>
    connections' ← try_except (send conn notice;; mret connections)
                              (λ _, mret (connections ∖ {[conn]}));
    if decide (size connections' = size connections)
    then notify_loop rest connections' notice
    else raise (Exn RuntimeError "Set changed size during iteration")
  end.

(** [PubSubConsumer.notify_topic_deleted] (a classmethod) *)
Definition notify_topic_deleted (topic_name : string) : M unit :=
  try_except
    (w ← get_world;
     match topic_connections w !! topic_name with
     | Some registered =>
       t ← now;
       let notification_data := topic_deleted_notice topic_name t in
       let connections := registered in
       _ ← notify_loop (elements connections) connections notification_data;
       modify (λ w, set_topic_connections (delete topic_name (topic_connections w)) w)
     | None => mret tt
     end)
    (λ _, mret tt).

Section Receive.

(** [uuid_parses s] says that the standard library's [uuid.UUID(s)] returns
    for the string [s]; on any other string it raises [ValueError]. *)
Variable uuid_parses : string → bool.

(** [PubSubConsumer.is_valid_uuid].  [uuid.UUID] starts with
    [hex.replace(...)], an [AttributeError] on a value that is not a string,
    which the [except ValueError] clause lets through. *)
Definition is_valid_uuid (uuid_string : json) : M bool :=
  match uuid_string with
  | JStr s => mret (uuid_parses s)
  | _ => raise (Exn AttributeError ("'" +:+ type_name uuid_string
                                    +:+ "' object has no attribute 'replace'"))
  end.

(** [PubSubConsumer.receive] *)
Definition receive (self : nat) (text_data : frame) : M unit :=
  try_except
    (match text_data with
     | Undecodable => raise (Exn JSONDecodeError "Expecting value")
     | Decoded data =>
       let message_type := req_type data in
       let request_id := req_request_id data in
       valid ← (if truthy request_id then is_valid_uuid request_id else mret false);
       if negb valid
       then send_error self "Invalid or missing request_id" JNull
       else
         if decide (message_type = Some "subscribe")
         then handle_subscribe self data request_id
         else if decide (message_type = Some "unsubscribe")
         then handle_unsubscribe self data request_id
         else if decide (message_type = Some "publish")
         then handle_publish self data request_id
         else if decide (message_type = Some "ping")
         then handle_ping self data request_id
         else send_error self ("Unknown message type: " +:+ fmt message_type) request_id
     end)
    (λ e, if decide (exn_kind e = JSONDecodeError)
          then send_error self "Invalid JSON format" JNull
          else send_error self ("Internal error: " +:+ exn_msg e) JNull).

End Receive.

(** ** The HTTP control plane ([views.py]) *)

(** What a view hands back.  [MessagePage] stands for the dict
    [{'topic': .., 'messages': MessageSerializer(rows, many=True).data,
      'total_count': .., 'limit': .., 'offset': ..}]. *)
Inductive body : Type :=
| JsonBody (data : json)
| MessagePage (topic : string) (rows : list MessageRow) (total_count : nat)
              (limit offset : Z).

Record HttpResponse : Type := Response { status : nat; content : body }.

Definition error_body (msg : string) : body := JsonBody (JObj [("error", JStr msg)]).

(** The names bound at module level in [views.py]: its imports, the start
    time, the pagination class and the views themselves. *)
Definition views_globals : list string :=
  ["status"; "api_view"; "permission_classes"; "AllowAny"; "Response";
   "PageNumberPagination"; "timezone"; "transaction"; "Count"; "Q"; "render";
   "csrf_exempt"; "JsonResponse"; "async_to_sync"; "get_channel_layer";
   "json"; "time";
   "Topic"; "Connection"; "TopicSubscription"; "Message";
   "TopicSerializer"; "TopicCreateSerializer"; "TopicDetailSerializer";
   "TopicListResponseSerializer"; "TopicCreateResponseSerializer";
   "TopicDeleteResponseSerializer";
   "SYSTEM_START_TIME"; "TopicPagination";
   "health_check"; "get_stats"; "list_topics"; "create_topic";
   "get_topic_detail"; "delete_topic"; "get_topic_subscribers";
   "get_topic_messages"; "dashboard"; "websocket_test"; "publisher_view";
   "subscriber_view"].

(** Evaluating a global name inside a view *)
Definition global_name (name : string) : M unit :=
  if decide (name ∈ views_globals) then mret tt
  else raise (Exn NameError ("name '" +:+ name +:+ "' is not defined")).

(** A query parameter: missing, text that [int()] reads as [z], or text on
    which [int()] raises [ValueError] *)
Inductive qparam : Type :=
| Absent
| Digits (z : Z)
| Junk (s : string).

(** [int(request.query_params.get(name, dflt))] *)
Definition int_param (p : qparam) (dflt : Z) : M Z :=
  match p with
  | Absent => mret dflt
  | Digits z => mret z
  | Junk s => raise (Exn ValueError ("invalid literal for int() with base 10: '"
                                     +:+ s +:+ "'"))
  end.

(** [queryset[start:stop]]: the bounds are checked when the slice is taken,
    the rows are fetched when the queryset is evaluated *)
Definition check_slice (start stop : Z) : M unit :=
  if ((start <? 0) || (stop <? 0))%Z
  then raise (Exn ValueError "Negative indexing is not supported.")
  else mret tt.

Definition slice_rows {A} (start stop : Z) (l : list A) : list A :=
  take (Z.to_nat stop - Z.to_nat start) (drop (Z.to_nat start) l).

(** [views.health_check]; [uptime] is [int(time.time() - SYSTEM_START_TIME)] *)
Definition health_check (uptime : nat) : M HttpResponse :=
  try_except
    (d ← get_db;
     let topics_count := length (topics d) in
     let subscribers_count := length (subscriptions d) in
     mret (Response 200 (JsonBody (JObj [("uptime_sec", JInt (Z.of_nat uptime));
                                         ("topics", JInt (Z.of_nat topics_count));
                                         ("subscribers", JInt (Z.of_nat subscribers_count))]))))
    (λ e, mret (Response 500 (error_body ("Health check failed: " +:+ exn_msg e)))).

(** The entry of one topic in [stats_data["topics"]] *)
Definition stats_entry (d : DB) (topic : TopicRow) : string * json :=
  (t_name topic,
   JObj [("messages", JInt (Z.of_nat (message_count (t_id topic) d)));
         ("subscribers", JInt (Z.of_nat (subscription_count (t_id topic) d)))]).

(** [views.get_stats] *)
Definition get_stats : M HttpResponse :=
  try_except
    (d ← get_db;
     mret (Response 200 (JsonBody (JObj [("topics", JObj (stats_entry d <$> Topic_all d))]))))
    (λ e, mret (Response 500 (error_body ("Failed to get stats: " +:+ exn_msg e)))).

(** The dict appended to [topics_data] for one topic *)
Definition topic_entry (d : DB) (topic : TopicRow) : json :=
  JObj [("name", JStr (t_name topic));
        ("subscribers", JInt (Z.of_nat (subscription_count (t_id topic) d)))].

(** [views.list_topics] *)
Definition list_topics : M HttpResponse :=
  try_except
    (d ← get_db;
     mret (Response 200 (JsonBody (JObj [("topics", JArr (topic_entry d <$> Topic_all d))]))))
    (λ e, mret (Response 500 (error_body ("Failed to list topics: " +:+ exn_msg e)))).

(** [Topic.objects.get(name=..)] inside its own [try]/[except Topic.DoesNotExist] *)
Definition find_topic (topic_name : string) : M (option TopicRow) :=
  try_except (topic ← Topic_get topic_name; mret (Some topic))
             (λ e, if decide (exn_kind e = DoesNotExist) then mret None else raise e).

(** [views.delete_topic].  The notification thread is run to completion on
    the spot.  The view is a plain Django view; what the framework makes of
    the REST-framework [Response] of its 404 branch is not modelled. *)
Definition delete_topic (topic_name : string) : M HttpResponse :=
  try_except
    (found ← find_topic topic_name;
     match found with
     | None => mret (Response 404 (error_body "Topic not found"))
     | Some topic =>
       d ← get_db;
       put_db (with_subscriptions (filter (λ s, s_topic s ≠ t_id topic)) d);;
       d ← get_db;
       put_db (with_messages (filter (λ m, m_topic m ≠ t_id topic)) d);;
       d ← get_db;
       put_db (with_topics (filter (λ r, t_id r ≠ t_id topic)) d);;
       try_except (notify_topic_deleted topic_name) (λ _, mret tt);;
       mret (Response 200 (JsonBody (JObj [("status", JStr "deleted");
                                           ("topic", JStr topic_name)])))
     end)
    (λ e, mret (Response 500 (error_body ("Failed to delete topic: " +:+ exn_msg e)))).

(** [views.get_topic_messages] *)
Definition get_topic_messages (topic_name : string) (limit_param offset_param : qparam)
  : M HttpResponse :=
  try_except
    (found ← find_topic topic_name;
     match found with
     | None => mret (Response 404 (error_body "Topic not found"))
     | Some topic =>
       requested ← int_param limit_param 50;
       let limit := Z.min requested 100 in
       offset ← int_param offset_param 0;
       check_slice offset (offset + limit);;
       global_name "MessageSerializer";;
       d ← get_db;
       let rows :=
         slice_rows offset (offset + limit)
           (order_by_published_desc (filter (λ m, m_topic m = t_id topic) (messages d))) in
       mret (Response 200 (MessagePage topic_name rows (t_message_count topic) limit offset))
     end)
    (λ e, mret (Response 500 (error_body ("Failed to get topic messages: " +:+ exn_msg e)))).

(** ** Creating a topic, the detail of a topic, the active subscriptions *)

(** The body of a request: text on which [json.loads] raises
    [JSONDecodeError], or the document it decodes to. *)
Inductive http_body : Type :=
| Unparsable
| Document (data : json).

Record HttpRequest : Type := mkHttpRequest {
  method : string;
  request_body : http_body
}.

(** [Topic.objects.create(name=.., metadata=..)] with a [metadata] taken from
    the request: the column is not nullable, and Python's [None] is written
    as SQL [NULL]. *)
Definition Topic_insert (name : string) (metadata : json) : M TopicRow :=
  match metadata with
  | JNull => raise (Exn IntegrityError "NOT NULL constraint failed: pubsub_topics.metadata")
  | _ => Topic_create name metadata
  end.

Section CreateTopic.

(** [strip s] is Python's [s.strip()]. *)
Variable strip : string → string.

(** [data.get('name', '').strip()] *)
Definition stripped_name (data : json) : M string :=
  match data with
  | JObj members =>
    match default (JStr "") (obj_get "name" members) with
    | JStr s => mret (strip s)
    | v => raise (Exn AttributeError ("'" +:+ type_name v
                                      +:+ "' object has no attribute 'strip'"))
    end
  | _ => raise (Exn AttributeError ("'" +:+ type_name data
                                    +:+ "' object has no attribute 'get'"))
  end.

(** [data.get('metadata', {})] *)
Definition metadata_of (data : json) : M json :=
  match data with
  | JObj members => mret (default (JObj []) (obj_get "metadata" members))
  | _ => raise (Exn AttributeError ("'" +:+ type_name data
                                    +:+ "' object has no attribute 'get'"))
  end.

(** [views.create_topic] *)
Definition create_topic (request : HttpRequest) : M HttpResponse :=
  if decide (method request ≠ "POST")
  then mret (Response 405 (error_body "Method not allowed"))
  else
    try_except
      (data ← match request_body request with
              | Unparsable => raise (Exn JSONDecodeError "Expecting value")
              | Document data => mret data
              end;
       topic_name ← stripped_name data;
       metadata ← metadata_of data;
       if String.eqb topic_name ""
       then mret (Response 400 (error_body "Topic name cannot be empty"))
       else
         d ← get_db;
         if decide (topic_name ∈ t_name <$> topics d)
         then mret (Response 409 (error_body "Topic already exists"))
         else
           Topic_insert topic_name metadata;;
           mret (Response 201 (JsonBody (JObj [("status", JStr "created");
                                               ("topic", JStr topic_name)]))))
      (λ e, if decide (exn_kind e = JSONDecodeError)
            then mret (Response 400 (error_body "Invalid JSON"))
            else mret (Response 500 (error_body ("Failed to create topic: " +:+ exn_msg e)))).

End CreateTopic.

Section TopicDetail.

(** [datetime_repr t] is the text the REST framework's [DateTimeField]
    renders for the time [t]. *)
Variable datetime_repr : nat → string.

(** [TopicDetailSerializer(topic).data]; [subscriptions_count] is
    [get_subscriptions_count] *)
Definition topic_detail (d : DB) (topic : TopicRow) : json :=
  JObj [("name", JStr (t_name topic));
        ("created_at", JStr (datetime_repr (t_created_at topic)));
        ("last_published", match t_last_published topic with
                           | Some t => JStr (datetime_repr t)
                           | None => JNull
                           end);
        ("message_count", JInt (Z.of_nat (t_message_count topic)));
        ("subscriber_count", JInt (Z.of_nat (t_subscriber_count topic)));
        ("is_active", JBool (t_is_active topic));
        ("metadata", t_metadata topic);
        ("subscriptions_count", JInt (Z.of_nat (active_count (t_id topic) d)))].

(** [views.get_topic_detail] *)
Definition get_topic_detail (topic_name : string) : M HttpResponse :=
  try_except
    (found ← find_topic topic_name;
     match found with
     | None => mret (Response 404 (error_body "Topic not found"))
     | Some topic =>
       d ← get_db;
       mret (Response 200 (JsonBody (topic_detail d topic)))
     end)
    (λ e, mret (Response 500 (error_body ("Failed to get topic details: " +:+ exn_msg e)))).

End TopicDetail.

(** [Meta.ordering = ['-subscribed_at']] of [TopicSubscription] *)
Definition subscribed_later (a b : SubscriptionRow) : Prop :=
  s_subscribed_at b ≤ s_subscribed_at a.

Global Instance subscribed_later_dec : RelDecision subscribed_later.
Proof. intros a b. unfold subscribed_later. apply _. Defined.

(** [PubSubConsumer.get_topic_subscriptions] *)
Definition get_topic_subscriptions (topic_name : string) : M (list SubscriptionRow) :=
  try_except
    (topic ← Topic_get topic_name;
     d ← get_db;
     mret (merge_sort subscribed_later
             (filter (λ s, s_topic s = t_id topic ∧ s_is_active s = true)
                     (subscriptions d))))
    (λ _, mret []).

(** ** Running the broker *)

(** The state after a computation, whatever it returned *)
Definition run {A} (m : M A) (w : World) : World := (m w).2.

(** The frames that reached the peer of [h], oldest first *)
Definition delivered (h : nat) (evs : list event) : list json :=
  omap (λ e, match e with
             | Sent h' f => if decide (h' = h) then Some f else None
             | SendFailed _ _ => None
             end) evs.

(** Every handle on which a send was tried, oldest first *)
Definition attempted (evs : list event) : list nat :=
  (λ e, match e with Sent h _ => h | SendFailed h _ => h end) <$> evs.

(** The events a computation adds to the trace of [w] *)
Definition new_events {A} (m : M A) (w : World) : list event :=
  drop (length (trace w)) (trace (run m w)).

(** What one send of [frame] to [h] leaves in the trace of a state whose
    closed sockets are [gone] *)
Definition send_outcome (gone : gset nat) (frame : json) (h : nat) : event :=
  if decide (h ∈ gone) then SendFailed h frame else Sent h frame.

(** Several events added to the trace at once *)
Definition log_events (evs : list event) (w : World) : World :=
  {| db := db w; topic_connections := topic_connections w;
     consumers := consumers w; trace := trace w ++ evs; clock := clock w;
     uuid_counter := uuid_counter w; closed := closed w |}.

(** ** Notions used in the statements *)

(** The constraints the database keeps: primary keys, [unique=True] on
    [Topic.name], [unique_together] on subscriptions, and the sequences ahead
    of the keys in use. *)
Record schema_ok (d : DB) : Prop := {
  topic_names_unique : NoDup (t_name <$> topics d);
  topic_ids_unique : NoDup (t_id <$> topics d);
  topic_ids_bounded : Forall (λ r, t_id r < next_topic_id d) (topics d);
  connection_ids_unique : NoDup (c_id <$> connections d);
  subscription_ids_unique : NoDup (s_id <$> subscriptions d);
  subscription_ids_bounded :
    Forall (λ s, s_id s < next_subscription_id d) (subscriptions d);
  unique_together :
    NoDup ((λ s, (s_connection s, s_topic s)) <$> subscriptions d)
}.

(** The connection [c] of consumer [self] is in the store and its socket is
    open. *)
Definition live (w : World) (self : nat) (c : string) : Prop :=
  connection (self_of w self) = Some c ∧
  c ∈ c_id <$> connections (db w) ∧
  self ∉ closed w.

(** Nothing outside the store and the clocks differs between two states. *)
Definition quiet (w w' : World) : Prop :=
  topic_connections w' = topic_connections w ∧ consumers w' = consumers w ∧
  trace w' = trace w ∧ closed w' = closed w.


(** A computation after which the subscription table has at least as many
    rows as before, from any state and whatever it returns *)
Definition keeps_rows {A} (m : M A) : Prop :=
  ∀ w, length (subscriptions (db w)) ≤ length (subscriptions (db (m w).2)).

(** The keys of the subscription table are distinct and behind the sequence. *)
Definition ids_ok (d : DB) : Prop :=
  NoDup (s_id <$> subscriptions d) ∧
  Forall (λ s, s_id s < next_subscription_id d) (subscriptions d).

(** From a table with sound keys, the rows of [d] are still in [d'], in place
    and for the same topics, possibly followed by new ones. *)
Definition rows_extend (d d' : DB) : Prop :=
  ids_ok d →
  ids_ok d' ∧ (s_topic <$> subscriptions d) `prefix_of` (s_topic <$> subscriptions d').

(** From a store satisfying [P], the computation extends the rows wherever it
    stops, and a value it returns satisfies [Q] in the store it leaves. *)
Definition triple {A} (P : DB → Prop) (m : M A) (Q : A → DB → Prop) : Prop :=
  ∀ w, P (db w) →
       rows_extend (db w) (db (m w).2) ∧ ∀ a, (m w).1 = Ok a → Q a (db (m w).2).

Definition keeps_topics {A} (m : M A) : Prop := triple (λ _, True) m (λ _ _, True).

(** ** The effect of the ORM calls on the tables *)

(** The effect of [update_subscriber_count] on the tables *)
Definition db_set_count (topic : TopicRow) (n : nat) (d : DB) : DB :=
  with_topics (map (λ r, if decide (t_id r = t_id topic)
                         then set_subscriber_count n r else r)) d.

(** The effect of [update_activity] on the tables *)
Definition db_touch (c : string) (t : nat) (d : DB) : DB :=
  with_connections (map (λ r, if decide (c_id r = c) then set_last_activity t r else r)) d.

(** The effect of saving an existing subscription row *)
Definition db_save_subscription (s : SubscriptionRow) (d : DB) : DB :=
  with_subscriptions (map (λ r, if decide (s_id r = s_id s) then s else r)) d.

(** The effect of inserting a subscription row *)
Definition db_add_subscription (s : SubscriptionRow) (d : DB) : DB :=
  {| topics := topics d; connections := connections d;
     subscriptions := subscriptions d ++ [s]; messages := messages d;
     next_topic_id := next_topic_id d;
     next_subscription_id := S (next_subscription_id d) |}.

(** The effect of inserting a topic row *)
Definition db_add_topic (r : TopicRow) (d : DB) : DB :=
  {| topics := topics d ++ [r]; connections := connections d;
     subscriptions := subscriptions d; messages := messages d;
     next_topic_id := S (next_topic_id d);
     next_subscription_id := next_subscription_id d |}.

(** The state in which the recount and the activity stamp that end
    [subscribe_to_topic] and [unsubscribe_from_topic] leave [w] *)
Definition after_recount (topic : TopicRow) (c : string) (w : World) : World :=
  set_db (db_touch c (clock w)
            (db_set_count topic (active_count (t_id topic) (db w)) (db w)))
         (tick w).

(** The tables after connection [c] has unsubscribed through its row [s] of
    [topic]: the row is saved with the flag cleared, the counter is recounted
    and the activity stamped. *)
Definition db_unsubscribed (topic : TopicRow) (c : string) (s : SubscriptionRow)
    (w : World) : DB :=
  db (after_recount topic c
        (set_db (db_save_subscription (set_is_active false s) (db w)) w)).

(** The frames that follow the [subscribed] ack for an integer [last_n]: none
    unless it is positive and a limit the database takes *)
Definition history_frames (topic : TopicRow) (z : Z) (d : DB) : list json :=
  if ((0 <? z) && (z <=? max_limit))%Z
  then history_envelope topic <$> recent_messages topic (Z.to_nat z) d
  else [].

(** ** Sample frames and scenarios *)

Definition sample_request_id : json := JStr "9f1c2d3e-4b5a-4c6d-8e7f-0a1b2c3d4e5f".

Definition subscribe_frame (topic client : string) (last_n : option json) : Request :=
  mkRequest (Some "subscribe") sample_request_id (Some topic) (Some client) last_n None.

Definition unsubscribe_frame (topic client : string) : Request :=
  mkRequest (Some "unsubscribe") sample_request_id (Some topic) (Some client) None None.

Definition publish_frame (topic client : string) (message : json) : Request :=
  mkRequest (Some "publish") sample_request_id (Some topic) (Some client) None (Some message).

(** A [uuid_parses] for the scenarios: the 8-4-4-4-12 form in hexadecimal
    digits, which [uuid.UUID] accepts. *)
Definition is_hex_digit (a : Ascii.ascii) : bool :=
  let n := Ascii.nat_of_ascii a in
  ((48 <=? n) && (n <=? 57)) || ((65 <=? n) && (n <=? 70)) || ((97 <=? n) && (n <=? 102)).

Fixpoint canonical_from (i : nat) (s : string) : bool :=
  match s with
  | EmptyString => Nat.eqb i 36
  | String a rest =>
    (if (Nat.eqb i 8 || Nat.eqb i 13 || Nat.eqb i 18 || Nat.eqb i 23)%bool
     then Ascii.eqb a "-"%char else is_hex_digit a)
    && canonical_from (S i) rest
  end.

Definition canonical_uuid (s : string) : bool := canonical_from 0 s.

(** Handle 1 has connected and nothing else has happened. *)
Definition alice_connected : World := run (connect 1) empty_world.



(** Handle 1 connects and subscribes to "news" as alice. *)
Definition alice_subscribed : World :=
  run (handle_subscribe 1 (subscribe_frame "news" "alice" None) sample_request_id)
      (run (connect 1) empty_world).

(** Alice then publishes one message to "news". *)
Definition alice_published : World :=
  run (handle_publish 1 (publish_frame "news" "alice"
                           (JObj [("payload", JObj [("seq", JInt 1)])]))
                      sample_request_id)
      alice_subscribed.

(** Handle 2 connects after that publish. *)
Definition bob_connected : World := run (connect 2) alice_published.

(** Handles 1 and 2 are both subscribed to "goner"; the set iterates as 2, 1. *)
Definition two_on_goner : World :=
  run (handle_subscribe 2 (subscribe_frame "goner" "bob" None) sample_request_id)
      (run (connect 2)
           (run (handle_subscribe 1 (subscribe_frame "goner" "alice" None) sample_request_id)
                (run (connect 1) empty_world))).




(** A [strip] for the scenarios: it removes the white space of ASCII at both
    ends, which is what [str.strip] does on ASCII text. *)
Definition is_space (a : Ascii.ascii) : bool :=
  let n := Ascii.nat_of_ascii a in
  ((9 <=? n) && (n <=? 13)) || ((28 <=? n) && (n <=? 32)).

Fixpoint lstrip (s : string) : string :=
  match s with
  | EmptyString => EmptyString
  | String a rest => if is_space a then lstrip rest else s
  end.

Fixpoint rstrip (s : string) : string :=
  match s with
  | EmptyString => EmptyString
  | String a rest =>
    match rstrip rest with
    | EmptyString => if is_space a then EmptyString else String a EmptyString
    | kept => String a kept
    end
  end.

Definition strip_ascii (s : string) : string := rstrip (lstrip s).

(** A request that creates the topic "orders" *)
Definition create_orders : HttpRequest :=
  mkHttpRequest "POST" (Document (JObj [("name", JStr "  orders ")])).

(** ** Pre- and postconditions, and what the broker keeps true *)

(** From a state satisfying [P], the computation either returns a value
    satisfying [Q] in the state it leaves, or raises in a state satisfying
    [E]. *)
Definition hoare {A} (P : World → Prop) (m : M A) (Q : A → World → Prop)
    (E : World → Prop) : Prop :=
  ∀ w, P w → match m w with
             | (Ok a, w') => Q a w'
             | (Raise _, w') => E w'
             end.

(** [I] holds after the computation when it held before, whether it returns
    or raises. *)
Definition preserves {A} (I : World → Prop) (m : M A) : Prop := hoare I m (λ _, I) I.

(** The columns of a topic no frame writes *)
Definition topic_key (r : TopicRow) : nat * string * nat * bool * json :=
  (t_id r, t_name r, t_created_at r, t_is_active r, t_metadata r).

(** The columns of a connection no frame writes *)
Definition connection_key (r : ConnectionRow) : string * nat * bool :=
  (c_id r, c_connected_at r, c_is_active r).

(** What may differ between a state and a later one when only frames have
    been handled in between: rows are appended to the topics and to the
    messages, the trace gets longer and the clocks advance. *)
Record grows (w w' : World) : Prop := {
  grows_closed : closed w' = closed w;
  grows_connections :
    connection_key <$> connections (db w') = connection_key <$> connections (db w);
  grows_topics : (topic_key <$> topics (db w)) `prefix_of` (topic_key <$> topics (db w'));
  grows_messages : messages (db w) `prefix_of` messages (db w');
  grows_trace : trace w `prefix_of` trace w';
  grows_clock : clock w ≤ clock w';
  grows_uuid : uuid_counter w ≤ uuid_counter w'
}.

(** The foreign keys point at rows that exist. *)
Record refs_ok (d : DB) : Prop := {
  subscription_refs :
    Forall (λ s, s_connection s ∈ c_id <$> connections d ∧ s_topic s ∈ t_id <$> topics d)
           (subscriptions d);
  message_refs :
    Forall (λ m, m_topic m ∈ t_id <$> topics d ∧
                 ∀ c, m_publisher_connection m = Some c → c ∈ c_id <$> connections d)
           (messages d)
}.

(** The stored [message_count] of every topic is the number of its stored
    messages. *)
Definition counted (d : DB) : Prop :=
  Forall (λ r, t_message_count r = message_count (t_id r) d) (topics d).

(** A handle in the set of a topic has that topic in its own
    [subscribed_topics]. *)
Definition tracked (w : World) : Prop :=
  ∀ h topic_name,
    h ∈ default ∅ (topic_connections w !! topic_name) →
    topic_name ∈ subscribed_topics (self_of w h).

(** The text [id] was drawn from [uuid4] before. *)
Definition issued (w : World) (id : string) : Prop :=
  ∃ n, n < uuid_counter w ∧ id = uuid_text n.

(** The state of a broker that has run for a while *)
Record sound (w : World) : Prop := {
  sound_schema : schema_ok (db w);
  sound_refs : refs_ok (db w);
  sound_counted : counted (db w);
  sound_tracked : tracked w;
  sound_stamped : Forall (λ m, m_published_at m < clock w) (messages (db w));
  sound_connection_ids : Forall (issued w) (c_id <$> connections (db w));
  sound_message_ids : Forall (issued w) (m_id <$> messages (db w));
  sound_message_keys : NoDup (m_id <$> messages (db w))
}.

(** Between [w] and [w'] frames were sent and handles, or whole entries, were
    dropped from the routing table; nothing else happened. *)
Record only_sends (w w' : World) : Prop := {
  only_sends_db : db w' = db w;
  only_sends_consumers : consumers w' = consumers w;
  only_sends_registry :
    ∀ topic_name, default ∅ (topic_connections w' !! topic_name)
                  ⊆ default ∅ (topic_connections w !! topic_name);
  only_sends_closed : closed w' = closed w;
  only_sends_clock : clock w ≤ clock w';
  only_sends_uuid : uuid_counter w' = uuid_counter w;
  only_sends_trace : trace w `prefix_of` trace w'
}.

(** The tables once the topic with primary key [tid] has been deleted with
    its subscriptions and its messages *)
Definition db_topic_deleted (tid : nat) (d : DB) : DB :=
  with_topics (filter (λ r, t_id r ≠ tid))
    (with_messages (filter (λ m, m_topic m ≠ tid))
       (with_subscriptions (filter (λ s, s_topic s ≠ tid)) d)).

(** The tables once connection [c] has been deleted: its subscriptions go
    with it, the messages it published stay without a publisher *)
Definition db_connection_deleted (c : string) (d : DB) : DB :=
  with_messages (map (λ m, if decide (m_publisher_connection m = Some c)
                           then set_publisher None m else m))
    (with_subscriptions (filter (λ s, s_connection s ≠ c))
       (with_connections (filter (λ r, c_id r ≠ c)) d)).

(** The tables once connection [c] has published to [topic], the row it
    looked up: the message row [m] is stored, the counter of the topic is one
    more than in [topic], the topic is stamped with [t] and the connection
    with the reading of the clock after [t]. *)
Definition db_published (topic : TopicRow) (c : string) (m : MessageRow) (t : nat)
    (d : DB) : DB :=
  db_touch c (S t)
    (with_topics (map (λ r, if decide (t_id r = t_id topic)
                            then set_last_published t r else r))
       (with_topics (map (λ r, if decide (t_id r = t_id topic)
                               then set_message_count (t_message_count topic + 1) r
                               else r))
          (with_messages (λ l, l ++ [m]) d))).

(** The envelope acknowledging a publish *)
Definition published_ack (topic_name message_id client : string) (request_id : json)
    (t : nat) : json :=
  JObj [("type", JStr "published"); ("topic", JStr topic_name);
        ("message_id", JStr message_id); ("client_id", JStr client);
        ("request_id", request_id); ("status", JStr "success");
        ("timestamp", JStr (isoformat t))].

(** The envelope that confirms a connection *)
Definition connected_envelope (id : string) (t : nat) : json :=
  JObj [("type", JStr "connected"); ("connection_id", JStr id);
        ("status", JStr "success"); ("timestamp", JStr (isoformat t))].

(** * Properties *)

(** ** Reasoning about computations *)

Lemma bind_Ok {A B} (m : M A) (f : A → M B) w a w1 :
  m w = (Ok a, w1) → (m ≫= f) w = f a w1.
Proof. intros H. unfold mbind, M_bind. by rewrite H. Qed.

Lemma bind_Raise {A B} (m : M A) (f : A → M B) w e w1 :
  m w = (Raise e, w1) → (m ≫= f) w = (Raise e, w1).
Proof. intros H. unfold mbind, M_bind. by rewrite H. Qed.


Lemma try_except_Ok {A} (body : M A) (handler : exn → M A) w a w1 :
  body w = (Ok a, w1) → try_except body handler w = (Ok a, w1).
Proof. intros H. unfold try_except. by rewrite H. Qed.

Lemma try_except_Raise {A} (body : M A) (handler : exn → M A) w e w1 :
  body w = (Raise e, w1) → try_except body handler w = handler e w1.
Proof. intros H. unfold try_except. by rewrite H. Qed.


Lemma send_open h f w :
  h ∉ closed w → send h f w = (Ok tt, log_event (Sent h f) w).
Proof. intros H. unfold send. by rewrite decide_False. Qed.

Lemma send_closed h f w :
  h ∈ closed w →
  send h f w = (Raise (Exn SendFailure "socket closed"), log_event (SendFailed h f) w).
Proof. intros H. unfold send. by rewrite decide_True. Qed.

(** ** Rows and keys *)

Lemma filter_key_absent {A K} `{EqDecision K} (key : A → K) (l : list A) (k : K) :
  k ∉ key <$> l → filter (λ y, key y = k) l = [].
Proof.
  induction l as [|y l IH]; [done|]. cbn [fmap list_fmap]. intros Hk.
  apply not_elem_of_cons in Hk as [Hne Hk].
  rewrite filter_cons_False by (intros ?; by apply Hne). by apply IH.
Qed.

Lemma filter_key_unique {A K} `{EqDecision K} (key : A → K) (l : list A) (x : A) :
  NoDup (key <$> l) → x ∈ l → filter (λ y, key y = key x) l = [x].
Proof.
  induction l as [|y l IH]; [by intros _ ?%elem_of_nil|].
  cbn [fmap list_fmap]. intros [Hy Hnd]%NoDup_cons [->|Hx]%elem_of_cons.
  - rewrite filter_cons_True by done. f_equal. by apply filter_key_absent.
  - rewrite filter_cons_False; [by apply IH|].
    intros Heq. apply Hy. rewrite Heq. by apply list_elem_of_fmap_2.
Qed.

Lemma filter_key_at_most_one {A K} `{EqDecision K} (key : A → K) (l : list A) (k : K) :
  NoDup (key <$> l) →
  filter (λ y, key y = k) l = [] ∨ ∃ x, x ∈ l ∧ key x = k ∧ filter (λ y, key y = k) l = [x].
Proof.
  intros Hnd. destruct (decide (k ∈ key <$> l)) as [Hin|Hout].
  - right. apply list_elem_of_fmap in Hin as (x & -> & Hx).
    exists x. split_and!; [done..|]. by apply filter_key_unique.
  - left. by apply filter_key_absent.
Qed.

Lemma key_unique_inj {A K} `{EqDecision K} (key : A → K) (l : list A) (x y : A) :
  NoDup (key <$> l) → x ∈ l → y ∈ l → key y = key x → y = x.
Proof.
  intros Hnd Hx Hy Hk.
  assert (y ∈ filter (λ z, key z = key x) l) as Hin by by apply list_elem_of_filter.
  rewrite (filter_key_unique key l x Hnd Hx) in Hin. by apply list_elem_of_singleton in Hin.
Qed.

Lemma fmap_update_key {A K} (key : A → K) (g : A → A) (l : list A) :
  (∀ x, x ∈ l → key (g x) = key x) → key <$> map g l = key <$> l.
Proof.
  intros Hg. change (map g l) with (g <$> l). rewrite <- list_fmap_compose.
  apply list_fmap_ext. intros i x Hx. apply Hg. by eapply list_elem_of_lookup_2.
Qed.

Lemma subscriptions_of_pair c tid d :
  subscriptions_of c tid d =
  filter (λ s, (s_connection s, s_topic s) = (c, tid)) (subscriptions d).
Proof. unfold subscriptions_of. apply list_filter_iff. intros s. naive_solver. Qed.

Lemma subscriptions_of_cases c tid d :
  schema_ok d →
  subscriptions_of c tid d = [] ∨
  ∃ s, s ∈ subscriptions d ∧ s_connection s = c ∧ s_topic s = tid ∧
       subscriptions_of c tid d = [s].
Proof.
  intros Hok. rewrite subscriptions_of_pair.
  destruct (filter_key_at_most_one (λ s, (s_connection s, s_topic s))
              (subscriptions d) (c, tid) (unique_together d Hok))
    as [Hnil | (s & Hs & [= Hc Ht] & Hone)]; [by left|].
  right. exists s. by split_and!.
Qed.

(** ** The schema is kept *)

Lemma schema_ok_db_set_count topic n d : schema_ok d → schema_ok (db_set_count topic n d).
Proof.
  intros [H1 H2 H3 H4 H5 H6 H7].
  assert (Hname : t_name <$> topics (db_set_count topic n d) = t_name <$> topics d).
  { apply fmap_update_key. intros r _. by destruct (decide _). }
  assert (Hid : t_id <$> topics (db_set_count topic n d) = t_id <$> topics d).
  { apply fmap_update_key. intros r _. by destruct (decide _). }
  split; cbn [connections subscriptions db_set_count with_topics
              next_topic_id next_subscription_id]; try done.
  - by rewrite Hname.
  - by rewrite Hid.
  - apply Forall_forall. intros r Hr.
    apply list_elem_of_fmap in Hr as (r0 & -> & Hr0).
    rewrite Forall_forall in H3. specialize (H3 r0 Hr0). by destruct (decide _).
Qed.

Lemma schema_ok_db_touch c t d : schema_ok d → schema_ok (db_touch c t d).
Proof.
  intros [H1 H2 H3 H4 H5 H6 H7].
  split; cbn [topics connections subscriptions db_touch with_connections
              next_topic_id next_subscription_id]; try done.
  rewrite fmap_update_key; [done|]. intros r _. by destruct (decide _).
Qed.

Lemma db_touch_ids c t d : c_id <$> connections (db_touch c t d) = c_id <$> connections d.
Proof. apply fmap_update_key. intros r _. by destruct (decide _). Qed.

Lemma schema_ok_db_add_subscription c tid t d :
  schema_ok d → subscriptions_of c tid d = [] →
  schema_ok (db_add_subscription (mkSubscription (next_subscription_id d) c tid t true) d).
Proof.
  intros [H1 H2 H3 H4 H5 H6 H7] Hnone.
  split; cbn [topics connections subscriptions db_add_subscription
              next_topic_id next_subscription_id]; try done.
  - rewrite fmap_app. cbn. apply NoDup_app. split_and!; [done| |apply NoDup_singleton].
    intros i Hi ->%list_elem_of_singleton.
    apply list_elem_of_fmap in Hi as (s & Hs & Hin).
    rewrite Forall_forall in H6. specialize (H6 s Hin). lia.
  - apply Forall_app. split.
    + eapply Forall_impl; [exact H6|]. cbn. intros; lia.
    + apply Forall_singleton. cbn. lia.
  - rewrite fmap_app. cbn. apply NoDup_app. split_and!; [done| |apply NoDup_singleton].
    intros k Hk ->%list_elem_of_singleton.
    apply list_elem_of_fmap in Hk as (s & Hs & Hin).
    assert (s ∈ subscriptions_of c tid d) as Hbad.
    { unfold subscriptions_of. apply list_elem_of_filter. split; [|done].
      by injection Hs as <- <-. }
    rewrite Hnone in Hbad. by apply elem_of_nil in Hbad.
Qed.

Lemma db_save_subscription_rows s0 b d :
  NoDup (s_id <$> subscriptions d) → s0 ∈ subscriptions d →
  ∀ r, r ∈ subscriptions d →
    (if decide (s_id r = s_id (set_is_active b s0)) then set_is_active b s0 else r)
    = (if decide (r = s0) then set_is_active b s0 else r).
Proof.
  intros Hnd Hs0 r Hr. cbn. destruct (decide (s_id r = s_id s0)) as [Hid|Hid].
  - assert (r = s0) as ->.
    { by apply (key_unique_inj s_id (subscriptions d)). }
    by rewrite decide_True.
  - rewrite decide_False; [done|]. by intros ->.
Qed.

Lemma filter_map_stable {A} (P : A → Prop) `{∀ x, Decision (P x)} (g : A → A) (l : list A) :
  (∀ x, x ∈ l → P (g x) ↔ P x) → filter P (map g l) = map g (filter P l).
Proof.
  induction l as [|x l IH]; [done|]. intros Hg. cbn [map].
  assert (filter P (map g l) = map g (filter P l)) as IH'.
  { apply IH. intros y Hy. apply Hg. by right. }
  destruct (decide (P x)) as [Hx|Hx].
  - rewrite !filter_cons_True; [|done|by apply Hg; [left|]]. cbn [map]. by rewrite IH'.
  - rewrite !filter_cons_False; [done|done|]. intros Hgx. apply Hx, Hg; [by left|done].
Qed.

Lemma db_save_subscription_key {K} (key : SubscriptionRow → K) s0 b d :
  NoDup (s_id <$> subscriptions d) → s0 ∈ subscriptions d →
  key (set_is_active b s0) = key s0 →
  key <$> subscriptions (db_save_subscription (set_is_active b s0) d)
  = key <$> subscriptions d.
Proof.
  intros Hnd Hs0 Hkey. apply fmap_update_key. intros r Hr.
  rewrite (db_save_subscription_rows s0 b d Hnd Hs0 r Hr).
  destruct (decide (r = s0)) as [->|]; done.
Qed.

Lemma schema_ok_db_save_subscription s0 b d :
  schema_ok d → s0 ∈ subscriptions d →
  schema_ok (db_save_subscription (set_is_active b s0) d).
Proof.
  intros [H1 H2 H3 H4 H5 H6 H7] Hs0.
  split; cbn [topics connections db_save_subscription with_subscriptions
              next_topic_id next_subscription_id]; try done.
  - by rewrite (db_save_subscription_key s_id s0 b d H5 Hs0).
  - apply Forall_forall. intros r Hr.
    apply list_elem_of_fmap in Hr as (r0 & -> & Hr0).
    rewrite Forall_forall in H6.
    destruct (decide _) as [Hid|]; [|by apply H6].
    cbn in Hid. cbn. apply (H6 s0 Hs0).
  - by rewrite (db_save_subscription_key (λ s, (s_connection s, s_topic s)) s0 b d H5 Hs0).
Qed.

Lemma subscriptions_of_saved c tid s0 b d :
  NoDup (s_id <$> subscriptions d) → s0 ∈ subscriptions d →
  subscriptions_of c tid d = [s0] →
  subscriptions_of c tid (db_save_subscription (set_is_active b s0) d)
  = [set_is_active b s0].
Proof.
  intros Hnd Hs0 Hone. unfold subscriptions_of.
  cbn [subscriptions db_save_subscription with_subscriptions].
  rewrite filter_map_stable.
  - fold (subscriptions_of c tid d). rewrite Hone. cbn. by rewrite decide_True.
  - intros r Hr. rewrite (db_save_subscription_rows s0 b d Hnd Hs0 r Hr).
    destruct (decide (r = s0)) as [->|]; done.
Qed.

(** ** Sorting commutes with updates that keep the sort key *)

Section SortMap.
Context {A} (R : relation A) `{∀ x y, Decision (R x y)} (g : A → A).
Hypothesis g_keeps_order : ∀ a b, R (g a) (g b) ↔ R a b.

Lemma list_merge_map (l1 : list A) : ∀ l2,
  list_merge R (map g l1) (map g l2) = map g (list_merge R l1 l2).
Proof.
  induction l1 as [|x1 l1 IH1]; [by intros []|].
  induction l2 as [|x2 l2 IH2]; [done|].
  cbn [map]. cbn [list_merge]. cbn [map] in IH1, IH2.
  destruct (decide (R x1 x2)) as [Hr|Hr].
  - rewrite decide_True by by apply g_keeps_order.
    cbn [map]. f_equal. apply (IH1 (x2 :: l2)).
  - rewrite decide_False by by rewrite g_keeps_order.
    cbn [map]. f_equal. exact IH2.
Qed.

Let stack_map (st : list (option (list A))) : list (option (list A)) :=
  map (λ o, match o with Some l => Some (map g l) | None => None end) st.

Lemma merge_list_to_stack_map st : ∀ l,
  merge_list_to_stack R (stack_map st) (map g l) = stack_map (merge_list_to_stack R st l).
Proof.
  unfold stack_map.
  induction st as [|[l'|] st IH]; intros l; cbn; [done| |done].
  f_equal. rewrite list_merge_map. apply IH.
Qed.

Lemma merge_stack_map st : merge_stack R (stack_map st) = map g (merge_stack R st).
Proof.
  unfold stack_map.
  induction st as [|[l'|] st IH]; cbn; [done| |done].
  rewrite IH. apply list_merge_map.
Qed.

Lemma merge_sort_aux_map l : ∀ st,
  merge_sort_aux R (stack_map st) (map g l) = map g (merge_sort_aux R st l).
Proof.
  induction l as [|x l IH]; intros st; cbn.
  - apply merge_stack_map.
  - rewrite <- IH. f_equal. apply (merge_list_to_stack_map st [x]).
Qed.

Lemma merge_sort_map l : merge_sort R (map g l) = map g (merge_sort R l).
Proof. apply (merge_sort_aux_map l []). Qed.

End SortMap.

(** ** Running the ORM *)

Lemma Topic_get_found w r :
  NoDup (t_name <$> topics (db w)) → r ∈ topics (db w) →
  Topic_get (t_name r) w = (Ok r, w).
Proof.
  intros Hnd Hr. unfold Topic_get, mbind, M_bind, get_db. cbn.
  by rewrite (filter_key_unique t_name _ r Hnd Hr).
Qed.

Lemma Topic_get_missing w name :
  name ∉ t_name <$> topics (db w) →
  Topic_get name w = (Raise (Exn DoesNotExist "Topic matching query does not exist."), w).
Proof.
  intros Hout. unfold Topic_get, mbind, M_bind, get_db. cbn.
  by rewrite (filter_key_absent t_name _ name Hout).
Qed.

Lemma update_subscriber_count_run topic n w :
  t_id topic ∈ t_id <$> topics (db w) →
  update_subscriber_count topic n w = (Ok tt, set_db (db_set_count topic n (db w)) w).
Proof.
  intros Hin. unfold update_subscriber_count, Topic_save, mbind, M_bind, get_db. cbn.
  by rewrite decide_True.
Qed.

Lemma update_activity_run c w :
  c ∈ c_id <$> connections (db w) →
  update_activity (Some c) w = (Ok tt, set_db (db_touch c (clock w) (db w)) (tick w)).
Proof.
  intros Hin. unfold update_activity, mbind, M_bind, now, get_db. cbn.
  by rewrite decide_True.
Qed.

Lemma Subscription_save_run s w :
  s_id s ∈ s_id <$> subscriptions (db w) →
  Subscription_save s w = (Ok tt, set_db (db_save_subscription s (db w)) w).
Proof.
  intros Hin. unfold Subscription_save, mbind, M_bind, get_db. cbn.
  by rewrite decide_True.
Qed.

Lemma Subscription_get_found c topic s0 w :
  subscriptions_of c (t_id topic) (db w) = [s0] →
  Subscription_get (Some c) topic w = (Ok s0, w).
Proof.
  intros Hone. unfold Subscription_get, mbind, M_bind, get_db. cbn. by rewrite Hone.
Qed.

Lemma Subscription_get_missing c topic w :
  subscriptions_of c (t_id topic) (db w) = [] →
  Subscription_get (Some c) topic w =
  (Raise (Exn DoesNotExist "TopicSubscription matching query does not exist."), w).
Proof.
  intros Hnone. unfold Subscription_get, mbind, M_bind, get_db. cbn. by rewrite Hnone.
Qed.

Lemma Subscription_get_or_create_found c topic s0 w :
  subscriptions_of c (t_id topic) (db w) = [s0] →
  Subscription_get_or_create (Some c) topic w = (Ok (s0, false), w).
Proof.
  intros Hone. unfold Subscription_get_or_create. apply try_except_Ok.
  by rewrite (bind_Ok _ _ _ _ _ (Subscription_get_found c topic s0 w Hone)).
Qed.

Lemma Subscription_get_or_create_new c topic w :
  c ∈ c_id <$> connections (db w) → t_id topic ∈ t_id <$> topics (db w) →
  subscriptions_of c (t_id topic) (db w) = [] →
  let s := mkSubscription (next_subscription_id (db w)) c (t_id topic) (clock w) true in
  Subscription_get_or_create (Some c) topic w =
  (Ok (s, true), set_db (db_add_subscription s (db w)) (tick w)).
Proof.
  intros Hc Ht Hnone s. unfold Subscription_get_or_create.
  erewrite try_except_Raise;
    [|by rewrite (bind_Raise _ _ _ _ _ (Subscription_get_missing c topic w Hnone))].
  cbn.
  rewrite (decide_True (P := DoesNotExist = DoesNotExist)) by done.
  unfold Subscription_create, mbind, M_bind, now, get_db. cbn.
  by rewrite (decide_True _ _ (conj Hc Ht)), (decide_True _ _ Hnone).
Qed.

Lemma schema_ok_db_add_topic name t d :
  schema_ok d → name ∉ t_name <$> topics d →
  schema_ok (db_add_topic (mkTopic (next_topic_id d) name t None 0 0 true (JObj [])) d).
Proof.
  intros [H1 H2 H3 H4 H5 H6 H7] Hfresh.
  split; cbn [topics connections subscriptions db_add_topic
              next_topic_id next_subscription_id]; try done.
  - rewrite fmap_app. cbn. apply NoDup_app. split_and!; [done| |apply NoDup_singleton].
    by intros k Hk ->%list_elem_of_singleton.
  - rewrite fmap_app. cbn. apply NoDup_app. split_and!; [done| |apply NoDup_singleton].
    intros i Hi ->%list_elem_of_singleton.
    apply list_elem_of_fmap in Hi as (r & Hr & Hin).
    rewrite Forall_forall in H3. specialize (H3 r Hin). lia.
  - apply Forall_app. split.
    + eapply Forall_impl; [exact H3|]. cbn. intros; lia.
    + apply Forall_singleton. cbn. lia.
Qed.

Lemma get_or_create_topic_found w r :
  NoDup (t_name <$> topics (db w)) → r ∈ topics (db w) →
  get_or_create_topic (t_name r) w = (Ok (Some r), w).
Proof.
  intros Hnd Hr. unfold get_or_create_topic, Topic_get_or_create.
  apply try_except_Ok.
  rewrite (bind_Ok _ _ _ (r, false) w); [done|]. apply try_except_Ok.
  by rewrite (bind_Ok _ _ _ _ _ (Topic_get_found w r Hnd Hr)).
Qed.

Lemma get_or_create_topic_new w name :
  name ∉ t_name <$> topics (db w) →
  let r := mkTopic (next_topic_id (db w)) name (clock w) None 0 0 true (JObj []) in
  get_or_create_topic name w = (Ok (Some r), set_db (db_add_topic r (db w)) (tick w)).
Proof.
  intros Hfresh r. unfold get_or_create_topic, Topic_get_or_create.
  apply try_except_Ok.
  rewrite (bind_Ok _ _ _ (r, true) (set_db (db_add_topic r (db w)) (tick w))); [done|].
  erewrite try_except_Raise;
    [|by rewrite (bind_Raise _ _ _ _ _ (Topic_get_missing w name Hfresh))].
  cbn. rewrite (decide_True (P := DoesNotExist = DoesNotExist)) by done.
  unfold Topic_create, mbind, M_bind, now, get_db. cbn.
  by rewrite (decide_False _ _ Hfresh).
Qed.

Lemma get_or_create_topic_spec w name :
  schema_ok (db w) →
  ∃ topic w1,
    get_or_create_topic name w = (Ok (Some topic), w1) ∧
    topic ∈ topics (db w1) ∧ t_name topic = name ∧ schema_ok (db w1) ∧
    connections (db w1) = connections (db w) ∧
    subscriptions (db w1) = subscriptions (db w) ∧
    messages (db w1) = messages (db w) ∧ quiet w w1.
Proof.
  intros Hok. destruct (decide (name ∈ t_name <$> topics (db w))) as [Hin|Hout].
  - apply list_elem_of_fmap in Hin as (r & -> & Hr). exists r, w.
    split; [by apply get_or_create_topic_found; [apply Hok|]|]. by split_and!.
  - eexists _, _. split; [by apply get_or_create_topic_new|].
    cbn. split_and!; try done.
    + apply elem_of_app. right. by apply list_elem_of_singleton.
    + by apply schema_ok_db_add_topic.
Qed.

Lemma recount_and_touch_run topic c w2 :
  t_id topic ∈ t_id <$> topics (db w2) → c ∈ c_id <$> connections (db w2) →
  (d ← get_db;
   update_subscriber_count topic (active_count (t_id topic) d);;
   update_activity (Some c);;
   mret true) w2
  = (Ok true, after_recount topic c w2).
Proof.
  intros Ht Hc.
  erewrite bind_Ok; [|done].
  rewrite (bind_Ok _ _ _ _ _ (update_subscriber_count_run topic _ w2 Ht)).
  erewrite bind_Ok; [done|]. by apply update_activity_run.
Qed.

Lemma after_recount_facts topic c w2 :
  schema_ok (db w2) → topic ∈ topics (db w2) →
  let w3 := after_recount topic c w2 in
  quiet w2 w3 ∧ schema_ok (db w3) ∧
  subscriptions (db w3) = subscriptions (db w2) ∧
  messages (db w3) = messages (db w2) ∧
  c_id <$> connections (db w3) = c_id <$> connections (db w2) ∧
  (∃ row, row ∈ topics (db w3) ∧ t_id row = t_id topic ∧ t_name row = t_name topic) ∧
  (∀ r, r ∈ topics (db w3) → t_id r = t_id topic →
        t_subscriber_count r = active_count (t_id topic) (db w3)).
Proof.
  intros Hok Htopic w3. subst w3. unfold after_recount. cbn.
  split_and!; try done.
  - by apply schema_ok_db_touch, schema_ok_db_set_count.
  - apply db_touch_ids.
  - exists (set_subscriber_count (active_count (t_id topic) (db w2)) topic).
    split; [|done]. apply list_elem_of_fmap. exists topic. by rewrite decide_True.
  - intros r Hr Hid. apply list_elem_of_fmap in Hr as (r0 & -> & Hr0).
    by destruct (decide (t_id r0 = t_id topic)).
Qed.

Lemma subscribe_to_topic_spec w self c topic client :
  connection (self_of w self) = Some c → c ∈ c_id <$> connections (db w) →
  schema_ok (db w) → topic ∈ topics (db w) →
  ∃ w1 s,
    subscribe_to_topic self topic client w = (Ok true, w1) ∧
    quiet w w1 ∧ schema_ok (db w1) ∧
    subscriptions_of c (t_id topic) (db w1) = [s] ∧ s_is_active s = true ∧
    messages (db w1) = messages (db w) ∧
    c_id <$> connections (db w1) = c_id <$> connections (db w) ∧
    (∃ row, row ∈ topics (db w1) ∧ t_id row = t_id topic ∧ t_name row = t_name topic) ∧
    (∀ r, r ∈ topics (db w1) → t_id r = t_id topic →
          t_subscriber_count r = active_count (t_id topic) (db w1)).
Proof.
  intros Hconn Hc Hok Htopic.
  assert (Htid : t_id topic ∈ t_id <$> topics (db w)) by by apply list_elem_of_fmap_2.
  unfold subscribe_to_topic.
  destruct (subscriptions_of_cases c (t_id topic) (db w) Hok)
    as [Hnone | (s0 & Hs0 & _ & _ & Hone)].
  - (* no row yet: one is inserted *)
    set (s := mkSubscription (next_subscription_id (db w)) c (t_id topic) (clock w) true).
    set (w2 := set_db (db_add_subscription s (db w)) (tick w)).
    assert (Hok2 : schema_ok (db w2)) by by apply schema_ok_db_add_subscription.
    destruct (after_recount_facts topic c w2 Hok2 Htopic)
      as (Hq & Hok3 & Hsubs & Hmsg & Hids & Hrow & Hcount).
    exists (after_recount topic c w2), s. split.
    + apply try_except_Ok. erewrite bind_Ok; [|done]. rewrite Hconn.
      rewrite (bind_Ok _ _ _ _ _ (Subscription_get_or_create_new c topic w Hc Htid Hnone)).
      cbn beta iota. erewrite bind_Ok; [|done].
      by apply recount_and_touch_run.
    + split_and!; try done.
      * unfold subscriptions_of. rewrite Hsubs. cbn.
        rewrite filter_app. fold (subscriptions_of c (t_id topic) (db w)).
        rewrite Hnone. by rewrite filter_cons_True.
  - (* the row exists: it is saved with the flag set *)
    set (s := set_is_active true s0).
    set (w2 := set_db (db_save_subscription s (db w)) w).
    assert (Hnd : NoDup (s_id <$> subscriptions (db w))) by apply Hok.
    assert (Hok2 : schema_ok (db w2)) by by apply schema_ok_db_save_subscription.
    destruct (after_recount_facts topic c w2 Hok2 Htopic)
      as (Hq & Hok3 & Hsubs & Hmsg & Hids & Hrow & Hcount).
    exists (after_recount topic c w2), s. split.
    + apply try_except_Ok. erewrite bind_Ok; [|done]. rewrite Hconn.
      rewrite (bind_Ok _ _ _ _ _ (Subscription_get_or_create_found c topic s0 w Hone)).
      cbn beta iota.
      erewrite bind_Ok;
        [|apply Subscription_save_run; cbn; by apply list_elem_of_fmap_2].
      by apply recount_and_touch_run.
    + split_and!; try done.
      unfold subscriptions_of. rewrite Hsubs.
      by apply (subscriptions_of_saved c (t_id topic) s0 true (db w)).
Qed.

(** ** Fan-out *)

Lemma new_events_app {A} (m : M A) w evs :
  trace (run m w) = trace w ++ evs → new_events m w = evs.
Proof. intros H. unfold new_events. rewrite H. by rewrite drop_app_length. Qed.

Lemma attempted_send_outcome gone frame (l : list nat) :
  attempted (send_outcome gone frame <$> l) = l.
Proof.
  unfold attempted. rewrite <- list_fmap_compose.
  rewrite <- (list_fmap_id l) at 2. apply list_fmap_ext.
  intros i h _. unfold send_outcome. cbn. by destruct (decide _).
Qed.

Section FanOut.
Variables (self : nat) (topic_name : string) (frame : json).

(** The handles of [l] whose send raises *)
Let failed (gone : gset nat) (l : list nat) : gset nat :=
  list_to_set (filter (λ h, h ≠ self ∧ h ∈ gone) l).

Lemma fan_out_loop (l : list nat) : ∀ w1 s1,
  topic_connections w1 !! topic_name = Some s1 →
  ∃ w2,
    for_each l (fan_out_step self topic_name frame) w1 = (Ok tt, w2) ∧
    trace w2 = trace w1 ++ (send_outcome (closed w1) frame <$> filter (λ h, h ≠ self) l) ∧
    topic_connections w2 =
      <[topic_name := s1 ∖ failed (closed w1) l]> (topic_connections w1) ∧
    closed w2 = closed w1 ∧ db w2 = db w1 ∧ consumers w2 = consumers w1 ∧
    clock w2 = clock w1 ∧ uuid_counter w2 = uuid_counter w1.
Proof.
  induction l as [|h l IH]; intros w1 s1 Hreg.
  - exists w1. cbn. rewrite app_nil_r. repeat split; try done.
    unfold failed. cbn. rewrite difference_empty_L. by rewrite insert_id.
  - cbn [for_each].
    destruct (decide (h ≠ self)) as [Hne|Heq].
    + destruct (decide (h ∈ closed w1)) as [Hgone|Hopen].
      * (* the send raises: the handle leaves the live set, the loop goes on *)
        set (w1' := set_topic_connections
                      (<[topic_name := s1 ∖ {[h]}]> (topic_connections w1))
                      (log_event (SendFailed h frame) w1)).
        assert (Hstep : fan_out_step self topic_name frame h w1 = (Ok tt, w1')).
        { unfold fan_out_step. rewrite decide_True by done.
          erewrite try_except_Raise by by apply send_closed.
          unfold registry_drop_failed, mbind, M_bind, get_world. cbn.
          by rewrite Hreg. }
        rewrite (bind_Ok _ _ _ _ _ Hstep).
        destruct (IH w1' (s1 ∖ {[h]})) as (w2 & Hrun & Htr & Hr & Hc & Hd & Hcs & Hck & Hu).
        { subst w1'. cbn. by rewrite lookup_insert_eq. }
        exists w2. rewrite Hrun. subst w1'. cbn in Htr, Hr, Hc, Hd, Hcs, Hck, Hu.
        repeat split; try done.
        -- rewrite Htr, filter_cons_True by done. cbn.
           unfold send_outcome at 2. rewrite decide_True by done.
           by rewrite <- app_assoc.
        -- rewrite Hr, insert_insert_eq. f_equal.
           unfold failed. rewrite filter_cons_True by done. set_solver.
      * assert (Hstep : fan_out_step self topic_name frame h w1
                        = (Ok tt, log_event (Sent h frame) w1)).
        { unfold fan_out_step. rewrite decide_True by done.
          apply try_except_Ok. by apply send_open. }
        rewrite (bind_Ok _ _ _ _ _ Hstep).
        destruct (IH (log_event (Sent h frame) w1) s1 Hreg)
          as (w2 & Hrun & Htr & Hr & Hc & Hd & Hcs & Hck & Hu).
        exists w2. rewrite Hrun. cbn in Htr, Hr, Hc, Hd, Hcs, Hck, Hu.
        repeat split; try done.
        -- rewrite Htr, filter_cons_True by done. cbn.
           unfold send_outcome at 2. rewrite decide_False by done.
           by rewrite <- app_assoc.
        -- rewrite Hr. f_equal. unfold failed.
           by rewrite filter_cons_False by tauto.
    + (* the publisher itself is skipped *)
      assert (Hstep : fan_out_step self topic_name frame h w1 = (Ok tt, w1)).
      { unfold fan_out_step. by rewrite decide_False. }
      rewrite (bind_Ok _ _ _ _ _ Hstep).
      destruct (IH w1 s1 Hreg) as (w2 & Hrun & Htr & Hr & Hc & Hd & Hcs & Hck & Hu).
      exists w2. rewrite Hrun. repeat split; try done.
      * by rewrite Htr, filter_cons_False.
      * rewrite Hr. f_equal. unfold failed. by rewrite filter_cons_False by tauto.
Qed.

End FanOut.

Lemma broadcast_message_run self topic_name members message_id client w :
  let snapshot := default ∅ (topic_connections w !! topic_name) in
  let envelope :=
    broadcast_envelope topic_name (default (JObj []) (obj_get "payload" members))
                       message_id client (clock w) in
  ∃ w',
    broadcast_message self topic_name (JObj members) message_id client w = (Ok tt, w') ∧
    trace w' = trace w ++
               (send_outcome (closed w) envelope <$> filter (λ h, h ≠ self) (elements snapshot)) ∧
    default ∅ (topic_connections w' !! topic_name) =
      snapshot ∖ list_to_set (filter (λ h, h ≠ self ∧ h ∈ closed w) (elements snapshot)) ∧
    db w' = db w ∧ closed w' = closed w ∧ consumers w' = consumers w.
Proof.
  intros snapshot envelope. unfold broadcast_message.
  destruct (topic_connections w !! topic_name) as [s|] eqn:Hreg.
  - destruct (fan_out_loop self topic_name envelope (elements s) (tick w) s Hreg)
      as (w' & Hrun & Htr & Hr & Hc & Hd & Hcs & _).
    exists w'. split.
    + apply try_except_Ok. unfold mbind, M_bind, payload_of, now, get_world. cbn.
      rewrite Hreg. exact Hrun.
    + subst snapshot. cbn in *. rewrite Hr, lookup_insert_eq. cbn. by repeat split.
  - exists (tick w). split.
    + apply try_except_Ok. unfold mbind, M_bind, payload_of, now, get_world. cbn.
      by rewrite Hreg.
    + subst snapshot. cbn. rewrite Hreg. cbn. rewrite elements_empty. cbn.
      rewrite app_nil_r. by repeat split.
Qed.

(** C1: [broadcast_message] never raises; it tries exactly one send of the
    broadcast envelope to every handle of the snapshot of the topic's set
    other than the publisher, and to no other handle; a send that fails does
    not stop the later ones, and the handles whose send failed are the ones
    removed from the topic's set. *)
Theorem broadcast_reaches_snapshot_except_publisher
    self topic_name members message_id client w :
  let snapshot := default ∅ (topic_connections w !! topic_name) in
  let envelope :=
    broadcast_envelope topic_name (default (JObj []) (obj_get "payload" members))
                       message_id client (clock w) in
  let fan_out := broadcast_message self topic_name (JObj members) message_id client in
  (fan_out w).1 = Ok tt ∧
  new_events fan_out w =
    send_outcome (closed w) envelope <$> filter (λ h, h ≠ self) (elements snapshot) ∧
  (∀ h, h ∈ attempted (new_events fan_out w) ↔ h ∈ snapshot ∧ h ≠ self) ∧
  NoDup (attempted (new_events fan_out w)) ∧
  (∀ h, h ∈ default ∅ (topic_connections (run fan_out w) !! topic_name)
        ↔ h ∈ snapshot ∧ (h = self ∨ h ∉ closed w)).
Proof.
  intros snapshot envelope fan_out.
  destruct (broadcast_message_run self topic_name members message_id client w)
    as (w' & Hrun & Htr & Hreg & _).
  fold snapshot envelope fan_out in Hrun, Htr, Hreg.
  assert (Hev : new_events fan_out w =
                send_outcome (closed w) envelope <$>
                  filter (λ h, h ≠ self) (elements snapshot)).
  { apply new_events_app. unfold run. by rewrite Hrun. }
  rewrite Hev, attempted_send_outcome. unfold run. rewrite Hrun. cbn.
  split_and!; [done | done | | | ].
  - intros h. rewrite list_elem_of_filter, elem_of_elements. tauto.
  - apply NoDup_filter, NoDup_elements.
  - intros h. rewrite Hreg, elem_of_difference, elem_of_list_to_set,
      list_elem_of_filter, elem_of_elements.
    destruct (decide (h = self)); tauto.
Qed.

(** ** A whole publish *)

Lemma publish_message_run self topic message_data client c w :
  connection (self_of w self) = Some c → c ∈ c_id <$> connections (db w) →
  t_id topic ∈ t_id <$> topics (db w) →
  ∃ w1, publish_message self topic message_data client w
        = (Ok (Some (uuid_text (uuid_counter w))), w1) ∧ quiet w w1.
Proof.
  intros Hconn Hc Ht. unfold publish_message.
  set (m := mkMessage (uuid_text (uuid_counter w)) (t_id topic) (Some c) message_data
                      (clock w) 0 3 (JObj [("client_id", JStr client)])).
  set (w1 := set_db (with_messages (λ l, l ++ [m]) (db w)) (tick (bump_uuid w))).
  assert (Hcreate : Message_create topic (Some c) message_data
                      (JObj [("client_id", JStr client)]) w = (Ok m, w1)).
  { unfold Message_create, mbind, M_bind, uuid4, now, get_db. cbn.
    rewrite bool_decide_eq_true_2 by done. rewrite bool_decide_eq_true_2 by done. done. }
  assert (Ht1 : t_id topic ∈ t_id <$> topics (db w1)) by done.
  set (w2 := set_db (with_topics
                       (map (λ r, if decide (t_id r = t_id topic)
                                  then set_message_count (t_message_count topic + 1) r
                                  else r)) (db w1)) w1).
  assert (Hinc : increment_message_count topic w1 = (Ok tt, w2)).
  { unfold increment_message_count, Topic_save, mbind, M_bind, get_db. cbn.
    by rewrite decide_True. }
  assert (Ht2 : t_id topic ∈ t_id <$> topics (db w2)).
  { subst w2. cbn. rewrite fmap_update_key; [done|]. intros r _. by destruct (decide _). }
  set (w3 := set_db (with_topics
                       (map (λ r, if decide (t_id r = t_id topic)
                                  then set_last_published (clock w2) r else r))
                       (db w2)) (tick w2)).
  assert (Hlast : update_last_published topic w2 = (Ok tt, w3)).
  { unfold update_last_published, Topic_save, mbind, M_bind, now, get_db.
    cbn [tick db clock fst snd]. by rewrite (decide_True _ _ Ht2). }
  assert (Hc3 : c ∈ c_id <$> connections (db w3)) by done.
  eexists. split.
  - apply try_except_Ok.
    rewrite (bind_Ok _ _ _ (self_of w self) w) by done. rewrite Hconn.
    rewrite (bind_Ok _ _ _ _ _ Hcreate), (bind_Ok _ _ _ _ _ Hinc), (bind_Ok _ _ _ _ _ Hlast).
    rewrite (bind_Ok _ _ _ _ _ (update_activity_run c w3 Hc3)). done.
  - done.
Qed.

(** X25: a well-formed publish to an existing topic: the publisher gets the
    [published] ack, then the envelope is fanned out to the snapshot of the
    topic's set without the publisher, also when the publisher is in it. *)
Lemma handle_publish_fans_out self data request_id topic members client c w :
  nonempty (req_topic data) = Some (t_name topic) →
  req_message data = Some (JObj members) → members ≠ [] →
  nonempty (req_client_id data) = Some client →
  live w self c → schema_ok (db w) → topic ∈ topics (db w) →
  let snapshot := default ∅ (topic_connections w !! t_name topic) in
  ∃ t t' message_id,
    new_events (handle_publish self data request_id) w =
      Sent self (JObj [("type", JStr "published"); ("topic", JStr (t_name topic));
                       ("message_id", JStr message_id); ("client_id", JStr client);
                       ("request_id", request_id); ("status", JStr "success");
                       ("timestamp", JStr (isoformat t))])
      :: (send_outcome (closed w)
            (broadcast_envelope (t_name topic)
               (default (JObj []) (obj_get "payload" members)) message_id client t')
          <$> filter (λ h, h ≠ self) (elements snapshot)).
Proof.
  intros Htopic Hmsg Hmembers Hclient (Hconn & Hc & Hopen) Hok Hin snapshot.
  assert (Htid : t_id topic ∈ t_id <$> topics (db w)) by by apply list_elem_of_fmap_2.
  destruct (publish_message_run self topic (JObj members) client c w Hconn Hc Htid)
    as (w1 & Hpub & Hreg1 & Hcs1 & Htr1 & Hcl1).
  set (message_id := uuid_text (uuid_counter w)) in *.
  set (ack := JObj [("type", JStr "published"); ("topic", JStr (t_name topic));
                    ("message_id", JStr message_id); ("client_id", JStr client);
                    ("request_id", request_id); ("status", JStr "success");
                    ("timestamp", JStr (isoformat (clock w1)))]).
  set (w2 := log_event (Sent self ack) (tick w1)).
  destruct (broadcast_message_run self (t_name topic) members message_id client w2)
    as (w3 & Hcast & Htr3 & _).
  assert (Hget : get_topic (t_name topic) w = (Ok (Some topic), w)).
  { unfold get_topic. apply try_except_Ok.
    by rewrite (bind_Ok _ _ _ _ _ (Topic_get_found w topic (topic_names_unique _ Hok) Hin)). }
  assert (Hrun : handle_publish self data request_id w = (Ok tt, w3)).
  { unfold handle_publish. cbv zeta. rewrite Htopic, Hmsg, Hclient. cbn [default].
    unfold id. destruct members; [done|]. cbn [truthy negb].
    apply try_except_Ok.
    rewrite (bind_Ok _ _ _ _ _ Hget). cbn iota.
    rewrite (bind_Ok _ _ _ _ _ Hpub). fold message_id.
    change (nonempty (Some message_id)) with (Some message_id). cbn iota.
    rewrite (bind_Ok _ _ _ (clock w1) (tick w1)) by done.
    rewrite (bind_Ok _ _ _ tt w2) by (apply send_open; cbn; by rewrite Hcl1).
    exact Hcast. }
  exists (clock w1), (clock w2), message_id.
  apply new_events_app. unfold run. rewrite Hrun. cbn. rewrite Htr3.
  subst w2. cbn. rewrite Htr1, Hreg1, Hcl1, <- app_assoc. done.
Qed.

(** A message that is not a JSON object cannot be turned into an envelope:
    [message_data.get] raises inside [broadcast_message], whose own [except]
    swallows it, and nothing is sent. *)
Lemma broadcast_message_not_an_object self topic_name message_data message_id client w :
  (∀ members, message_data ≠ JObj members) →
  broadcast_message self topic_name message_data message_id client w = (Ok tt, w).
Proof.
  intros Hnot. unfold broadcast_message, try_except, mbind, M_bind, payload_of.
  destruct message_data; try done. by destruct (Hnot members).
Qed.

(** ** History replay on subscribe *)

Lemma history_envelope_no_request_id topic message :
  member "request_id" (history_envelope topic message) = None.
Proof. reflexivity. Qed.

(** C2: handle 2 subscribes to "news" with [last_n = 5] after one message was
    published there.  It receives the [subscribed] ack and then the stored
    message in a [message] envelope; the ack echoes the request id, the
    history envelope has no [request_id] member at all. *)
Theorem history_replay_drops_request_id :
  ∃ ack replayed,
    delivered 2 (new_events
      (handle_subscribe 2 (subscribe_frame "news" "bob" (Some (JInt 5))) sample_request_id)
      bob_connected) = [ack; replayed] ∧
    member "type" ack = Some (JStr "subscribed") ∧
    member "request_id" ack = Some sample_request_id ∧
    member "type" replayed = Some (JStr "message") ∧
    member "message" replayed =
      Some (JObj [("id", JStr "uuid-1");
                  ("payload", JObj [("payload", JObj [("seq", JInt 1)])]);
                  ("timestamp", JStr "7")]) ∧
    member "request_id" replayed = None.
Proof. do 2 eexists. vm_compute. repeat split; reflexivity. Qed.

(** ** Subscribing *)

Lemma log_events_nil w : log_events [] w = w.
Proof. destruct w. unfold log_events. cbn. by rewrite app_nil_r. Qed.

Lemma log_events_cons e evs w : log_events evs (log_event e w) = log_events (e :: evs) w.
Proof. unfold log_events, log_event. cbn. by rewrite <- app_assoc. Qed.

Lemma for_each_send_open self (frames : list json) : ∀ w,
  self ∉ closed w →
  for_each frames (send self) w = (Ok tt, log_events (Sent self <$> frames) w).
Proof.
  induction frames as [|f frames IH]; intros w Hopen.
  - cbn. by rewrite log_events_nil.
  - cbn [for_each]. rewrite (bind_Ok _ _ _ _ _ (send_open self f w Hopen)).
    rewrite IH by done. by rewrite log_events_cons.
Qed.

Lemma send_last_n_messages_async_run self topic z request_id w :
  self ∉ closed w → (0 <? z)%Z = true →
  send_last_n_messages_async self topic (JInt z) request_id w =
  (Ok tt, log_events (Sent self <$> history_frames topic z (db w)) w).
Proof.
  intros Hopen Hz. unfold send_last_n_messages_async. apply try_except_Ok.
  assert (Hget : get_last_n_messages topic (JInt z) w = (Ok (history_frames topic z (db w)), w)).
  { unfold get_last_n_messages, history_frames, slice_stop, fetch_recent. rewrite Hz.
    apply Z.ltb_lt in Hz.
    rewrite (proj2 (Z.ltb_ge z 0)) by lia. rewrite Z.leb_antisym.
    unfold try_except, mbind, M_bind, get_db. cbn.
    by destruct (max_limit <? z)%Z. }
  rewrite (bind_Ok _ _ _ _ _ Hget). by apply for_each_send_open.
Qed.

Lemma handle_subscribe_spec self data request_id topic_name client z c w :
  nonempty (req_topic data) = Some topic_name →
  nonempty (req_client_id data) = Some client →
  default (JInt 0) (req_last_n data) = JInt z →
  live w self c → schema_ok (db w) →
  ∃ w' topic s t,
    handle_subscribe self data request_id w = (Ok tt, w') ∧
    trace w' = trace w ++
               Sent self (subscribed_ack topic_name client request_id t)
               :: (Sent self <$> history_frames topic z (db w')) ∧
    t_name topic = topic_name ∧
    (∃ row, row ∈ topics (db w') ∧ t_id row = t_id topic ∧ t_name row = topic_name) ∧
    subscriptions_of c (t_id topic) (db w') = [s] ∧ s_is_active s = true ∧
    (∀ r, r ∈ topics (db w') → t_id r = t_id topic →
          t_subscriber_count r = active_count (t_id topic) (db w')) ∧
    self ∈ default ∅ (topic_connections w' !! topic_name) ∧
    topic_name ∈ subscribed_topics (self_of w' self) ∧
    schema_ok (db w') ∧ live w' self c ∧ messages (db w') = messages (db w).
Proof.
  intros Htopic Hclient Hlast (Hconn & Hc & Hopen) Hok.
  set (remember_client := λ c0 : Consumer,
         mkConsumer (connection_id c0) (Some client) (subscribed_topics c0) (connection c0)).
  set (wa := set_consumers (<[self := remember_client (self_of w self)]> (consumers w)) w).
  assert (Hconn_a : connection (self_of wa self) = Some c).
  { unfold self_of at 1. subst wa. cbn. by rewrite lookup_insert_eq. }
  destruct (get_or_create_topic_spec wa topic_name Hok)
    as (topic & wb & Hgoc & Hin_b & Hname & Hok_b & Hconns_b & Hsubs_b & Hmsg_b
        & Hreg_b & Hcs_b & Htr_b & Hcl_b).
  assert (Hconn_b : connection (self_of wb self) = Some c).
  { unfold self_of. rewrite Hcs_b. exact Hconn_a. }
  assert (Hc_b : c ∈ c_id <$> connections (db wb)) by by rewrite Hconns_b.
  destruct (subscribe_to_topic_spec wb self c topic client Hconn_b Hc_b Hok_b Hin_b)
    as (wc & s & Hsub & (Hreg_c & Hcs_c & Htr_c & Hcl_c) & Hok_c & Hone & Hact
        & Hmsg_c & Hids_c & Hrow & Hcount).
  set (add_topic := λ c0 : Consumer,
         mkConsumer (connection_id c0) (client_id c0)
                    (subscribed_topics c0 ∪ {[topic_name]}) (connection c0)).
  set (wd := set_consumers (<[self := add_topic (self_of wc self)]> (consumers wc)) wc).
  set (we := set_topic_connections
               (<[topic_name := default ∅ (topic_connections wd !! topic_name) ∪ {[self]}]>
                  (topic_connections wd)) wd).
  set (ack := subscribed_ack topic_name client request_id (clock we)).
  set (wg := log_event (Sent self ack) (tick we)).
  assert (Hopen_g : self ∉ closed wg).
  { subst wg we wd. cbn. by rewrite Hcl_c, Hcl_b. }
  set (w' := if (0 <? z)%Z
             then log_events (Sent self <$> history_frames topic z (db wg)) wg
             else wg).
  assert (Hdb' : db w' = db wc) by (subst w'; by destruct (0 <? z)%Z).
  assert (Hrun : handle_subscribe self data request_id w = (Ok tt, w')).
  { unfold handle_subscribe. rewrite Htopic, Hclient, Hlast.
    apply try_except_Ok.
    rewrite (bind_Ok _ _ _ tt wa) by done.
    rewrite (bind_Ok _ _ _ _ _ Hgoc). cbn beta iota.
    rewrite (bind_Ok _ _ _ _ _ Hsub). cbn beta iota.
    rewrite (bind_Ok _ _ _ tt wd) by done.
    rewrite (bind_Ok _ _ _ tt we) by done.
    rewrite (bind_Ok _ _ _ (clock we) (tick we)) by done.
    rewrite (bind_Ok _ _ _ tt wg)
      by (apply send_open; subst we wd; cbn; by rewrite Hcl_c, Hcl_b).
    rewrite (bind_Ok _ _ _ (0 <? z)%Z wg) by done.
    subst w'. destruct (0 <? z)%Z eqn:Hz; [|done].
    by apply send_last_n_messages_async_run. }
  exists w', topic, s, (clock we). split; [exact Hrun|].
  rewrite Hdb'. split_and!; try done.
  - assert (trace wg = trace w ++ [Sent self ack]) as Hwg.
    { subst wg we wd. cbn. by rewrite Htr_c, Htr_b. }
    subst w'. unfold history_frames. destruct (0 <? z)%Z.
    + cbn [trace log_events]. rewrite Hwg, <- app_assoc. done.
    + by rewrite Hwg.
  - destruct Hrow as (row & ? & ? & ?). exists row. split_and!; congruence.
  - assert (topic_connections w' = topic_connections we) as ->
      by (subst w'; by destruct (0 <? z)%Z).
    subst we. cbn. rewrite lookup_insert_eq. cbn. set_solver.
  - assert (consumers w' = consumers wd) as Hcs'
      by (subst w'; by destruct (0 <? z)%Z).
    unfold self_of. rewrite Hcs'. subst wd. cbn. rewrite lookup_insert_eq. cbn.
    set_solver.
  - assert (consumers w' = consumers wd) as Hcs'
      by (subst w'; by destruct (0 <? z)%Z).
    assert (closed w' = closed w) as Hcl'
      by (subst w'; destruct (0 <? z)%Z; cbn; by rewrite Hcl_c, Hcl_b).
    split_and!.
    + unfold self_of. rewrite Hcs'. subst wd. cbn. rewrite lookup_insert_eq. cbn.
      fold (self_of wc self). unfold self_of. rewrite Hcs_c. exact Hconn_b.
    + rewrite Hdb', Hids_c. exact Hc_b.
    + by rewrite Hcl'.
  - by rewrite Hmsg_c, Hmsg_b.
Qed.

Global Instance newer_first_total : Total newer_first.
Proof. intros a b. unfold newer_first. lia. Qed.

Global Instance newer_first_trans : Transitive newer_first.
Proof. intros a b c. unfold newer_first. lia. Qed.





(** ** The subscriber counter *)





(** ** Unsubscribing twice *)

(** C5, as stated, fails: alice unsubscribes from "news" twice.  The first
    request is acknowledged; it leaves her subscription row in the table with
    [is_active] cleared, so the second request finds the row and is
    acknowledged as well, with no error envelope. *)
Lemma second_unsubscribe_is_acknowledged :
  let request := unsubscribe_frame "news" "alice" in
  let once := run (handle_unsubscribe 1 request sample_request_id) alice_subscribed in
  delivered 1 (new_events (handle_unsubscribe 1 request sample_request_id) alice_subscribed)
    = [unsubscribed_ack "news" "alice" sample_request_id 8] ∧
  subscriptions (db once) = [mkSubscription 1 "uuid-0" 1 4 false] ∧
  delivered 1 (new_events (handle_unsubscribe 1 request sample_request_id) once)
    = [unsubscribed_ack "news" "alice" sample_request_id 10].
Proof. vm_compute. repeat split; reflexivity. Qed.

(** ** Unsubscribing *)

Lemma unsubscribe_from_topic_no_topic self topic_name client w :
  topic_name ∉ t_name <$> topics (db w) →
  unsubscribe_from_topic self topic_name client w = (Ok false, w).
Proof.
  intros Hout. unfold unsubscribe_from_topic.
  erewrite try_except_Raise; [done|].
  by rewrite (bind_Raise _ _ _ _ _ (Topic_get_missing w topic_name Hout)).
Qed.

Lemma unsubscribe_from_topic_no_row self topic c client w :
  schema_ok (db w) → topic ∈ topics (db w) →
  connection (self_of w self) = Some c →
  subscriptions_of c (t_id topic) (db w) = [] →
  unsubscribe_from_topic self (t_name topic) client w = (Ok false, w).
Proof.
  intros Hok Htopic Hconn Hnone. unfold unsubscribe_from_topic.
  erewrite try_except_Raise; [done|].
  rewrite (bind_Ok _ _ _ _ _ (Topic_get_found w topic (topic_names_unique _ Hok) Htopic)).
  rewrite (bind_Ok _ _ _ (self_of w self) w) by done. rewrite Hconn.
  by rewrite (bind_Raise _ _ _ _ _ (Subscription_get_missing c topic w Hnone)).
Qed.

Lemma unsubscribe_from_topic_row self topic c s0 client w :
  schema_ok (db w) → topic ∈ topics (db w) →
  connection (self_of w self) = Some c → c ∈ c_id <$> connections (db w) →
  subscriptions_of c (t_id topic) (db w) = [s0] →
  unsubscribe_from_topic self (t_name topic) client w =
  (Ok true, after_recount topic c
              (set_db (db_save_subscription (set_is_active false s0) (db w)) w)).
Proof.
  intros Hok Htopic Hconn Hc Hone. unfold unsubscribe_from_topic.
  assert (Hs0 : s0 ∈ subscriptions (db w)).
  { assert (s0 ∈ subscriptions_of c (t_id topic) (db w)) as Hin
      by (rewrite Hone; by apply list_elem_of_singleton).
    unfold subscriptions_of in Hin. by apply list_elem_of_filter in Hin as [_ ?]. }
  apply try_except_Ok.
  rewrite (bind_Ok _ _ _ _ _ (Topic_get_found w topic (topic_names_unique _ Hok) Htopic)).
  rewrite (bind_Ok _ _ _ (self_of w self) w) by done. rewrite Hconn.
  rewrite (bind_Ok _ _ _ _ _ (Subscription_get_found c topic s0 w Hone)).
  erewrite bind_Ok;
    [|apply Subscription_save_run; cbn; by apply list_elem_of_fmap_2].
  apply recount_and_touch_run; cbn; [by apply list_elem_of_fmap_2|done].
Qed.

Lemma handle_unsubscribe_refused self data request_id topic_name client c w :
  nonempty (req_topic data) = Some topic_name →
  nonempty (req_client_id data) = Some client →
  live w self c → schema_ok (db w) →
  (∀ topic, topic ∈ topics (db w) → t_name topic = topic_name →
            subscriptions_of c (t_id topic) (db w) = []) →
  handle_unsubscribe self data request_id w =
  (Ok tt, log_event
            (Sent self (error_envelope ("Failed to unsubscribe from topic: " +:+ topic_name)
                                       request_id (clock w)))
            (tick w)).
Proof.
  intros Htopic Hclient (Hconn & Hc & Hopen) Hok Hnone.
  unfold handle_unsubscribe. rewrite Htopic, Hclient. apply try_except_Ok.
  assert (Hfail : unsubscribe_from_topic self topic_name client w = (Ok false, w)).
  { destruct (decide (topic_name ∈ t_name <$> topics (db w))) as [Hin|Hout].
    - apply list_elem_of_fmap in Hin as (topic & -> & Hin).
      apply (unsubscribe_from_topic_no_row self topic c); auto.
    - by apply unsubscribe_from_topic_no_topic. }
  rewrite (bind_Ok _ _ _ _ _ Hfail). cbn iota.
  unfold send_error. rewrite (bind_Ok _ _ _ (clock w) (tick w)) by done.
  by apply send_open.
Qed.

Lemma registry_discard_run topic_name self w :
  ∃ w', registry_discard topic_name self w = (Ok tt, w') ∧
        db w' = db w ∧ consumers w' = consumers w ∧ trace w' = trace w ∧
        closed w' = closed w ∧ clock w' = clock w.
Proof.
  unfold registry_discard, modify. eexists. split; [done|].
  destruct (topic_connections w !! topic_name); [|done].
  by destruct (decide _).
Qed.

Lemma handle_unsubscribe_accepted self data request_id topic client c s0 w :
  nonempty (req_topic data) = Some (t_name topic) →
  nonempty (req_client_id data) = Some client →
  live w self c → schema_ok (db w) →
  topic ∈ topics (db w) → subscriptions_of c (t_id topic) (db w) = [s0] →
  ∃ w' t,
    handle_unsubscribe self data request_id w = (Ok tt, w') ∧
    trace w' = trace w ++ [Sent self (unsubscribed_ack (t_name topic) client request_id t)] ∧
    db w' = db_unsubscribed topic c s0 w ∧
    connection (self_of w' self) = Some c ∧
    connection_id (self_of w' self) = connection_id (self_of w self) ∧
    closed w' = closed w.
Proof.
  intros Htopic Hclient (Hconn & Hc & Hopen) Hok Hin Hone.
  set (w1 := after_recount topic c
               (set_db (db_save_subscription (set_is_active false s0) (db w)) w)).
  set (forget := λ c0 : Consumer,
         mkConsumer (connection_id c0) (client_id c0)
                    (subscribed_topics c0 ∖ {[t_name topic]}) (connection c0)).
  set (w2 := set_consumers (<[self := forget (self_of w1 self)]> (consumers w1)) w1).
  destruct (registry_discard_run (t_name topic) self w2)
    as (w3 & Hdiscard & Hdb3 & Hcs3 & Htr3 & Hcl3 & Hck3).
  exists (log_event (Sent self (unsubscribed_ack (t_name topic) client request_id (clock w3)))
                    (tick w3)), (clock w3).
  split.
  - unfold handle_unsubscribe. rewrite Htopic, Hclient. apply try_except_Ok.
    rewrite (bind_Ok _ _ _ _ _
               (unsubscribe_from_topic_row self topic c s0 client w Hok Hin Hconn Hc Hone)).
    cbn iota. fold w1.
    rewrite (bind_Ok _ _ _ tt w2) by done.
    rewrite (bind_Ok _ _ _ _ _ Hdiscard).
    rewrite (bind_Ok _ _ _ (clock w3) (tick w3)) by done.
    apply send_open. cbn. by rewrite Hcl3.
  - cbn. rewrite Htr3, Hdb3, Hcl3. unfold self_of. cbn. rewrite Hcs3.
    subst w2. cbn. rewrite lookup_insert_eq. cbn. by split_and!.
Qed.

Lemma subscription_row_member c tid s0 d :
  subscriptions_of c tid d = [s0] →
  s0 ∈ subscriptions d ∧ s_connection s0 = c ∧ s_topic s0 = tid.
Proof.
  intros Hone.
  assert (s0 ∈ subscriptions_of c tid d) as Hin
    by (rewrite Hone; by apply list_elem_of_singleton).
  unfold subscriptions_of in Hin. apply list_elem_of_filter in Hin. naive_solver.
Qed.

Lemma db_unsubscribed_facts topic c s0 w :
  schema_ok (db w) → topic ∈ topics (db w) → c ∈ c_id <$> connections (db w) →
  subscriptions_of c (t_id topic) (db w) = [s0] →
  let d' := db_unsubscribed topic c s0 w in
  schema_ok d' ∧
  subscriptions_of c (t_id topic) d' = [set_is_active false s0] ∧
  c ∈ c_id <$> connections d' ∧
  (∃ row, row ∈ topics d' ∧ t_id row = t_id topic ∧ t_name row = t_name topic) ∧
  (∀ r, r ∈ topics d' → t_id r = t_id topic →
        t_subscriber_count r = active_count (t_id topic) d') ∧
  subscriptions d' = subscriptions (db_save_subscription (set_is_active false s0) (db w)) ∧
  messages d' = messages (db w).
Proof.
  intros Hok Htopic Hc Hone d'.
  destruct (subscription_row_member _ _ _ _ Hone) as (Hs0 & _ & _).
  set (w2 := set_db (db_save_subscription (set_is_active false s0) (db w)) w).
  assert (Hok2 : schema_ok (db w2)) by by apply schema_ok_db_save_subscription.
  destruct (after_recount_facts topic c w2 Hok2 Htopic)
    as (_ & Hok3 & Hsubs & Hmsg & Hids & Hrow & Hcount).
  subst d'. unfold db_unsubscribed. fold w2. split_and!; try done.
  - unfold subscriptions_of. rewrite Hsubs.
    by apply (subscriptions_of_saved c (t_id topic) s0 false (db w)); [apply Hok|..].
  - by rewrite Hids.
Qed.

(** C5, amended: an unsubscribe for which the store has no subscription row
    of the connection (no topic of that name, or no row for the pair) is
    answered with the error envelope "Failed to unsubscribe from topic:".  An
    unsubscribe that finds a row, whatever its flag, is answered with the
    [unsubscribed] ack and leaves the row in the table with [is_active]
    cleared; a second unsubscribe therefore finds it and is acknowledged too. *)
Theorem unsubscribe_is_refused_only_without_a_row
    self data request_id topic_name client c w :
  nonempty (req_topic data) = Some topic_name →
  nonempty (req_client_id data) = Some client →
  live w self c → schema_ok (db w) →
  let unsubscribe := handle_unsubscribe self data request_id in
  ((∀ topic, topic ∈ topics (db w) → t_name topic = topic_name →
             subscriptions_of c (t_id topic) (db w) = []) →
   new_events unsubscribe w =
     [Sent self (error_envelope ("Failed to unsubscribe from topic: " +:+ topic_name)
                                request_id (clock w))]) ∧
  (∀ topic s, topic ∈ topics (db w) → t_name topic = topic_name →
     subscriptions_of c (t_id topic) (db w) = [s] →
     (∃ t, new_events unsubscribe w =
           [Sent self (unsubscribed_ack topic_name client request_id t)]) ∧
     subscriptions_of c (t_id topic) (db (run unsubscribe w)) = [set_is_active false s] ∧
     (∃ t, new_events unsubscribe (run unsubscribe w) =
           [Sent self (unsubscribed_ack topic_name client request_id t)])).
Proof.
  intros Htopic Hclient Hlive Hok unsubscribe. split.
  - intros Hnone. apply new_events_app. subst unsubscribe. unfold run.
    by rewrite (handle_unsubscribe_refused self data request_id topic_name client c w).
  - intros topic s Hin <- Hone.
    destruct Hlive as (Hconn & Hc & Hopen).
    destruct (handle_unsubscribe_accepted self data request_id topic client c s w)
      as (w1 & t1 & Hrun1 & Htr1 & Hdb1 & Hconn1 & _ & Hcl1); try done.
    destruct (db_unsubscribed_facts topic c s w Hok Hin Hc Hone)
      as (Hok1 & Hone1 & Hc1 & (row & Hrow & Hid & Hname) & _).
    rewrite <- Hdb1 in Hok1, Hone1, Hc1, Hrow.
    assert (run unsubscribe w = w1) as -> by (subst unsubscribe; unfold run; by rewrite Hrun1).
    destruct (handle_unsubscribe_accepted self data request_id row client c
                (set_is_active false s) w1)
      as (w2 & t2 & Hrun2 & Htr2 & _); try done.
    { by rewrite Hname. }
    { split_and!; [done..|]. by rewrite Hcl1. }
    { by rewrite Hid. }
    split_and!.
    + exists t1. apply new_events_app. subst unsubscribe. unfold run. by rewrite Hrun1.
    + done.
    + exists t2. apply new_events_app. subst unsubscribe. unfold run. rewrite Hrun2.
      by rewrite Hname in Htr2.
Qed.

(** ** Deleting a topic *)

(** C6: handles 1 and 2 are subscribed to "goner", the socket of 2 has gone
    away, and the admin deletes the topic.  The rows are deleted and the view
    answers 200, but the failed send to 2 makes the notification loop mutate
    the set it iterates: the loop dies, handle 1 is never sent the notice, and
    the registry keeps its entry for "goner". *)
Theorem delete_topic_notice_aborts_on_failed_send :
  let w := close_socket 2 two_on_goner in
  (delete_topic "goner" w).1 =
    Ok (Response 200 (JsonBody (JObj [("status", JStr "deleted"); ("topic", JStr "goner")]))) ∧
  topics (db (run (delete_topic "goner") w)) = [] ∧
  subscriptions (db (run (delete_topic "goner") w)) = [] ∧
  topic_connections w !! "goner" = Some ({[1; 2]} : gset nat) ∧
  new_events (delete_topic "goner") w = [SendFailed 2 (topic_deleted_notice "goner" 13)] ∧
  topic_connections (run (delete_topic "goner") w) !! "goner" = Some ({[1; 2]} : gset nat).
Proof. vm_compute. repeat split; reflexivity. Qed.

(** ** Deleting a topic when every send succeeds *)

Lemma filter_none {A} (P : A → Prop) `{∀ x, Decision (P x)} (l : list A) :
  (∀ x, ¬ P x) → filter P l = [].
Proof.
  intros Hno. induction l as [|x l IH]; [done|]. by rewrite filter_cons_False.
Qed.

Lemma notify_loop_all_open notice (pending : list nat) : ∀ connections w,
  (∀ h, h ∈ pending → h ∉ closed w) →
  notify_loop pending connections notice w =
  (Ok connections, log_events ((λ h, Sent h notice) <$> pending) w).
Proof.
  induction pending as [|h pending IH]; intros connections w Hopen.
  - cbn. by rewrite log_events_nil.
  - cbn [notify_loop].
    assert (Hsend : try_except (send h notice;; mret connections)
                      (λ _, mret (connections ∖ {[h]})) w
                    = (Ok connections, log_event (Sent h notice) w)).
    { apply try_except_Ok. erewrite bind_Ok; [done|].
      apply send_open, Hopen. by left. }
    rewrite (bind_Ok _ _ _ _ _ Hsend). rewrite decide_True by done.
    rewrite IH; [by rewrite log_events_cons|].
    intros h' Hh'. cbn. apply Hopen. by right.
Qed.

Lemma notify_topic_deleted_all_open topic_name registered w :
  topic_connections w !! topic_name = Some registered →
  (∀ h, h ∈ registered → h ∉ closed w) →
  notify_topic_deleted topic_name w =
  (Ok tt,
   set_topic_connections (delete topic_name (topic_connections w))
     (log_events ((λ h, Sent h (topic_deleted_notice topic_name (clock w)))
                  <$> elements registered) (tick w))).
Proof.
  intros Hreg Hopen. unfold notify_topic_deleted. apply try_except_Ok.
  rewrite (bind_Ok _ _ _ w w) by done. rewrite Hreg.
  rewrite (bind_Ok _ _ _ (clock w) (tick w)) by done.
  rewrite (bind_Ok _ _ _ _ _
             (notify_loop_all_open (topic_deleted_notice topic_name (clock w))
                (elements registered) registered (tick w)
                (λ h Hh, Hopen h (proj1 (elem_of_elements registered h) Hh)))).
  done.
Qed.

(** X24: when the socket of every handle registered for the topic is open,
    deleting the topic answers 200, leaves no row of the topic, sends the
    deletion notice once to every registered handle and to nobody else, and
    removes the entry of the topic from the routing table. *)
Lemma delete_topic_all_open topic registered w :
  schema_ok (db w) → topic ∈ topics (db w) →
  topic_connections w !! t_name topic = Some registered →
  (∀ h, h ∈ registered → h ∉ closed w) →
  let w' := run (delete_topic (t_name topic)) w in
  (delete_topic (t_name topic) w).1 =
    Ok (Response 200 (JsonBody (JObj [("status", JStr "deleted");
                                      ("topic", JStr (t_name topic))]))) ∧
  (t_name topic ∉ t_name <$> topics (db w')) ∧
  subscription_count (t_id topic) (db w') = 0 ∧
  message_count (t_id topic) (db w') = 0 ∧
  new_events (delete_topic (t_name topic)) w =
    (λ h, Sent h (topic_deleted_notice (t_name topic) (clock w))) <$> elements registered ∧
  topic_connections w' !! t_name topic = None.
Proof.
  intros Hok Hin Hreg Hopen w'.
  set (d3 := with_topics (filter (λ r, t_id r ≠ t_id topic))
               (with_messages (filter (λ m, m_topic m ≠ t_id topic))
                  (with_subscriptions (filter (λ s, s_topic s ≠ t_id topic)) (db w)))).
  assert (Hfound : find_topic (t_name topic) w = (Ok (Some topic), w)).
  { unfold find_topic. apply try_except_Ok.
    by rewrite (bind_Ok _ _ _ _ _ (Topic_get_found w topic (topic_names_unique _ Hok) Hin)). }
  assert (Hnotify := notify_topic_deleted_all_open (t_name topic) registered (set_db d3 w)
                       Hreg Hopen).
  assert (Hrun : delete_topic (t_name topic) w =
    (Ok (Response 200 (JsonBody (JObj [("status", JStr "deleted");
                                       ("topic", JStr (t_name topic))]))),
     set_topic_connections (delete (t_name topic) (topic_connections w))
       (log_events ((λ h, Sent h (topic_deleted_notice (t_name topic) (clock w)))
                    <$> elements registered) (tick (set_db d3 w))))).
  { unfold delete_topic. apply try_except_Ok.
    rewrite (bind_Ok _ _ _ _ _ Hfound). cbn iota.
    rewrite (bind_Ok _ _ _ (db w) w) by done.
    erewrite bind_Ok; [|done]. erewrite bind_Ok; [|done].
    erewrite bind_Ok; [|done]. erewrite bind_Ok; [|done].
    erewrite bind_Ok; [|done].
    erewrite bind_Ok; [done|]. apply try_except_Ok. exact Hnotify. }
  subst w'. unfold run. rewrite Hrun. cbn [fst snd]. split_and!.
  - done.
  - cbn. intros Hname. apply list_elem_of_fmap in Hname as (r & Hrname & Hr).
    apply list_elem_of_filter in Hr as [Hne Hr]. apply Hne. f_equal.
    by apply (key_unique_inj t_name (topics (db w))); [apply Hok|..].
  - unfold subscription_count. cbn. rewrite list_filter_filter.
    rewrite filter_none; [done|]. tauto.
  - unfold message_count. cbn. rewrite list_filter_filter.
    rewrite filter_none; [done|]. tauto.
  - apply new_events_app. unfold run. by rewrite Hrun.
  - cbn. apply lookup_delete_eq.
Qed.

(** X23: a publish to a name that has no topic row is refused with "Topic
    not found" and creates nothing: publishing never makes a topic. *)
Lemma handle_publish_topic_missing self data request_id topic_name client message w :
  nonempty (req_topic data) = Some topic_name →
  req_message data = Some message → truthy message = true →
  nonempty (req_client_id data) = Some client →
  topic_name ∉ t_name <$> topics (db w) → self ∉ closed w →
  handle_publish self data request_id w =
  (Ok tt, log_event (Sent self (error_envelope ("Topic not found: " +:+ topic_name)
                                               request_id (clock w)))
                    (tick w)).
Proof.
  intros Htopic Hmsg Htruthy Hclient Hmissing Hopen.
  unfold handle_publish. cbv zeta. rewrite Htopic, Hmsg, Hclient. cbn [default].
  unfold id. rewrite Htruthy. cbn [negb]. apply try_except_Ok.
  assert (Hget : get_topic topic_name w = (Ok None, w)).
  { unfold get_topic. erewrite try_except_Raise; [done|].
    by rewrite (bind_Raise _ _ _ _ _ (Topic_get_missing w topic_name Hmissing)). }
  rewrite (bind_Ok _ _ _ _ _ Hget). cbn iota.
  unfold send_error. rewrite (bind_Ok _ _ _ (clock w) (tick w)) by done.
  by apply send_open.
Qed.

(** ** The message history endpoint *)

(** X27: whatever the topic name, the query parameters and the state,
    [get_topic_messages] changes nothing and answers 404 or 500, never 200. *)
Lemma get_topic_messages_never_200 topic_name limit_param offset_param w :
  ∃ resp, get_topic_messages topic_name limit_param offset_param w = (Ok resp, w)
          ∧ (status resp = 404 ∨ status resp = 500).
Proof.
  unfold get_topic_messages, find_topic, Topic_get, try_except, mbind, M_bind, get_db.
  cbn. destruct (filter _ (topics (db w))) as [|r [|r' rest]]; cbn; eauto.
  destruct limit_param, offset_param; cbn; eauto;
    unfold check_slice; destruct (_ || _)%bool; cbn; eauto.
Qed.

(** C7: a GET of [/topics/news/messages/?limit=101&offset=0] on the existing
    topic "news" is answered with status 500 and an error body, because the
    view evaluates the name [MessageSerializer], which [views.py] never
    imports; no page of messages is produced. *)
Theorem get_topic_messages_raises_name_error :
  get_topic_messages "news" (Digits 101) (Digits 0) alice_published =
  (Ok (Response 500 (error_body
         "Failed to get topic messages: name 'MessageSerializer' is not defined")),
   alice_published).
Proof. vm_compute. reflexivity. Qed.

(** ** Validation of the request id *)

Lemma receive_invalid_request_id uuid_parses self data w :
  self ∉ closed w →
  truthy (req_request_id data) = false
  ∨ (∃ s, req_request_id data = JStr s ∧ uuid_parses s = false) →
  receive uuid_parses self (Decoded data) w =
  (Ok tt, log_event (Sent self (JObj [("type", JStr "error");
                                      ("error", JStr "Invalid or missing request_id");
                                      ("timestamp", JStr (isoformat (clock w)))]))
                    (tick w)).
Proof.
  intros Hopen Hbad. unfold receive, try_except, mbind, M_bind.
  destruct Hbad as [Hfalsy | (s & Hs & Hparse)].
  - rewrite Hfalsy. cbn. unfold send_error, mbind, M_bind, now. cbn.
    by rewrite send_open.
  - rewrite Hs. destruct (truthy (JStr s)); cbn; rewrite ?Hparse; cbn;
      unfold send_error, mbind, M_bind, now; cbn; by rewrite send_open.
Qed.

(** C8: a ping whose [request_id] is the JSON number 123.  The value is not a
    UUID, yet the frame is not answered with "Invalid or missing request_id":
    [uuid.UUID] raises [AttributeError] on it, [is_valid_uuid] only catches
    [ValueError], and the frame is answered from the catch-all clause of
    [receive]. *)
Theorem non_string_request_id_is_internal_error uuid_parses :
  new_events (receive uuid_parses 1
                (Decoded (mkRequest (Some "ping") (JInt 123) None None None None)))
             alice_subscribed =
  [Sent 1 (JObj [("type", JStr "error");
                 ("error", JStr "Internal error: 'int' object has no attribute 'replace'");
                 ("timestamp", JStr "7")])].
Proof. vm_compute. reflexivity. Qed.

(** ** After a rejected frame the connection still answers *)

Lemma receive_ping uuid_parses self data s w :
  req_type data = Some "ping" → req_request_id data = JStr s →
  s ≠ "" → uuid_parses s = true → self ∉ closed w →
  ∃ t, (receive uuid_parses self (Decoded data) w).1 = Ok tt ∧
       new_events (receive uuid_parses self (Decoded data)) w =
       [Sent self (JObj [("type", JStr "pong"); ("request_id", JStr s);
                         ("timestamp", JStr (isoformat t))])].
Proof.
  intros Htype Hrid Hs Hparse Hopen.
  assert (Htruthy : truthy (JStr s) = true).
  { cbn. destruct (String.eqb s "") eqn:E; [|done]. by apply String.eqb_eq in E. }
  destruct (update_connection_activity self w) as [r1 w1] eqn:Hact.
  assert (∃ b, r1 = Ok b ∧ trace w1 = trace w ∧ closed w1 = closed w) as (b & -> & Htr & Hcl).
  { unfold update_connection_activity, try_except, mbind, M_bind, get_self in Hact.
    cbn in Hact. destruct (connection (self_of w self)) as [c|]; cbn in Hact.
    - unfold update_activity, mbind, M_bind, now, get_db in Hact. cbn in Hact.
      destruct (decide _); cbn in Hact; injection Hact as <- <-; eauto.
    - injection Hact as <- <-; eauto. }
  assert (Hrun : receive uuid_parses self (Decoded data) w =
                 (Ok tt, log_event (Sent self (JObj [("type", JStr "pong");
                                                     ("request_id", JStr s);
                                                     ("timestamp", JStr (isoformat (clock w1)))]))
                                   (tick w1))).
  { unfold receive. apply try_except_Ok. rewrite Hrid, Htruthy.
    rewrite (bind_Ok _ _ _ true w) by (cbn; by rewrite Hparse).
    cbn [negb]. rewrite Htype.
    rewrite decide_False by done. rewrite decide_False by done.
    rewrite decide_False by done. rewrite decide_True by done.
    unfold handle_ping. apply try_except_Ok.
    rewrite (bind_Ok _ _ _ _ _ Hact).
    rewrite (bind_Ok _ _ _ (clock w1) (tick w1)) by done.
    apply send_open. cbn. by rewrite Hcl. }
  exists (clock w1). rewrite Hrun. split; [done|].
  apply new_events_app. unfold run. rewrite Hrun. cbn. by rewrite Htr.
Qed.

(** X26: a frame rejected for its request id leaves the socket as it was: a
    valid ping sent next is answered with a pong. *)
Lemma rejected_frame_then_ping uuid_parses self bad ping s w :
  self ∉ closed w →
  truthy (req_request_id bad) = false
  ∨ (∃ s', req_request_id bad = JStr s' ∧ uuid_parses s' = false) →
  req_type ping = Some "ping" → req_request_id ping = JStr s →
  s ≠ "" → uuid_parses s = true →
  ∃ t, new_events (receive uuid_parses self (Decoded ping))
                  (run (receive uuid_parses self (Decoded bad)) w) =
       [Sent self (JObj [("type", JStr "pong"); ("request_id", JStr s);
                         ("timestamp", JStr (isoformat t))])].
Proof.
  intros Hopen Hbad Htype Hrid Hs Hparse.
  unfold run at 1. rewrite (receive_invalid_request_id uuid_parses self bad w Hopen Hbad).
  destruct (receive_ping uuid_parses self ping s
              (log_event (Sent self (JObj [("type", JStr "error");
                                           ("error", JStr "Invalid or missing request_id");
                                           ("timestamp", JStr (isoformat (clock w)))]))
                         (tick w)))
    as (t & _ & Hev); try done.
  by exists t.
Qed.

(** ** What the control plane reports about subscribers *)

Lemma health_check_reports_row_count uptime w :
  health_check uptime w =
  (Ok (Response 200 (JsonBody (JObj
         [("uptime_sec", JInt (Z.of_nat uptime));
          ("topics", JInt (Z.of_nat (length (topics (db w)))));
          ("subscribers", JInt (Z.of_nat (length (subscriptions (db w)))))]))), w).
Proof. reflexivity. Qed.

Lemma topic_entry_reports_row_count d topic :
  member "subscribers" (topic_entry d topic) =
  Some (JInt (Z.of_nat (length (filter (λ s, s_topic s = t_id topic) (subscriptions d))))).
Proof. reflexivity. Qed.

Lemma stats_entry_reports_row_count d topic :
  member "subscribers" (stats_entry d topic).2 =
  Some (JInt (Z.of_nat (length (filter (λ s, s_topic s = t_id topic) (subscriptions d))))).
Proof. reflexivity. Qed.

Lemma filter_twice {A} (P : A → Prop) `{∀ x, Decision (P x)} (l : list A) :
  filter P (filter P l) = filter P l.
Proof. rewrite list_filter_filter. apply list_filter_iff. tauto. Qed.

Lemma filter_swap {A} (P Q : A → Prop) `{∀ x, Decision (P x)} `{∀ x, Decision (Q x)}
    (l : list A) :
  filter P (filter Q l) = filter Q (filter P l).
Proof. rewrite !list_filter_filter. apply list_filter_iff. tauto. Qed.

Section Unsubscribed.
Variables (topic : TopicRow) (c : string) (s0 : SubscriptionRow) (w : World).
Hypothesis schema : schema_ok (db w).
Hypothesis topic_stored : topic ∈ topics (db w).
Hypothesis row_found : subscriptions_of c (t_id topic) (db w) = [s0].

Let d' : DB := db_unsubscribed topic c s0 w.

Lemma unsubscribed_subscription_count tid :
  subscription_count tid d' = subscription_count tid (db w).
Proof.
  destruct (subscription_row_member _ _ _ _ row_found) as (Hs0 & _ & _).
  unfold subscription_count. subst d'. unfold db_unsubscribed, after_recount. cbn.
  rewrite filter_map_stable; [by rewrite length_map|].
  intros r Hr.
  pose proof (db_save_subscription_rows s0 false (db w)
                (subscription_ids_unique _ schema) Hs0 r Hr) as Hsame.
  cbn in Hsame. rewrite Hsame.
  by destruct (decide (r = s0)) as [->|].
Qed.

Lemma unsubscribed_message_count tid : message_count tid d' = message_count tid (db w).
Proof. reflexivity. Qed.

Lemma unsubscribed_topics :
  ∃ g : TopicRow → TopicRow,
    (∀ r, t_id (g r) = t_id r ∧ t_name (g r) = t_name r ∧ t_created_at (g r) = t_created_at r) ∧
    topics d' = map g (topics (db w)) ∧ Topic_all d' = map g (Topic_all (db w)).
Proof.
  eexists (λ r, if decide (t_id r = t_id topic) then set_subscriber_count _ r else r).
  split_and!.
  - intros r. by destruct (decide _).
  - reflexivity.
  - unfold Topic_all. subst d'. unfold db_unsubscribed, after_recount. cbn.
    apply merge_sort_map. intros a b. unfold created_later.
    by destruct (decide (t_id a = t_id topic)), (decide (t_id b = t_id topic)).
Qed.

Lemma unsubscribed_endpoints uptime w' :
  db w' = d' →
  (list_topics w').1 = (list_topics w).1 ∧
  (get_stats w').1 = (get_stats w).1 ∧
  (health_check uptime w').1 = (health_check uptime w).1.
Proof.
  intros Hdb. destruct unsubscribed_topics as (g & Hg & Htopics & Hall).
  assert (Hlist : topic_entry d' <$> Topic_all d' = topic_entry (db w) <$> Topic_all (db w)).
  { rewrite Hall. change (map g ?l) with (g <$> l). rewrite <- list_fmap_compose.
    apply list_fmap_ext. intros i r _. unfold compose, topic_entry.
    destruct (Hg r) as (-> & -> & _). by rewrite unsubscribed_subscription_count. }
  assert (Hstats : stats_entry d' <$> Topic_all d' = stats_entry (db w) <$> Topic_all (db w)).
  { rewrite Hall. change (map g ?l) with (g <$> l). rewrite <- list_fmap_compose.
    apply list_fmap_ext. intros i r _. unfold compose, stats_entry.
    destruct (Hg r) as (-> & -> & _).
    by rewrite unsubscribed_subscription_count, unsubscribed_message_count. }
  assert (Hlen : length (topics d') = length (topics (db w))
                 ∧ length (subscriptions d') = length (subscriptions (db w))).
  { rewrite Htopics, length_map. split; [done|].
    subst d'. unfold db_unsubscribed, after_recount. cbn. by rewrite length_map. }
  unfold list_topics, get_stats, health_check, try_except, mbind, M_bind, get_db.
  cbn [fst mret M_ret]. rewrite Hdb, Hlist, Hstats.
  destruct Hlen as [-> ->]. done.
Qed.

Lemma unsubscribed_counter_lags :
  c ∈ c_id <$> connections (db w) →
  ∀ row, row ∈ topics d' → t_id row = t_id topic →
         t_subscriber_count row < subscription_count (t_id topic) d'.
Proof.
  intros Hc row Hrow Hid.
  destruct (db_unsubscribed_facts topic c s0 w schema topic_stored Hc row_found)
    as (_ & Hone & _ & _ & Hcount & _).
  fold d' in Hone, Hcount. rewrite (Hcount row Hrow Hid).
  destruct (subscription_row_member _ _ _ _ Hone) as (Hin & _ & Htid).
  unfold active_count, subscription_count.
  rewrite <- (list_filter_filter (λ s, s_topic s = t_id topic) (λ s, s_is_active s = true)).
  rewrite filter_swap.
  apply (length_filter_lt _ _ (set_is_active false s0)).
  - by apply list_elem_of_filter.
  - cbn. discriminate.
Qed.

End Unsubscribed.

(** ** No frame takes a subscription row away *)

Create HintDb rows.

Lemma keeps_rows_ret {A} (a : A) : keeps_rows (mret a).
Proof. intros w. done. Qed.

Lemma keeps_rows_raise {A} (e : exn) : keeps_rows (raise e : M A).
Proof. intros w. done. Qed.

Lemma keeps_rows_bind {A B} (m : M A) (f : A → M B) :
  keeps_rows m → (∀ a, keeps_rows (f a)) → keeps_rows (m ≫= f).
Proof.
  intros Hm Hf w. specialize (Hm w). unfold mbind, M_bind.
  destruct (m w) as [[a|e] w1]; cbn in *; [|done].
  specialize (Hf a w1). lia.
Qed.

Lemma keeps_rows_try {A} (body : M A) (handler : exn → M A) :
  keeps_rows body → (∀ e, keeps_rows (handler e)) → keeps_rows (try_except body handler).
Proof.
  intros Hm Hh w. specialize (Hm w). unfold try_except.
  destruct (body w) as [[a|e] w1]; cbn in *; [done|].
  specialize (Hh e w1). lia.
Qed.

Lemma keeps_rows_now : keeps_rows now.
Proof. intros w. done. Qed.

Lemma keeps_rows_uuid4 : keeps_rows uuid4.
Proof. intros w. done. Qed.

Lemma keeps_rows_get_db : keeps_rows get_db.
Proof. intros w. done. Qed.

Lemma keeps_rows_get_world : keeps_rows get_world.
Proof. intros w. done. Qed.

Lemma keeps_rows_get_self self : keeps_rows (get_self self).
Proof. intros w. done. Qed.

Lemma keeps_rows_set_self self f : keeps_rows (set_self self f).
Proof. intros w. done. Qed.

Lemma keeps_rows_send h f : keeps_rows (send h f).
Proof. intros w. unfold send. by destruct (decide _). Qed.

Lemma keeps_rows_registry_add topic_name self : keeps_rows (registry_add topic_name self).
Proof. intros w. done. Qed.

Lemma keeps_rows_registry_discard topic_name self :
  keeps_rows (registry_discard topic_name self).
Proof.
  intros w. unfold registry_discard, modify. cbn.
  destruct (topic_connections w !! topic_name); [|done]. by destruct (decide _).
Qed.

Lemma keeps_rows_registry_drop_failed topic_name h :
  keeps_rows (registry_drop_failed topic_name h).
Proof.
  intros w. unfold registry_drop_failed, mbind, M_bind, get_world. cbn.
  by destruct (topic_connections w !! topic_name).
Qed.

Lemma keeps_rows_put_db d w :
  length (subscriptions (db w)) ≤ length (subscriptions d) →
  length (subscriptions (db w)) ≤ length (subscriptions (db (put_db d w).2)).
Proof. done. Qed.

Lemma keeps_rows_Topic_get name : keeps_rows (Topic_get name).
Proof.
  intros w. unfold Topic_get, mbind, M_bind, get_db. cbn.
  by destruct (filter _ _) as [|? [|]].
Qed.

Lemma keeps_rows_Topic_create name metadata : keeps_rows (Topic_create name metadata).
Proof.
  intros w. unfold Topic_create, mbind, M_bind, now, get_db. cbn.
  by destruct (decide _).
Qed.

Lemma keeps_rows_Topic_save topic upd : keeps_rows (Topic_save topic upd).
Proof.
  intros w. unfold Topic_save, mbind, M_bind, get_db. cbn. by destruct (decide _).
Qed.

Lemma keeps_rows_update_activity conn : keeps_rows (update_activity conn).
Proof.
  intros w. destruct conn; [|done].
  unfold update_activity, mbind, M_bind, now, get_db. cbn. by destruct (decide _).
Qed.

Lemma keeps_rows_Subscription_get conn topic : keeps_rows (Subscription_get conn topic).
Proof.
  intros w. destruct conn; [|done].
  unfold Subscription_get, mbind, M_bind, get_db. cbn.
  by destruct (subscriptions_of _ _ _) as [|? [|]].
Qed.

Lemma keeps_rows_Subscription_create conn topic : keeps_rows (Subscription_create conn topic).
Proof.
  intros w. unfold Subscription_create, mbind, M_bind, now, get_db. cbn.
  destruct conn; [|done]. destruct (decide _); [|done]. destruct (decide _); [|done].
  cbn. rewrite length_app. lia.
Qed.

Lemma keeps_rows_Subscription_save s : keeps_rows (Subscription_save s).
Proof.
  intros w. unfold Subscription_save, mbind, M_bind, get_db. cbn.
  destruct (decide _); cbn; [by rewrite length_map|]. rewrite length_app. lia.
Qed.

Lemma keeps_rows_Message_create topic conn data metadata :
  keeps_rows (Message_create topic conn data metadata).
Proof.
  intros w. unfold Message_create, mbind, M_bind, uuid4, now, get_db. cbn.
  by destruct (_ && _).
Qed.

Lemma keeps_rows_gt_zero v : keeps_rows (gt_zero v).
Proof. intros w. by destruct v. Qed.

Lemma keeps_rows_slice_stop v : keeps_rows (slice_stop v).
Proof. intros w. destruct v; try done. cbn. by destruct (_ <? _)%Z. Qed.

Lemma keeps_rows_payload_of v : keeps_rows (payload_of v).
Proof. intros w. by destruct v. Qed.

Lemma keeps_rows_for_each {A} (l : list A) (body : A → M unit) :
  (∀ x, keeps_rows (body x)) → keeps_rows (for_each l body).
Proof.
  intros Hbody. induction l as [|x l IH]; cbn [for_each].
  - apply keeps_rows_ret.
  - apply keeps_rows_bind; [apply Hbody|]. by intros _.
Qed.

#[local] Hint Resolve keeps_rows_ret keeps_rows_raise keeps_rows_now keeps_rows_uuid4
  keeps_rows_get_db keeps_rows_get_world keeps_rows_get_self keeps_rows_set_self
  keeps_rows_send keeps_rows_registry_add keeps_rows_registry_discard
  keeps_rows_registry_drop_failed keeps_rows_Topic_get keeps_rows_Topic_create
  keeps_rows_Topic_save keeps_rows_update_activity keeps_rows_Subscription_get
  keeps_rows_Subscription_create keeps_rows_Subscription_save
  keeps_rows_Message_create keeps_rows_gt_zero keeps_rows_slice_stop
  keeps_rows_payload_of : rows.

(** Walks down a computation built from the pieces above. *)
Ltac keeps_rows_step :=
  match goal with
  | |- keeps_rows (_ ≫= _) => apply keeps_rows_bind; [|intros]
  | |- keeps_rows (try_except _ _) => apply keeps_rows_try; [|intros]
  | |- keeps_rows (for_each _ _) => apply keeps_rows_for_each; intros
  | |- keeps_rows (match ?x with _ => _ end) => destruct x
  | |- keeps_rows _ => solve [auto with rows]
  end.

Ltac keeps_rows_auto := cbv zeta; repeat keeps_rows_step.

Lemma keeps_rows_send_error self msg request_id :
  keeps_rows (send_error self msg request_id).
Proof. unfold send_error. keeps_rows_auto. Qed.

#[local] Hint Resolve keeps_rows_send_error : rows.

Lemma keeps_rows_fan_out_step self topic_name frame conn :
  keeps_rows (fan_out_step self topic_name frame conn).
Proof. unfold fan_out_step. keeps_rows_auto. Qed.

#[local] Hint Resolve keeps_rows_fan_out_step : rows.

Lemma keeps_rows_handle_subscribe self data request_id :
  keeps_rows (handle_subscribe self data request_id).
Proof.
  unfold handle_subscribe, get_or_create_topic, Topic_get_or_create, subscribe_to_topic,
    Subscription_get_or_create, update_subscriber_count, send_last_n_messages_async,
    get_last_n_messages, fetch_recent.
  keeps_rows_auto.
Qed.

Lemma keeps_rows_handle_unsubscribe self data request_id :
  keeps_rows (handle_unsubscribe self data request_id).
Proof.
  unfold handle_unsubscribe, unsubscribe_from_topic, update_subscriber_count.
  keeps_rows_auto.
Qed.

Lemma keeps_rows_handle_publish self data request_id :
  keeps_rows (handle_publish self data request_id).
Proof.
  unfold handle_publish, get_topic, publish_message, increment_message_count,
    update_last_published, broadcast_message.
  keeps_rows_auto.
Qed.

Lemma keeps_rows_handle_ping self data request_id :
  keeps_rows (handle_ping self data request_id).
Proof. unfold handle_ping, update_connection_activity. keeps_rows_auto. Qed.

Lemma keeps_rows_receive uuid_parses self text_data :
  keeps_rows (receive uuid_parses self text_data).
Proof.
  pose proof keeps_rows_handle_subscribe. pose proof keeps_rows_handle_unsubscribe.
  pose proof keeps_rows_handle_publish. pose proof keeps_rows_handle_ping.
  unfold receive, is_valid_uuid. keeps_rows_auto.
Qed.

(** ** No frame lowers the count of a topic *)

Lemma rows_extend_same d d' :
  subscriptions d' = subscriptions d → next_subscription_id d' = next_subscription_id d →
  rows_extend d d'.
Proof. intros Hs Hn [H1 H2]. unfold ids_ok. by rewrite Hs, Hn. Qed.

Lemma rows_extend_trans d1 d2 d3 : rows_extend d1 d2 → rows_extend d2 d3 → rows_extend d1 d3.
Proof.
  intros H12 H23 Hok. destruct (H12 Hok) as [Hok2 Hp]. destruct (H23 Hok2) as [Hok3 Hp'].
  split; [done|]. by etrans.
Qed.

Lemma triple_bind {A B} P (m : M A) Q (f : A → M B) R :
  triple P m Q → (∀ a, triple (Q a) (f a) R) → triple P (m ≫= f) R.
Proof.
  intros Hm Hf w HP. destruct (Hm w HP) as [Hext Hq]. unfold mbind, M_bind.
  destruct (m w) as [[a|e] w1]; cbn in *; [|by split].
  destruct (Hf a w1 (Hq a eq_refl)) as [Hext' Hr].
  split; [by eapply rows_extend_trans|done].
Qed.

Lemma triple_try {A} P (body : M A) (handler : exn → M A) Q :
  triple P body Q → (∀ e, triple (λ _, True) (handler e) Q) →
  triple P (try_except body handler) Q.
Proof.
  intros Hm Hh w HP. destruct (Hm w HP) as [Hext Hq]. unfold try_except.
  destruct (body w) as [[a|e] w1]; cbn in *; [by split|].
  destruct (Hh e w1 I) as [Hext' Hr].
  split; [by eapply rows_extend_trans|done].
Qed.

Lemma triple_weaken {A} (P P' : DB → Prop) (m : M A) (Q Q' : A → DB → Prop) :
  (∀ d, P' d → P d) → (∀ a d, Q a d → Q' a d) → triple P m Q → triple P' m Q'.
Proof. intros HP HQ Hm w Hw. destruct (Hm w (HP _ Hw)) as [? ?]. split; eauto. Qed.

Lemma keeps_topics_any {A} (m : M A) P : keeps_topics m → triple P m (λ _ _, True).
Proof. apply triple_weaken; done. Qed.

Lemma keeps_topics_bind {A B} (m : M A) (f : A → M B) :
  keeps_topics m → (∀ a, keeps_topics (f a)) → keeps_topics (m ≫= f).
Proof. intros Hm Hf. by apply (triple_bind _ _ (λ _ _, True)). Qed.

Lemma keeps_topics_try {A} (body : M A) (handler : exn → M A) :
  keeps_topics body → (∀ e, keeps_topics (handler e)) → keeps_topics (try_except body handler).
Proof. intros Hm Hh. by apply triple_try. Qed.

Lemma keeps_topics_same {A} (m : M A) :
  (∀ w, subscriptions (db (m w).2) = subscriptions (db w) ∧
        next_subscription_id (db (m w).2) = next_subscription_id (db w)) →
  keeps_topics m.
Proof. intros Hm w _. destruct (Hm w). split; [by apply rows_extend_same|done]. Qed.

Lemma keeps_topics_ret {A} (a : A) : keeps_topics (mret a).
Proof. by apply keeps_topics_same. Qed.

Lemma keeps_topics_raise {A} (e : exn) : keeps_topics (raise e : M A).
Proof. by apply keeps_topics_same. Qed.

Lemma keeps_topics_now : keeps_topics now.
Proof. by apply keeps_topics_same. Qed.

Lemma keeps_topics_get_db : keeps_topics get_db.
Proof. by apply keeps_topics_same. Qed.

Lemma keeps_topics_get_world : keeps_topics get_world.
Proof. by apply keeps_topics_same. Qed.

Lemma keeps_topics_get_self self : keeps_topics (get_self self).
Proof. by apply keeps_topics_same. Qed.

Lemma keeps_topics_set_self self f : keeps_topics (set_self self f).
Proof. by apply keeps_topics_same. Qed.

Lemma keeps_topics_send h f : keeps_topics (send h f).
Proof. apply keeps_topics_same. intros w. unfold send. by destruct (decide _). Qed.

Lemma keeps_topics_registry_add topic_name self : keeps_topics (registry_add topic_name self).
Proof. by apply keeps_topics_same. Qed.

Lemma keeps_topics_registry_discard topic_name self :
  keeps_topics (registry_discard topic_name self).
Proof.
  apply keeps_topics_same. intros w. unfold registry_discard, modify. cbn.
  destruct (topic_connections w !! topic_name); [|done]. by destruct (decide _).
Qed.

Lemma keeps_topics_registry_drop_failed topic_name h :
  keeps_topics (registry_drop_failed topic_name h).
Proof.
  apply keeps_topics_same. intros w.
  unfold registry_drop_failed, mbind, M_bind, get_world. cbn.
  by destruct (topic_connections w !! topic_name).
Qed.

Lemma keeps_topics_Topic_get name : keeps_topics (Topic_get name).
Proof.
  apply keeps_topics_same. intros w. unfold Topic_get, mbind, M_bind, get_db. cbn.
  by destruct (filter _ _) as [|? [|]].
Qed.

Lemma keeps_topics_Topic_create name metadata : keeps_topics (Topic_create name metadata).
Proof.
  apply keeps_topics_same. intros w.
  unfold Topic_create, mbind, M_bind, now, get_db. cbn. by destruct (decide _).
Qed.

Lemma keeps_topics_Topic_save topic upd : keeps_topics (Topic_save topic upd).
Proof.
  apply keeps_topics_same. intros w.
  unfold Topic_save, mbind, M_bind, get_db. cbn. by destruct (decide _).
Qed.

Lemma keeps_topics_update_activity conn : keeps_topics (update_activity conn).
Proof.
  apply keeps_topics_same. intros w. destruct conn; [|done].
  unfold update_activity, mbind, M_bind, now, get_db. cbn. by destruct (decide _).
Qed.

Lemma keeps_topics_Message_create topic conn data metadata :
  keeps_topics (Message_create topic conn data metadata).
Proof.
  apply keeps_topics_same. intros w.
  unfold Message_create, mbind, M_bind, uuid4, now, get_db. cbn. by destruct (_ && _).
Qed.

Lemma keeps_topics_gt_zero v : keeps_topics (gt_zero v).
Proof. apply keeps_topics_same. intros w. by destruct v. Qed.

Lemma keeps_topics_slice_stop v : keeps_topics (slice_stop v).
Proof.
  apply keeps_topics_same. intros w. destruct v; try done. cbn. by destruct (_ <? _)%Z.
Qed.

Lemma keeps_topics_payload_of v : keeps_topics (payload_of v).
Proof. apply keeps_topics_same. intros w. by destruct v. Qed.

Lemma keeps_topics_for_each {A} (l : list A) (body : A → M unit) :
  (∀ x, keeps_topics (body x)) → keeps_topics (for_each l body).
Proof.
  intros Hbody. induction l as [|x l IH]; cbn [for_each].
  - apply keeps_topics_ret.
  - apply keeps_topics_bind; [apply Hbody|]. by intros _.
Qed.

(** What [get] hands back is a row of the table. *)
Lemma triple_Subscription_get conn topic :
  triple (λ _, True) (Subscription_get conn topic) (λ s d, s ∈ subscriptions d).
Proof.
  intros w _. destruct conn as [c|]; [|by split; [apply rows_extend_same|]].
  unfold Subscription_get, mbind, M_bind, get_db. cbn.
  destruct (subscriptions_of c (t_id topic) (db w)) as [|s [|]] eqn:Hone; cbn;
    (split; [by apply rows_extend_same|]); try done.
  intros a [= <-]. by destruct (subscription_row_member _ _ _ _ Hone).
Qed.

(** An insert keeps the keys sound and adds one row at the end. *)
Lemma keeps_topics_Subscription_create conn topic :
  keeps_topics (Subscription_create conn topic).
Proof.
  intros w _. split; [|done].
  unfold Subscription_create, mbind, M_bind, now, get_db. cbn.
  destruct conn as [c|]; [|by apply rows_extend_same].
  destruct (decide _); [|by apply rows_extend_same].
  destruct (decide _); [|by apply rows_extend_same].
  cbn. intros [Hnd Hlt]. split; [split|]; cbn.
  - rewrite fmap_app. cbn. apply NoDup_app. split_and!; [done| |apply NoDup_singleton].
    intros i Hi ->%list_elem_of_singleton.
    apply list_elem_of_fmap in Hi as (s & Hs & Hin).
    rewrite Forall_forall in Hlt. specialize (Hlt s Hin). lia.
  - apply Forall_app. split.
    + eapply Forall_impl; [exact Hlt|]. cbn. intros; lia.
    + apply Forall_singleton. cbn. lia.
  - rewrite fmap_app. by apply prefix_app_r.
Qed.

(** Saving a row of the table with another flag moves no row. *)
Lemma triple_Subscription_save s0 b :
  triple (λ d, s0 ∈ subscriptions d) (Subscription_save (set_is_active b s0)) (λ _ _, True).
Proof.
  intros w Hs0. split; [|done].
  unfold Subscription_save, mbind, M_bind, get_db. cbn.
  rewrite decide_True by by apply list_elem_of_fmap_2.
  cbn. intros [Hnd Hlt].
  change (with_subscriptions _ (db w)) with (db_save_subscription (set_is_active b s0) (db w)).
  split; [split|].
  - by rewrite (db_save_subscription_key s_id s0 b (db w) Hnd Hs0).
  - apply Forall_forall. intros r Hr. cbn in Hr.
    apply list_elem_of_fmap in Hr as (r0 & -> & Hr0).
    rewrite Forall_forall in Hlt.
    destruct (decide _); [apply (Hlt s0 Hs0)|by apply Hlt].
  - by rewrite (db_save_subscription_key s_topic s0 b (db w) Hnd Hs0).
Qed.

Lemma triple_Subscription_get_or_create conn topic :
  triple (λ _, True) (Subscription_get_or_create conn topic)
         (λ r d, r.2 = false → r.1 ∈ subscriptions d).
Proof.
  unfold Subscription_get_or_create. apply triple_try.
  - eapply triple_bind; [apply triple_Subscription_get|].
    intros s w Hs. split; [by apply rows_extend_same|]. by intros a [= <-] _.
  - intros e. destruct (decide _); [|by intros w _; split; [apply rows_extend_same|]].
    eapply triple_bind; [apply keeps_topics_Subscription_create|].
    intros s w _. split; [by apply rows_extend_same|]. by intros a [= <-].
Qed.

Create HintDb topic_rows.

#[local] Hint Resolve keeps_topics_ret keeps_topics_raise keeps_topics_now
  keeps_topics_get_db keeps_topics_get_world keeps_topics_get_self keeps_topics_set_self
  keeps_topics_send keeps_topics_registry_add keeps_topics_registry_discard
  keeps_topics_registry_drop_failed keeps_topics_Topic_get keeps_topics_Topic_create
  keeps_topics_Topic_save keeps_topics_update_activity keeps_topics_Message_create
  keeps_topics_gt_zero keeps_topics_slice_stop keeps_topics_payload_of
  keeps_topics_Subscription_create : topic_rows.

Ltac keeps_topics_step :=
  match goal with
  | |- keeps_topics (_ ≫= _) => apply keeps_topics_bind; [|intros]
  | |- keeps_topics (try_except _ _) => apply keeps_topics_try; [|intros]
  | |- keeps_topics (for_each _ _) => apply keeps_topics_for_each; intros
  | |- keeps_topics (match ?x with _ => _ end) => destruct x
  | |- keeps_topics _ => solve [auto with topic_rows]
  end.

Ltac keeps_topics_auto := cbv zeta; repeat keeps_topics_step.

Lemma keeps_topics_recount topic conn :
  keeps_topics (d ← get_db;
                update_subscriber_count topic (active_count (t_id topic) d);;
                update_activity conn;;
                mret true).
Proof. unfold update_subscriber_count. keeps_topics_auto. Qed.

Lemma keeps_topics_subscribe_to_topic self topic client :
  keeps_topics (subscribe_to_topic self topic client).
Proof.
  unfold subscribe_to_topic. apply keeps_topics_try; [|auto with topic_rows].
  apply keeps_topics_bind; [auto with topic_rows|]. intros me.
  eapply triple_bind; [apply triple_Subscription_get_or_create|].
  intros [subscription created]. cbn [fst snd].
  eapply (triple_bind _ _ (λ _ _, True));
    [|intros ?; apply keeps_topics_any, keeps_topics_recount].
  destruct created.
  - apply keeps_topics_any, keeps_topics_ret.
  - eapply triple_weaken; [| |apply triple_Subscription_save]; cbn; auto.
Qed.

Lemma keeps_topics_unsubscribe_from_topic self topic_name client :
  keeps_topics (unsubscribe_from_topic self topic_name client).
Proof.
  unfold unsubscribe_from_topic. apply keeps_topics_try; [|auto with topic_rows].
  apply keeps_topics_bind; [auto with topic_rows|]. intros topic.
  apply keeps_topics_bind; [auto with topic_rows|]. intros me.
  eapply triple_bind; [apply triple_Subscription_get|].
  intros subscription.
  eapply triple_bind; [apply triple_Subscription_save|].
  intros ?. apply keeps_topics_any, keeps_topics_recount.
Qed.

Lemma keeps_topics_send_error self msg request_id :
  keeps_topics (send_error self msg request_id).
Proof. unfold send_error. keeps_topics_auto. Qed.

Lemma keeps_topics_fan_out_step self topic_name frame conn :
  keeps_topics (fan_out_step self topic_name frame conn).
Proof. unfold fan_out_step. keeps_topics_auto. Qed.

#[local] Hint Resolve keeps_topics_send_error keeps_topics_fan_out_step
  keeps_topics_subscribe_to_topic keeps_topics_unsubscribe_from_topic : topic_rows.

Lemma keeps_topics_handle_subscribe self data request_id :
  keeps_topics (handle_subscribe self data request_id).
Proof.
  unfold handle_subscribe, get_or_create_topic, Topic_get_or_create,
    send_last_n_messages_async, get_last_n_messages, fetch_recent.
  keeps_topics_auto.
Qed.

Lemma keeps_topics_handle_unsubscribe self data request_id :
  keeps_topics (handle_unsubscribe self data request_id).
Proof. unfold handle_unsubscribe. keeps_topics_auto. Qed.

Lemma keeps_topics_handle_publish self data request_id :
  keeps_topics (handle_publish self data request_id).
Proof.
  unfold handle_publish, get_topic, publish_message, increment_message_count,
    update_last_published, broadcast_message.
  keeps_topics_auto.
Qed.

Lemma keeps_topics_handle_ping self data request_id :
  keeps_topics (handle_ping self data request_id).
Proof. unfold handle_ping, update_connection_activity. keeps_topics_auto. Qed.

Lemma keeps_topics_receive uuid_parses self text_data :
  keeps_topics (receive uuid_parses self text_data).
Proof.
  pose proof keeps_topics_handle_subscribe. pose proof keeps_topics_handle_unsubscribe.
  pose proof keeps_topics_handle_publish. pose proof keeps_topics_handle_ping.
  unfold receive, is_valid_uuid. keeps_topics_auto.
Qed.

Lemma subscription_count_fmap tid (l : list SubscriptionRow) :
  length (filter (λ s, s_topic s = tid) l) = length (filter (λ t, t = tid) (s_topic <$> l)).
Proof.
  induction l as [|s l IH]; [done|]. cbn [fmap list_fmap].
  destruct (decide (s_topic s = tid)).
  - rewrite !filter_cons_True by done. cbn. by rewrite IH.
  - by rewrite !filter_cons_False.
Qed.

Lemma receive_keeps_topic_counts uuid_parses self text_data w tid :
  schema_ok (db w) →
  subscription_count tid (db w) ≤
  subscription_count tid (db (run (receive uuid_parses self text_data) w)).
Proof.
  intros Hok.
  destruct (keeps_topics_receive uuid_parses self text_data w I) as [Hext _].
  destruct Hext as [_ [k Hk]]; [split; apply Hok|].
  unfold subscription_count, run. rewrite !subscription_count_fmap, Hk.
  rewrite filter_app, length_app. lia.
Qed.

(** ** Disconnecting *)

Lemma for_each_registry_discard_run self (l : list string) : ∀ w,
  ∃ w', for_each l (λ topic_name, registry_discard topic_name self) w = (Ok tt, w') ∧
        db w' = db w ∧ consumers w' = consumers w.
Proof.
  induction l as [|x l IH]; intros w; [by exists w|].
  destruct (registry_discard_run x self w) as (w1 & Hrun & Hdb & Hcs & _).
  destruct (IH w1) as (w2 & Hrun2 & Hdb2 & Hcs2).
  exists w2. cbn [for_each]. rewrite (bind_Ok _ _ _ _ _ Hrun).
  split_and!; [done|congruence..].
Qed.

Lemma disconnect_deletes_rows self c w :
  is_Some (nonempty (connection_id (self_of w self))) →
  connection (self_of w self) = Some c →
  (disconnect self w).1 = Ok tt ∧
  subscriptions (db (run (disconnect self) w)) =
    filter (λ r, s_connection r ≠ c) (subscriptions (db w)) ∧
  topics (db (run (disconnect self) w)) = topics (db w).
Proof.
  intros [cid Hcid] Hconn.
  destruct (for_each_registry_discard_run self
              (elements (subscribed_topics (self_of w self))) w)
    as (w1 & Hloop & Hdb1 & Hcs1).
  assert (Hrun : disconnect self w =
    (Ok tt, set_db (with_messages
                      (map (λ m, if decide (m_publisher_connection m = Some c)
                                 then set_publisher None m else m))
                      (with_subscriptions (filter (λ s, s_connection s ≠ c))
                         (with_connections (filter (λ r, c_id r ≠ c))
                            (with_subscriptions (filter (λ s, s_connection s ≠ c)) (db w1)))))
                   w1)).
  { unfold disconnect. rewrite (bind_Ok _ _ _ (self_of w self) w) by done.
    rewrite Hcid. rewrite (bind_Ok _ _ _ _ _ Hloop).
    unfold cleanup_connection.
    erewrite bind_Ok; [done|]. apply try_except_Ok.
    rewrite (bind_Ok _ _ _ (self_of w1 self) w1) by done.
    unfold self_of. rewrite Hcs1. fold (self_of w self). rewrite Hconn. done. }
  unfold run. rewrite Hrun. cbn. rewrite Hdb1. split_and!; [done| |done].
  apply filter_twice.
Qed.

(** ** The statements above at concrete inputs *)

Lemma alice_connected_live : live alice_connected 1 "uuid-0".
Proof. split_and!; [reflexivity | compute_done | compute_done]. Defined.

Lemma alice_connected_schema : schema_ok (db alice_connected).
Proof. split; compute_done. Defined.

Lemma alice_subscribed_live : live alice_subscribed 1 "uuid-0".
Proof. split_and!; [reflexivity | compute_done | compute_done]. Defined.

Lemma alice_subscribed_schema : schema_ok (db alice_subscribed).
Proof. split; compute_done. Defined.





Lemma unsubscribe_witness :
  let unsubscribe := handle_unsubscribe 1 (unsubscribe_frame "news" "alice") sample_request_id in
  ∃ t, new_events unsubscribe (run unsubscribe alice_subscribed)
       = [Sent 1 (unsubscribed_ack "news" "alice" sample_request_id t)].
Proof.
  refine (proj2 (proj2 (proj2 (unsubscribe_is_refused_only_without_a_row
            1 (unsubscribe_frame "news" "alice") sample_request_id
            "news" "alice" "uuid-0" alice_subscribed _ _ _ _)
            (mkTopic 1 "news" 3 None 0 1 true (JObj []))
            (mkSubscription 1 "uuid-0" 1 4 true) _ _ _))).
  - reflexivity.
  - reflexivity.
  - exact alice_subscribed_live.
  - exact alice_subscribed_schema.
  - vm_compute. left.
  - reflexivity.
  - vm_compute. reflexivity.
Defined.

(** ** Pre- and postconditions *)

Lemma hoare_bind {A B} P (m : M A) Q (f : A → M B) R E :
  hoare P m Q E → (∀ a, hoare (Q a) (f a) R E) → hoare P (m ≫= f) R E.
Proof.
  intros Hm Hf w HP. specialize (Hm w HP). unfold mbind, M_bind.
  destruct (m w) as [[a|e] w1]; [by apply Hf|done].
Qed.

Lemma hoare_try {A} P (body : M A) (handler : exn → M A) Q E' E :
  hoare P body Q E' → (∀ e, hoare E' (handler e) Q E) →
  hoare P (try_except body handler) Q E.
Proof.
  intros Hb Hh w HP. specialize (Hb w HP). unfold try_except.
  destruct (body w) as [[a|e] w1]; [done|by apply Hh].
Qed.

Lemma hoare_weaken {A} (P P' : World → Prop) (m : M A) (Q Q' : A → World → Prop)
    (E E' : World → Prop) :
  (∀ w, P' w → P w) → (∀ a w, Q a w → Q' a w) → (∀ w, E w → E' w) →
  hoare P m Q E → hoare P' m Q' E'.
Proof.
  intros HP HQ HE Hm w Hw. specialize (Hm w (HP w Hw)).
  destruct (m w) as [[a|e] w1]; auto.
Qed.

Lemma hoare_ret {A} (P : World → Prop) (a : A) E : hoare P (mret a) (λ b w, b = a ∧ P w) E.
Proof. by intros w HP. Qed.

Lemma preserves_run {A} I (m : M A) w : preserves I m → I w → I (run m w).
Proof. intros Hm Hw. specialize (Hm w Hw). unfold run. by destruct (m w) as [[a|e] w1]. Qed.

(** A computation that returns or raises in the state it started from keeps
    whatever held there. *)
Lemma preserves_pure {A} I (m : M A) : (∀ w, (m w).2 = w) → preserves I m.
Proof.
  intros Hm w Hw. specialize (Hm w). destruct (m w) as [[a|e] w1]; cbn in Hm; by subst.
Qed.

Lemma preserves_ret {A} I (a : A) : preserves I (mret a).
Proof. by apply preserves_pure. Qed.

Lemma preserves_raise {A} I (e : exn) : preserves I (raise e : M A).
Proof. by apply preserves_pure. Qed.

Lemma preserves_bind {A B} I (m : M A) (f : A → M B) :
  preserves I m → (∀ a, preserves I (f a)) → preserves I (m ≫= f).
Proof. intros Hm Hf. by apply (hoare_bind _ _ (λ _, I)). Qed.

Lemma preserves_try {A} I (body : M A) (handler : exn → M A) :
  preserves I body → (∀ e, preserves I (handler e)) → preserves I (try_except body handler).
Proof. intros Hb Hh. by apply (hoare_try _ _ _ _ I). Qed.

Lemma preserves_for_each {A} I (l : list A) (body : A → M unit) :
  (∀ x, preserves I (body x)) → preserves I (for_each l body).
Proof.
  intros Hbody. induction l as [|x l IH]; cbn [for_each].
  - apply preserves_ret.
  - apply preserves_bind; [apply Hbody|intros; apply IH].
Qed.

Lemma preserves_get_db I : preserves I get_db.
Proof. by apply preserves_pure. Qed.

Lemma preserves_get_world I : preserves I get_world.
Proof. by apply preserves_pure. Qed.

Lemma preserves_get_self I self : preserves I (get_self self).
Proof. by apply preserves_pure. Qed.

Lemma preserves_gt_zero I v : preserves I (gt_zero v).
Proof. apply preserves_pure. intros w. by destruct v. Qed.

Lemma preserves_slice_stop I v : preserves I (slice_stop v).
Proof.
  apply preserves_pure. intros w. destruct v; try done. cbn. by destruct (z <? 0)%Z.
Qed.

Lemma preserves_payload_of I v : preserves I (payload_of v).
Proof. apply preserves_pure. intros w. by destruct v. Qed.

Lemma preserves_is_valid_uuid I uuid_parses v : preserves I (is_valid_uuid uuid_parses v).
Proof. apply preserves_pure. intros w. by destruct v. Qed.

Lemma preserves_Topic_get I name : preserves I (Topic_get name).
Proof.
  apply preserves_pure. intros w. unfold Topic_get, mbind, M_bind, get_db.
  by destruct (filter _ _) as [|r [|r' l]].
Qed.

Lemma preserves_Subscription_get I conn topic : preserves I (Subscription_get conn topic).
Proof.
  apply preserves_pure. intros w. destruct conn as [c|]; [|done].
  unfold Subscription_get, mbind, M_bind, get_db.
  by destruct (subscriptions_of _ _ _) as [|r [|r' l]].
Qed.

Create HintDb inv.

#[local] Hint Resolve preserves_ret preserves_raise preserves_get_db preserves_get_world
  preserves_get_self preserves_gt_zero preserves_slice_stop preserves_payload_of
  preserves_is_valid_uuid preserves_Topic_get preserves_Subscription_get : inv.

Ltac preserves_step :=
  match goal with
  | |- preserves _ (_ ≫= _) => apply preserves_bind; [|intros]
  | |- preserves _ (try_except _ _) => apply preserves_try; [|intros]
  | |- preserves _ (for_each _ _) => apply preserves_for_each; intros
  | |- preserves _ (match ?x with _ => _ end) => destruct x
  | |- preserves _ _ => solve [auto with inv]
  end.

Ltac preserves_auto := cbv zeta; repeat preserves_step.

(** ** What a frame can change *)

Global Instance grows_preorder : PreOrder grows.
Proof.
  split.
  - intros w. by split.
  - intros w1 w2 w3 [] []. split; by etrans.
Qed.

Lemma grows_preserved {A} (m : M A) :
  (∀ w, grows w (m w).2) → ∀ w0, preserves (grows w0) m.
Proof.
  intros Hm w0 w Hw. specialize (Hm w).
  destruct (m w) as [[a|e] w1]; cbn in Hm; by etrans.
Qed.

Ltac grows_now := split; cbn; try done; try (by apply prefix_app_r); try lia.

Lemma grows_now w0 : preserves (grows w0) now.
Proof. apply grows_preserved. intros w. grows_now. Qed.

Lemma grows_uuid4 w0 : preserves (grows w0) uuid4.
Proof. apply grows_preserved. intros w. grows_now. Qed.

Lemma grows_send w0 h f : preserves (grows w0) (send h f).
Proof. apply grows_preserved. intros w. unfold send. destruct (decide _); grows_now. Qed.

Lemma grows_set_self w0 self f : preserves (grows w0) (set_self self f).
Proof. apply grows_preserved. intros w. grows_now. Qed.

Lemma grows_registry_add w0 topic_name self : preserves (grows w0) (registry_add topic_name self).
Proof. apply grows_preserved. intros w. grows_now. Qed.

Lemma grows_registry_discard w0 topic_name self :
  preserves (grows w0) (registry_discard topic_name self).
Proof.
  apply grows_preserved. intros w. unfold registry_discard, modify. cbn.
  destruct (topic_connections w !! topic_name); [destruct (decide _)|]; grows_now.
Qed.

Lemma grows_registry_drop_failed w0 topic_name h :
  preserves (grows w0) (registry_drop_failed topic_name h).
Proof.
  apply grows_preserved. intros w. unfold registry_drop_failed, mbind, M_bind, get_world.
  destruct (topic_connections w !! topic_name); grows_now.
Qed.

Lemma grows_Topic_create w0 name metadata : preserves (grows w0) (Topic_create name metadata).
Proof.
  apply grows_preserved. intros w. unfold Topic_create, mbind, M_bind, now, get_db. cbn.
  destruct (decide _); grows_now. rewrite fmap_app. by apply prefix_app_r.
Qed.

Lemma grows_Topic_save w0 topic upd :
  (∀ r, topic_key (upd r) = topic_key r) → preserves (grows w0) (Topic_save topic upd).
Proof.
  intros Hupd. apply grows_preserved. intros w. unfold Topic_save, mbind, M_bind, get_db.
  destruct (decide _); grows_now.
  rewrite fmap_update_key; [done|]. intros r _. by destruct (decide _).
Qed.

Lemma grows_update_last_published w0 topic : preserves (grows w0) (update_last_published topic).
Proof.
  unfold update_last_published. apply preserves_bind; [apply grows_now|intros t].
  by apply grows_Topic_save.
Qed.

Lemma grows_increment_message_count w0 topic :
  preserves (grows w0) (increment_message_count topic).
Proof. by apply grows_Topic_save. Qed.

Lemma grows_update_subscriber_count w0 topic n :
  preserves (grows w0) (update_subscriber_count topic n).
Proof. by apply grows_Topic_save. Qed.

Lemma grows_update_activity w0 conn : preserves (grows w0) (update_activity conn).
Proof.
  apply grows_preserved. intros w. destruct conn as [c|]; [|done].
  unfold update_activity, mbind, M_bind, now, get_db. cbn.
  destruct (decide _); grows_now.
  rewrite fmap_update_key; [done|]. intros r _. by destruct (decide _).
Qed.

Lemma grows_Subscription_create w0 conn topic :
  preserves (grows w0) (Subscription_create conn topic).
Proof.
  apply grows_preserved. intros w. unfold Subscription_create, mbind, M_bind, now, get_db. cbn.
  destruct conn as [c|]; [|grows_now].
  destruct (decide _); [destruct (decide _)|]; grows_now.
Qed.

Lemma grows_Subscription_save w0 s : preserves (grows w0) (Subscription_save s).
Proof.
  apply grows_preserved. intros w. unfold Subscription_save, mbind, M_bind, get_db.
  destruct (decide _); grows_now.
Qed.

Lemma grows_Message_create w0 topic conn data metadata :
  preserves (grows w0) (Message_create topic conn data metadata).
Proof.
  apply grows_preserved. intros w. unfold Message_create, mbind, M_bind, uuid4, now, get_db.
  cbn. destruct (_ && _); grows_now.
Qed.

#[local] Hint Resolve grows_now grows_uuid4 grows_send grows_set_self grows_registry_add
  grows_registry_discard grows_registry_drop_failed grows_Topic_create
  grows_update_last_published grows_increment_message_count grows_update_subscriber_count
  grows_update_activity grows_Subscription_create grows_Subscription_save
  grows_Message_create : inv.

Lemma grows_send_error w0 self msg request_id :
  preserves (grows w0) (send_error self msg request_id).
Proof. unfold send_error. preserves_auto. Qed.

#[local] Hint Resolve grows_send_error : inv.

Lemma grows_handle_subscribe w0 self data request_id :
  preserves (grows w0) (handle_subscribe self data request_id).
Proof.
  unfold handle_subscribe, get_or_create_topic, Topic_get_or_create, subscribe_to_topic,
    Subscription_get_or_create, send_last_n_messages_async, get_last_n_messages,
    fetch_recent.
  preserves_auto.
Qed.

Lemma grows_handle_unsubscribe w0 self data request_id :
  preserves (grows w0) (handle_unsubscribe self data request_id).
Proof. unfold handle_unsubscribe, unsubscribe_from_topic. preserves_auto. Qed.

Lemma grows_handle_publish w0 self data request_id :
  preserves (grows w0) (handle_publish self data request_id).
Proof.
  unfold handle_publish, get_topic, publish_message, broadcast_message, fan_out_step.
  preserves_auto.
Qed.

Lemma grows_handle_ping w0 self data request_id :
  preserves (grows w0) (handle_ping self data request_id).
Proof. unfold handle_ping, update_connection_activity. preserves_auto. Qed.

#[local] Hint Resolve grows_handle_subscribe grows_handle_unsubscribe grows_handle_publish
  grows_handle_ping : inv.

(** The part of [receive] inside its [try] *)
Lemma grows_dispatch w0 uuid_parses self text_data :
  preserves (grows w0)
    (match text_data with
     | Undecodable => raise (Exn JSONDecodeError "Expecting value")
     | Decoded data =>
       valid ← (if truthy (req_request_id data)
                then is_valid_uuid uuid_parses (req_request_id data) else mret false);
       if negb valid
       then send_error self "Invalid or missing request_id" JNull
       else
         if decide (req_type data = Some "subscribe")
         then handle_subscribe self data (req_request_id data)
         else if decide (req_type data = Some "unsubscribe")
         then handle_unsubscribe self data (req_request_id data)
         else if decide (req_type data = Some "publish")
         then handle_publish self data (req_request_id data)
         else if decide (req_type data = Some "ping")
         then handle_ping self data (req_request_id data)
         else send_error self ("Unknown message type: " +:+ fmt (req_type data))
                         (req_request_id data)
     end).
Proof. preserves_auto. Qed.

(** X1: whatever the frame and whatever the state, handling a frame closes no
    socket, leaves the identity of every connection row alone, keeps every
    topic row in place with its id, name, creation time, flag and metadata,
    keeps every stored message as it is, and only adds to the trace; topics
    and messages can only be appended. *)
Theorem receive_only_appends uuid_parses self text_data w :
  grows w (run (receive uuid_parses self text_data) w).
Proof.
  apply preserves_run; [|reflexivity].
  unfold receive. apply preserves_try; [apply grows_dispatch|].
  intros e. destruct (decide _); auto with inv.
Qed.

(** X2: a consumer whose own socket is open never lets an exception escape
    from [receive]: every frame, in every state, is handled to the end. *)
Theorem receive_returns_when_socket_open uuid_parses self text_data w :
  self ∉ closed w → (receive uuid_parses self text_data w).1 = Ok tt.
Proof.
  intros Hopen.
  assert (Hh : hoare (grows w) (receive uuid_parses self text_data)
                     (λ _ _, True) (λ _, False)).
  { unfold receive. eapply hoare_try.
    - eapply hoare_weaken; [| | |apply (grows_dispatch w)]; cbn; [done|done|].
      intros w1 Hw1. exact Hw1.
    - intros e w1 Hw1. assert (Hopen1 : self ∉ closed (tick w1)).
      { cbn. by rewrite (grows_closed _ _ Hw1). }
      destruct (decide _); unfold send_error, mbind, M_bind, now; cbn;
        by rewrite send_open. }
  specialize (Hh w (reflexivity _)).
  destruct (receive uuid_parses self text_data w) as [[[]|e] w1]; done.
Qed.

Lemma receive_returns_when_socket_open_witness :
  (receive canonical_uuid 1 Undecodable alice_subscribed).1 = Ok tt.
Proof. apply receive_returns_when_socket_open. vm_compute. set_solver. Defined.

(** ** The state of a running broker: identifiers *)

Global Instance uuid_text_inj : Inj (=) (=) uuid_text.
Proof.
  intros n1 n2 H. unfold uuid_text in H. apply (inj pretty).
  by apply (inj (String.app "uuid-")) in H.
Qed.

Lemma issued_mono w w' id : uuid_counter w ≤ uuid_counter w' → issued w id → issued w' id.
Proof. intros Hle (n & Hn & ->). exists n. split; [lia|done]. Qed.

Lemma issued_next w : issued (bump_uuid w) (uuid_text (uuid_counter w)).
Proof. exists (uuid_counter w). cbn. split; [lia|done]. Qed.

(** The text [uuid4] draws next is none of those it drew before. *)
Lemma fresh_uuid w (l : list string) :
  Forall (issued w) l → uuid_text (uuid_counter w) ∉ l.
Proof.
  intros Hall Hin. rewrite Forall_forall in Hall.
  destruct (Hall _ Hin) as (n & Hn & Heq). apply (inj uuid_text) in Heq. lia.
Qed.

(** ** The state of a running broker: the tables *)

Lemma tracked_mono w w' :
  (∀ topic_name, default ∅ (topic_connections w' !! topic_name)
                 ⊆ default ∅ (topic_connections w !! topic_name)) →
  (∀ h, subscribed_topics (self_of w h) ⊆ subscribed_topics (self_of w' h)) →
  tracked w → tracked w'.
Proof. intros Hreg Hloc Htr h topic_name Hin. apply Hloc, Htr, Hreg, Hin. Qed.

Lemma sound_intro w w' :
  sound w →
  schema_ok (db w') → refs_ok (db w') → counted (db w') → tracked w' →
  messages (db w') = messages (db w) →
  c_id <$> connections (db w') ⊆ c_id <$> connections (db w) →
  clock w ≤ clock w' → uuid_counter w ≤ uuid_counter w' →
  sound w'.
Proof.
  intros Hw Hschema Hrefs Hcount Htr Hmsg Hconn Hclock Huuid.
  split; try done.
  - rewrite Hmsg. eapply Forall_impl; [apply (sound_stamped _ Hw)|]. cbn. intros. lia.
  - apply Forall_forall. intros id Hid. apply (issued_mono w); [done|].
    pose proof (sound_connection_ids _ Hw) as Hall. rewrite Forall_forall in Hall.
    by apply Hall, Hconn.
  - rewrite Hmsg. eapply Forall_impl; [apply (sound_message_ids _ Hw)|].
    intros id. by apply issued_mono.
  - rewrite Hmsg. apply (sound_message_keys _ Hw).
Qed.

(** Nothing but the trace, the clocks and data outside the tables moved. *)
Lemma sound_frame w w' :
  db w' = db w → tracked w' → clock w ≤ clock w' → uuid_counter w ≤ uuid_counter w' →
  sound w → sound w'.
Proof.
  intros Hdb Htr Hclock Huuid Hw.
  apply (sound_intro w); rewrite ?Hdb; try done; apply Hw.
Qed.

(** A property of rows that depends on their keys only moves with the keys. *)
Lemma Forall_same_keys {A K} (key : A → K) (P : A → Prop) (Q : K → Prop) (l l' : list A) :
  key <$> l' = key <$> l → (∀ x, P x ↔ Q (key x)) → Forall P l → Forall P l'.
Proof.
  intros Hkeys HPQ Hall. rewrite Forall_forall in *. intros x Hx.
  assert (Hk : key x ∈ key <$> l) by (rewrite <- Hkeys; by apply list_elem_of_fmap_2).
  apply list_elem_of_fmap in Hk as (y & Hy & Hin).
  apply HPQ. rewrite Hy. apply HPQ. by apply Hall.
Qed.

(** The rows of the store moved, but no key, no reference and no message
    count did. *)
Lemma tables_same_keys d d' :
  (λ r, (t_id r, t_name r, t_message_count r)) <$> topics d'
    = (λ r, (t_id r, t_name r, t_message_count r)) <$> topics d →
  c_id <$> connections d' = c_id <$> connections d →
  (λ s, (s_id s, s_connection s, s_topic s)) <$> subscriptions d'
    = (λ s, (s_id s, s_connection s, s_topic s)) <$> subscriptions d →
  messages d' = messages d →
  next_topic_id d' = next_topic_id d → next_subscription_id d' = next_subscription_id d →
  schema_ok d ∧ refs_ok d ∧ counted d → schema_ok d' ∧ refs_ok d' ∧ counted d'.
Proof.
  intros Ht Hc Hs Hm Hnt Hns (Hschema & Hrefs & Hcount).
  assert (Htid : t_id <$> topics d' = t_id <$> topics d).
  { apply (f_equal (fmap (λ k, k.1.1))) in Ht. by rewrite <- !list_fmap_compose in Ht. }
  assert (Htname : t_name <$> topics d' = t_name <$> topics d).
  { apply (f_equal (fmap (λ k, k.1.2))) in Ht. by rewrite <- !list_fmap_compose in Ht. }
  assert (Hsid : s_id <$> subscriptions d' = s_id <$> subscriptions d).
  { apply (f_equal (fmap (λ k, k.1.1))) in Hs. by rewrite <- !list_fmap_compose in Hs. }
  assert (Hpair : (λ s, (s_connection s, s_topic s)) <$> subscriptions d'
                  = (λ s, (s_connection s, s_topic s)) <$> subscriptions d).
  { apply (f_equal (fmap (λ k, (k.1.2, k.2)))) in Hs. by rewrite <- !list_fmap_compose in Hs. }
  destruct Hschema as [H1 H2 H3 H4 H5 H6 H7]. destruct Hrefs as [R1 R2].
  split_and!.
  - split.
    + by rewrite Htname.
    + by rewrite Htid.
    + rewrite Hnt.
      by apply (Forall_same_keys t_id _ (λ i, i < next_topic_id d) _ _ Htid).
    + by rewrite Hc.
    + by rewrite Hsid.
    + rewrite Hns.
      by apply (Forall_same_keys s_id _ (λ i, i < next_subscription_id d) _ _ Hsid).
    + by rewrite Hpair.
  - split.
    + rewrite Hc, Htid.
      by apply (Forall_same_keys _ _
                  (λ k, k.1 ∈ c_id <$> connections d ∧ k.2 ∈ t_id <$> topics d) _ _ Hpair).
    + by rewrite Hm, Hc, Htid.
  - unfold counted, message_count in *. rewrite Hm.
    by apply (Forall_same_keys _ _
                (λ k, k.2 = length (filter (λ m, m_topic m = k.1.1) (messages d))) _ _ Ht).
Qed.

(** ** The state of a running broker: one call at a time *)

Lemma sound_now : preserves sound now.
Proof. intros w Hw. cbn. apply (sound_frame w); cbn; try done; [apply Hw|lia]. Qed.

Lemma sound_uuid4 : preserves sound uuid4.
Proof. intros w Hw. cbn. apply (sound_frame w); cbn; try done; [apply Hw|lia]. Qed.

Lemma sound_send h f : preserves sound (send h f).
Proof.
  intros w Hw. unfold send.
  destruct (decide _); cbn; apply (sound_frame w); cbn; try done; apply Hw.
Qed.

Lemma self_of_set_self self f w h :
  self_of (run (set_self self f) w) h = if decide (h = self) then f (self_of w self)
                                        else self_of w h.
Proof.
  unfold self_of, run, set_self, modify. cbn. destruct (decide (h = self)) as [->|Hne].
  - by rewrite lookup_insert_eq.
  - by rewrite lookup_insert_ne.
Qed.

Lemma sound_set_self self f :
  (∀ c, subscribed_topics c ⊆ subscribed_topics (f c)) → preserves sound (set_self self f).
Proof.
  intros Hf w Hw. change (sound (run (set_self self f) w)).
  apply (sound_frame w); try done.
  apply (tracked_mono w); [done| |apply Hw].
  intros h. rewrite self_of_set_self. destruct (decide _) as [->|]; [apply Hf|done].
Qed.

Lemma sound_set_client_id self client :
  preserves sound (set_self self (λ c, mkConsumer (connection_id c) (Some client)
                                                  (subscribed_topics c) (connection c))).
Proof. by apply sound_set_self. Qed.

Lemma sound_set_connection_id self id :
  preserves sound (set_self self (λ c, mkConsumer (Some id) (client_id c)
                                                  (subscribed_topics c) (connection c))).
Proof. by apply sound_set_self. Qed.

Lemma sound_set_connection self conn :
  preserves sound (set_self self (λ c, mkConsumer (connection_id c) (client_id c)
                                                  (subscribed_topics c) conn)).
Proof. by apply sound_set_self. Qed.

(** What [registry_discard] leaves in the set of each topic *)
Lemma registry_discard_lookup topic_name self w other :
  default ∅ (topic_connections (run (registry_discard topic_name self) w) !! other)
  = if decide (other = topic_name)
    then default ∅ (topic_connections w !! topic_name) ∖ {[self]}
    else default ∅ (topic_connections w !! other).
Proof.
  unfold run, registry_discard, modify. cbn.
  destruct (topic_connections w !! topic_name) as [s|] eqn:Hs.
  - destruct (decide (s ∖ {[self]} = ∅)) as [Hempty|Hne]; cbn;
      destruct (decide (other = topic_name)) as [->|Hother].
    + by rewrite lookup_delete_eq, Hempty.
    + by rewrite lookup_delete_ne.
    + by rewrite lookup_insert_eq.
    + by rewrite lookup_insert_ne.
  - destruct (decide (other = topic_name)) as [->|Hother]; [|done].
    rewrite Hs. cbn. set_solver.
Qed.

Lemma registry_discard_frame topic_name self w :
  let w' := run (registry_discard topic_name self) w in
  db w' = db w ∧ consumers w' = consumers w ∧ clock w' = clock w ∧
  uuid_counter w' = uuid_counter w ∧ closed w' = closed w ∧ trace w' = trace w.
Proof.
  unfold run, registry_discard, modify. cbn.
  destruct (topic_connections w !! topic_name); [destruct (decide _)|]; done.
Qed.

Lemma sound_registry_discard topic_name self :
  preserves sound (registry_discard topic_name self).
Proof.
  intros w Hw. change (sound (run (registry_discard topic_name self) w)).
  destruct (registry_discard_frame topic_name self w) as (Hdb & Hcs & Hclock & Huuid & _).
  apply (sound_frame w); try done; try lia.
  apply (tracked_mono w); [| |apply Hw].
  - intros other. rewrite registry_discard_lookup. destruct (decide _) as [->|]; set_solver.
  - intros h. unfold self_of. by rewrite Hcs.
Qed.

Lemma sound_registry_drop_failed topic_name h :
  preserves sound (registry_drop_failed topic_name h).
Proof.
  intros w Hw. unfold registry_drop_failed, mbind, M_bind, get_world.
  destruct (topic_connections w !! topic_name) as [s|] eqn:Hs; [|done]. cbn.
  apply (sound_frame w); try done.
  apply (tracked_mono w); [|done|apply Hw].
  intros other. cbn. destruct (decide (other = topic_name)) as [->|Hother].
  - rewrite lookup_insert_eq, Hs. cbn. set_solver.
  - by rewrite lookup_insert_ne.
Qed.

Lemma sound_Topic_save topic upd :
  (∀ r, t_id (upd r) = t_id r ∧ t_name (upd r) = t_name r
        ∧ t_message_count (upd r) = t_message_count r) →
  preserves sound (Topic_save topic upd).
Proof.
  intros Hupd w Hw. unfold Topic_save, mbind, M_bind, get_db.
  destruct (decide _); [|done]. cbn.
  destruct (tables_same_keys (db w)
              (with_topics (map (λ r, if decide (t_id r = t_id topic) then upd r else r))
                           (db w))) as (S1 & S2 & S3); try done.
  - cbn. apply fmap_update_key. intros r _. destruct (decide _); [|done].
    destruct (Hupd r) as (-> & -> & ->). done.
  - split_and!; apply Hw.
  - apply (sound_intro w); try done. apply Hw.
Qed.

Lemma sound_update_subscriber_count topic n :
  preserves sound (update_subscriber_count topic n).
Proof. by apply sound_Topic_save. Qed.

Lemma sound_update_last_published topic : preserves sound (update_last_published topic).
Proof.
  unfold update_last_published. apply preserves_bind; [apply sound_now|intros t].
  by apply sound_Topic_save.
Qed.

Lemma sound_update_activity conn : preserves sound (update_activity conn).
Proof.
  intros w Hw. destruct conn as [c|]; [|done].
  unfold update_activity, mbind, M_bind, now, get_db. cbn.
  assert (Hw1 : sound (tick w)) by apply (sound_now w Hw).
  destruct (decide _); [|done]. cbn.
  destruct (tables_same_keys (db w) (db_touch c (clock w) (db w))) as (S1 & S2 & S3);
    try done.
  - apply db_touch_ids.
  - split_and!; apply Hw.
  - apply (sound_intro (tick w)); try done; [apply Hw|].
    change (c_id <$> connections (db_touch c (clock w) (db w))
            ⊆ c_id <$> connections (db w)).
    by rewrite db_touch_ids.
Qed.

Lemma sound_Subscription_create conn topic : preserves sound (Subscription_create conn topic).
Proof.
  intros w Hw. unfold Subscription_create, mbind, M_bind, now, get_db. cbn.
  assert (Hw1 : sound (tick w)) by apply (sound_now w Hw).
  destruct conn as [c|]; [|done].
  destruct (decide _) as [[Hc Ht]|]; [|done].
  destruct (decide _) as [Hnone|]; [|done]. cbn.
  apply (sound_intro (tick w)); try done.
  - apply (schema_ok_db_add_subscription c (t_id topic) (clock w) (db w)); [apply Hw|done].
  - split; cbn.
    + apply Forall_app. split; [apply Hw|]. by apply Forall_singleton.
    + apply Hw.
  - apply Hw.
  - apply Hw.
Qed.

Lemma hoare_Subscription_get conn topic :
  hoare sound (Subscription_get conn topic)
        (λ s w, sound w ∧ s ∈ subscriptions (db w)) sound.
Proof.
  intros w Hw. destruct conn as [c|]; [|done].
  unfold Subscription_get, mbind, M_bind, get_db.
  destruct (subscriptions_of c (t_id topic) (db w)) as [|r [|r' l]] eqn:Hr; try done.
  split; [done|]. apply (subscription_row_member _ _ _ _ Hr).
Qed.

Lemma hoare_Subscription_save s0 b :
  hoare (λ w, sound w ∧ s0 ∈ subscriptions (db w))
        (Subscription_save (set_is_active b s0)) (λ _, sound) sound.
Proof.
  intros w [Hw Hin]. unfold Subscription_save, mbind, M_bind, get_db.
  destruct (decide _) as [|Hno]; cbn.
  - destruct (tables_same_keys (db w) (db_save_subscription (set_is_active b s0) (db w)))
      as (S1 & S2 & S3); try done.
    + apply db_save_subscription_key; [apply Hw|done|done].
    + split_and!; apply Hw.
    + apply (sound_intro w); try done. apply Hw.
  - destruct Hno. by apply (list_elem_of_fmap_2 s_id) in Hin.
Qed.

Lemma hoare_Subscription_get_or_create conn topic :
  hoare sound (Subscription_get_or_create conn topic)
        (λ r w, sound w ∧ (r.2 = false → r.1 ∈ subscriptions (db w))) sound.
Proof.
  unfold Subscription_get_or_create. apply (hoare_try _ _ _ _ sound).
  - apply (hoare_bind _ _ (λ s w, sound w ∧ s ∈ subscriptions (db w)));
      [apply hoare_Subscription_get|].
    by intros s w [Hw Hin].
  - intros e. destruct (decide _); [|by intros w Hw].
    apply (hoare_bind _ _ (λ _, sound)); [apply sound_Subscription_create|].
    by intros s w Hw.
Qed.

Lemma schema_ok_add_topic r d :
  schema_ok d → t_id r = next_topic_id d → t_name r ∉ t_name <$> topics d →
  schema_ok (db_add_topic r d).
Proof.
  intros [H1 H2 H3 H4 H5 H6 H7] Hid Hfresh.
  split; cbn [topics connections subscriptions db_add_topic
              next_topic_id next_subscription_id]; try done.
  - rewrite fmap_app. cbn. apply NoDup_app. split_and!; [done| |apply NoDup_singleton].
    by intros k Hk ->%list_elem_of_singleton.
  - rewrite fmap_app. cbn. apply NoDup_app. split_and!; [done| |apply NoDup_singleton].
    intros i Hi ->%list_elem_of_singleton.
    apply list_elem_of_fmap in Hi as (r' & Hr & Hin).
    rewrite Forall_forall in H3. specialize (H3 r' Hin). lia.
  - apply Forall_app. split.
    + eapply Forall_impl; [exact H3|]. cbn. intros; lia.
    + apply Forall_singleton. lia.
Qed.

Lemma filter_none_in {A} (P : A → Prop) `{∀ x, Decision (P x)} (l : list A) :
  (∀ x, x ∈ l → ¬ P x) → filter P l = [].
Proof.
  induction l as [|x l IH]; [done|]. intros Hno.
  rewrite filter_cons_False by (apply Hno; left).
  apply IH. intros y Hy. apply Hno. by right.
Qed.

(** No message belongs to a topic that is yet to be created. *)
Lemma message_count_next d :
  schema_ok d → refs_ok d → message_count (next_topic_id d) d = 0.
Proof.
  intros Hschema Hrefs. unfold message_count. rewrite filter_none_in; [done|].
  intros m Hm Heq.
  pose proof (topic_ids_bounded _ Hschema) as Hb. rewrite Forall_forall in Hb.
  pose proof (message_refs _ Hrefs) as Hr. rewrite Forall_forall in Hr.
  destruct (Hr m Hm) as [Hin _].
  apply list_elem_of_fmap in Hin as (r & Hid & Hrin). specialize (Hb r Hrin). lia.
Qed.

Lemma sound_Topic_create name metadata : preserves sound (Topic_create name metadata).
Proof.
  intros w Hw. unfold Topic_create, mbind, M_bind, now, get_db. cbn.
  assert (Hw1 : sound (tick w)) by apply (sound_now w Hw).
  destruct (decide _) as [|Hfresh]; [done|]. cbn.
  set (r := mkTopic (next_topic_id (db w)) name (clock w) None 0 0 true metadata).
  apply (sound_intro (tick w)); try done.
  - apply (schema_ok_add_topic r (db w)); [apply Hw|done|done].
  - split; cbn; rewrite fmap_app.
    + eapply Forall_impl; [apply (subscription_refs _ (sound_refs _ Hw))|].
      intros s [Hc Ht]. split; [done|]. apply elem_of_app. by left.
    + eapply Forall_impl; [apply (message_refs _ (sound_refs _ Hw))|].
      intros m [Ht Hc]. split; [|done]. apply elem_of_app. by left.
  - unfold counted. cbn. apply Forall_app. split; [apply Hw|].
    apply Forall_singleton. cbn. symmetry.
    apply (message_count_next (db w)); apply Hw.
  - apply Hw.
Qed.

Lemma sound_Topic_insert name metadata : preserves sound (Topic_insert name metadata).
Proof. destruct metadata; try apply sound_Topic_create. apply preserves_raise. Qed.

Lemma sound_Connection_create id :
  hoare (λ w, sound w ∧ issued w id) (Connection_create id)
        (λ r w, sound w ∧ c_id r = id ∧ id ∈ c_id <$> connections (db w)) sound.
Proof.
  intros w [Hw Hid]. unfold Connection_create, mbind, M_bind, now, get_db. cbn.
  assert (Hw2 : sound (tick (tick w))).
  { apply (sound_now (tick w)), (sound_now w), Hw. }
  destruct (decide _) as [|Hfresh]; [done|]. cbn.
  split_and!; [|done|rewrite fmap_app; apply elem_of_app; right; by left].
  destruct (sound_schema _ Hw) as [H1 H2 H3 H4 H5 H6 H7].
  split; cbn; try apply Hw.
  - split; cbn; try done.
    rewrite fmap_app. apply NoDup_app. split_and!; [done| |apply NoDup_singleton].
    by intros k Hk ->%list_elem_of_singleton.
  - split; cbn; [|rewrite fmap_app].
    + rewrite fmap_app. eapply Forall_impl; [apply (subscription_refs _ (sound_refs _ Hw))|].
      intros s [Hc Ht]. split; [|done]. apply elem_of_app. by left.
    + eapply Forall_impl; [apply (message_refs _ (sound_refs _ Hw))|].
      intros m [Ht Hc]. split; [done|]. intros c Hm. apply elem_of_app. left. by apply Hc.
  - eapply Forall_impl; [apply (sound_stamped _ Hw)|]. cbn. intros. lia.
  - rewrite fmap_app. apply Forall_app. split; [apply Hw|]. by apply Forall_singleton.
Qed.

(** ** The state of a running broker: storing a message *)

Ltac simpl_db :=
  cbn [db set_db tick bump_uuid log_event with_topics with_messages with_connections
       with_subscriptions topics connections subscriptions messages next_topic_id
       next_subscription_id topic_connections consumers clock uuid_counter closed trace].

Tactic Notation "simpl_db" "in" hyp(H) :=
  cbn [db set_db tick bump_uuid log_event with_topics with_messages with_connections
       with_subscriptions topics connections subscriptions messages next_topic_id
       next_subscription_id topic_connections consumers clock uuid_counter closed trace]
    in H.

Lemma Message_create_cases topic conn data metadata w :
  let m := mkMessage (uuid_text (uuid_counter w)) (t_id topic) conn data (clock w) 0 3
                     metadata in
  (Message_create topic conn data metadata w
     = (Ok m, set_db (with_messages (λ l, l ++ [m]) (db w)) (tick (bump_uuid w)))
   ∧ t_id topic ∈ t_id <$> topics (db w)
   ∧ (∀ c, conn = Some c → c ∈ c_id <$> connections (db w)))
  ∨ (∃ e, Message_create topic conn data metadata w = (Raise e, tick (bump_uuid w))).
Proof.
  intros m. unfold Message_create, mbind, M_bind, uuid4, now, get_db. cbn.
  destruct (bool_decide (t_id topic ∈ t_id <$> topics (db w))) eqn:Ht; cbn; [|right; eauto].
  apply bool_decide_eq_true in Ht.
  destruct conn as [c|]; [destruct (bool_decide (c ∈ c_id <$> connections (db w))) eqn:Hc|];
    cbn; [left|right; eauto|left]; split_and!; try done.
  apply bool_decide_eq_true in Hc. by intros c' [= <-].
Qed.

(** The tables once a message is stored and the counter of its topic is one
    more than in the row the publisher looked up *)
Lemma sound_message_counted topic conn data metadata w :
  sound w → topic ∈ topics (db w) →
  (∀ c, conn = Some c → c ∈ c_id <$> connections (db w)) →
  let m := mkMessage (uuid_text (uuid_counter w)) (t_id topic) conn data (clock w) 0 3
                     metadata in
  let w1 := set_db (with_messages (λ l, l ++ [m]) (db w)) (tick (bump_uuid w)) in
  sound (set_db (with_topics
                   (map (λ r, if decide (t_id r = t_id topic)
                              then set_message_count (t_message_count topic + 1) r else r))
                   (db w1)) w1).
Proof.
  intros Hw Hin Hconn m w1.
  set (g := λ r, if decide (t_id r = t_id topic)
                 then set_message_count (t_message_count topic + 1) r else r).
  destruct (sound_schema _ Hw) as [H1 H2 H3 H4 H5 H6 H7].
  assert (Hids : t_id <$> map g (topics (db w)) = t_id <$> topics (db w)).
  { apply fmap_update_key. intros r _. unfold g. by destruct (decide _). }
  assert (Hnames : t_name <$> map g (topics (db w)) = t_name <$> topics (db w)).
  { apply fmap_update_key. intros r _. unfold g. by destruct (decide _). }
  split; subst w1; simpl_db.
  - split; simpl_db; rewrite ?Hids, ?Hnames; try done.
    by apply (Forall_same_keys t_id _ (λ i, i < next_topic_id (db w)) _ _ Hids).
  - split; simpl_db; rewrite Hids.
    + apply Hw.
    + apply Forall_app. split; [apply Hw|]. apply Forall_singleton. split; [|done].
      by apply (list_elem_of_fmap_2 t_id) in Hin.
  - unfold counted, message_count. simpl_db. apply Forall_forall. intros r' Hr'.
    apply list_elem_of_fmap in Hr' as (r & -> & Hr).
    pose proof (sound_counted _ Hw) as Hc. unfold counted in Hc. rewrite Forall_forall in Hc.
    rewrite filter_app, length_app. unfold g. destruct (decide (t_id r = t_id topic)) as [He|Hne].
    + rewrite filter_cons_True by (cbn; done). cbn. rewrite (Hc topic Hin).
      unfold message_count. by rewrite He.
    + rewrite filter_cons_False by (cbn; congruence). cbn.
      rewrite (Hc r Hr). unfold message_count. lia.
  - apply Hw.
  - apply Forall_app. split.
    + eapply Forall_impl; [apply (sound_stamped _ Hw)|]. cbn. intros. lia.
    + apply Forall_singleton. cbn. lia.
  - eapply Forall_impl; [apply (sound_connection_ids _ Hw)|].
    intros id. apply issued_mono. cbn. lia.
  - rewrite fmap_app. apply Forall_app. split.
    + eapply Forall_impl; [apply (sound_message_ids _ Hw)|].
      intros id. apply issued_mono. cbn. lia.
    + apply Forall_singleton. apply issued_next.
  - rewrite fmap_app. apply NoDup_app. split_and!; [apply Hw| |apply NoDup_singleton].
    intros id Hid ->%list_elem_of_singleton.
    by apply (fresh_uuid w _ (sound_message_ids _ Hw)).
Qed.

Lemma hoare_store_message {A} topic conn data metadata (rest : MessageRow → M A) :
  (∀ m, preserves sound (rest m)) →
  hoare (λ w, sound w ∧ topic ∈ topics (db w))
        (message ← Message_create topic conn data metadata;
         increment_message_count topic;;
         rest message)
        (λ _, sound) sound.
Proof.
  intros Hrest w [Hw Hin].
  destruct (Message_create_cases topic conn data metadata w) as [(Hrun & Ht & Hc)|[e Hrun]].
  - rewrite (bind_Ok _ _ _ _ _ Hrun).
    set (m := mkMessage _ _ _ _ _ _ _ _) in *.
    set (w1 := set_db _ (tick (bump_uuid w))) in *.
    set (w2 := set_db (with_topics
                         (map (λ r, if decide (t_id r = t_id topic)
                                    then set_message_count (t_message_count topic + 1) r
                                    else r)) (db w1)) w1).
    assert (Hinc : increment_message_count topic w1 = (Ok tt, w2)).
    { unfold increment_message_count, Topic_save, mbind, M_bind, get_db. cbn.
      by rewrite decide_True. }
    rewrite (bind_Ok _ _ _ _ _ Hinc).
    apply (Hrest m w2). by apply sound_message_counted.
  - rewrite (bind_Raise _ _ _ _ _ Hrun).
    apply (sound_uuid4 w) in Hw. cbn in Hw. by apply (sound_now _) in Hw.
Qed.

Lemma hoare_publish_message self topic message_data client :
  hoare (λ w, sound w ∧ topic ∈ topics (db w))
        (publish_message self topic message_data client) (λ _, sound) sound.
Proof.
  unfold publish_message. apply (hoare_try _ _ _ _ sound); [|intros e; apply preserves_ret].
  apply (hoare_bind _ _ (λ _ w, sound w ∧ topic ∈ topics (db w))); [by intros w Hw|].
  intros me. apply hoare_store_message. intros m.
  apply preserves_bind; [apply sound_update_last_published|intros _].
  apply preserves_bind; [apply sound_update_activity|intros _]. apply preserves_ret.
Qed.

(** ** The state of a running broker: the handlers *)

#[local] Hint Resolve sound_now sound_uuid4 sound_send sound_set_client_id
  sound_set_connection_id sound_set_connection sound_registry_discard
  sound_registry_drop_failed sound_update_subscriber_count sound_update_last_published
  sound_update_activity sound_Subscription_create sound_Topic_create sound_Topic_insert : inv.

Ltac as_preserves :=
  match goal with |- hoare ?P ?m _ _ => change (preserves P m) end.

Lemma sound_send_error self msg request_id : preserves sound (send_error self msg request_id).
Proof. unfold send_error. preserves_auto. Qed.

Lemma sound_get_or_create_topic topic_name : preserves sound (get_or_create_topic topic_name).
Proof. unfold get_or_create_topic, Topic_get_or_create. preserves_auto. Qed.

#[local] Hint Resolve sound_send_error sound_get_or_create_topic : inv.

Lemma hoare_get_topic topic_name :
  hoare sound (get_topic topic_name)
        (λ r w, sound w ∧ ∀ t, r = Some t → t ∈ topics (db w)) sound.
Proof.
  intros w Hw. unfold get_topic, Topic_get, try_except, mbind, M_bind, get_db.
  destruct (filter (λ r, t_name r = topic_name) (topics (db w))) as [|r [|r' l]] eqn:Hf;
    cbn; try done.
  split; [done|]. intros t [= <-].
  assert (Hr : r ∈ filter (λ r, t_name r = topic_name) (topics (db w))) by (rewrite Hf; left).
  by apply list_elem_of_filter in Hr as [_ Hr].
Qed.

Lemma sound_subscribe_to_topic self topic client :
  preserves sound (subscribe_to_topic self topic client).
Proof.
  unfold subscribe_to_topic. apply preserves_try; [|intros; apply preserves_ret].
  apply preserves_bind; [apply preserves_get_self|intros me].
  apply (hoare_bind _ _ (λ r w, sound w ∧ (r.2 = false → r.1 ∈ subscriptions (db w))));
    [apply hoare_Subscription_get_or_create|].
  intros [s created]. apply (hoare_bind _ _ (λ _, sound)).
  - destruct created; [by intros w [Hw _]|].
    eapply hoare_weaken; [| | |apply hoare_Subscription_save]; cbn; [|done|done].
    intros w [Hw Hin]. split; [done|by apply Hin].
  - intros _. as_preserves. preserves_auto.
Qed.

Lemma sound_unsubscribe_from_topic self topic_name client :
  preserves sound (unsubscribe_from_topic self topic_name client).
Proof.
  unfold unsubscribe_from_topic. apply preserves_try; [|intros; apply preserves_ret].
  apply preserves_bind; [apply preserves_Topic_get|intros topic].
  apply preserves_bind; [apply preserves_get_self|intros me].
  apply (hoare_bind _ _ (λ s w, sound w ∧ s ∈ subscriptions (db w)));
    [apply hoare_Subscription_get|].
  intros s. apply (hoare_bind _ _ (λ _, sound)); [apply hoare_Subscription_save|].
  intros _. as_preserves. preserves_auto.
Qed.

(** The topic goes into the consumer's own set and the consumer into the set
    of the topic, one right after the other. *)
Lemma sound_track self topic_name {A} (rest : M A) :
  preserves sound rest →
  preserves sound
    (set_self self (λ c, mkConsumer (connection_id c) (client_id c)
                                    (subscribed_topics c ∪ {[topic_name]}) (connection c));;
     registry_add topic_name self;;
     rest).
Proof.
  intros Hrest w Hw.
  set (f := λ c, mkConsumer (connection_id c) (client_id c)
                            (subscribed_topics c ∪ {[topic_name]}) (connection c)).
  set (w2 := run (registry_add topic_name self) (run (set_self self f) w)).
  change (match rest w2 with (Ok _, w') => sound w' | (Raise _, w') => sound w' end).
  apply Hrest. apply (sound_frame w); try done.
  intros h other Hin.
  assert (Hloc : subscribed_topics (self_of w2 h)
                 = if decide (h = self) then subscribed_topics (self_of w self) ∪ {[topic_name]}
                   else subscribed_topics (self_of w h)).
  { change (self_of w2 h) with (self_of (run (set_self self f) w) h).
    rewrite self_of_set_self. by destruct (decide _). }
  rewrite Hloc. subst w2. cbn in Hin.
  pose proof (sound_tracked _ Hw) as Htr.
  destruct (decide (other = topic_name)) as [->|Hother].
  - rewrite lookup_insert_eq in Hin. cbn in Hin.
    apply elem_of_union in Hin as [Hin|Hself].
    + apply Htr in Hin. destruct (decide _) as [->|]; set_solver.
    + apply elem_of_singleton in Hself as ->. rewrite decide_True by done. set_solver.
  - rewrite lookup_insert_ne in Hin by done. apply Htr in Hin.
    destruct (decide _) as [->|]; set_solver.
Qed.

(** The topic leaves the consumer's own set and the consumer the set of the
    topic, one right after the other. *)
Lemma sound_untrack self topic_name {A} (rest : M A) :
  preserves sound rest →
  preserves sound
    (set_self self (λ c, mkConsumer (connection_id c) (client_id c)
                                    (subscribed_topics c ∖ {[topic_name]}) (connection c));;
     registry_discard topic_name self;;
     rest).
Proof.
  intros Hrest w Hw.
  set (f := λ c, mkConsumer (connection_id c) (client_id c)
                            (subscribed_topics c ∖ {[topic_name]}) (connection c)).
  set (w1 := run (set_self self f) w).
  set (w2 := run (registry_discard topic_name self) w1).
  change (match rest w2 with (Ok _, w') => sound w' | (Raise _, w') => sound w' end).
  apply Hrest.
  destruct (registry_discard_frame topic_name self w1) as (Hdb & Hcs & Hclock & Huuid & _).
  fold w2 in Hdb, Hcs, Hclock, Huuid.
  apply (sound_frame w); rewrite ?Hdb, ?Hclock, ?Huuid; try done.
  intros h other Hin.
  assert (Hloc : subscribed_topics (self_of w2 h)
                 = if decide (h = self) then subscribed_topics (self_of w self) ∖ {[topic_name]}
                   else subscribed_topics (self_of w h)).
  { unfold self_of at 1. rewrite Hcs. fold (self_of w1 h). subst w1.
    rewrite self_of_set_self. by destruct (decide _). }
  rewrite Hloc. subst w2. rewrite registry_discard_lookup in Hin.
  pose proof (sound_tracked _ Hw) as Htr.
  destruct (decide (other = topic_name)) as [->|Hother].
  - apply elem_of_difference in Hin as [Hin Hself]. apply Htr in Hin.
    rewrite decide_False by set_solver. done.
  - apply Htr in Hin. destruct (decide _) as [->|]; set_solver.
Qed.

Lemma sound_handle_subscribe self data request_id :
  preserves sound (handle_subscribe self data request_id).
Proof.
  unfold handle_subscribe. apply preserves_try; [|intros; apply sound_send_error]. cbv zeta.
  destruct (nonempty (req_topic data)) as [topic_name|]; [|apply sound_send_error].
  destruct (nonempty (req_client_id data)) as [client|]; [|apply sound_send_error].
  apply preserves_bind; [apply sound_set_client_id|intros _].
  apply preserves_bind; [apply sound_get_or_create_topic|intros [topic|]];
    [|apply sound_send_error].
  apply preserves_bind; [apply sound_subscribe_to_topic|intros []]; [|apply sound_send_error].
  apply sound_track. unfold send_last_n_messages_async, get_last_n_messages, fetch_recent.
  preserves_auto.
Qed.

Lemma sound_handle_unsubscribe self data request_id :
  preserves sound (handle_unsubscribe self data request_id).
Proof.
  unfold handle_unsubscribe. apply preserves_try; [|intros; apply sound_send_error].
  destruct (nonempty (req_topic data)) as [topic_name|]; [|apply sound_send_error].
  destruct (nonempty (req_client_id data)) as [client|]; [|apply sound_send_error].
  apply preserves_bind; [apply sound_unsubscribe_from_topic|intros []];
    [|apply sound_send_error].
  apply sound_untrack. preserves_auto.
Qed.

Lemma sound_handle_publish self data request_id :
  preserves sound (handle_publish self data request_id).
Proof.
  unfold handle_publish. apply preserves_try; [|intros; apply sound_send_error]. cbv zeta.
  destruct (nonempty (req_topic data)) as [topic_name|]; [|apply sound_send_error].
  destruct (negb _); [apply sound_send_error|].
  destruct (nonempty (req_client_id data)) as [client|]; [|apply sound_send_error].
  apply (hoare_bind _ _ (λ r w, sound w ∧ ∀ t, r = Some t → t ∈ topics (db w)));
    [apply hoare_get_topic|].
  intros [topic|].
  - apply (hoare_bind _ _ (λ _, sound)).
    + eapply hoare_weaken; [| | |apply (hoare_publish_message self topic)]; cbn; [|done|done].
      intros w [Hw Hin]. split; [done|by apply Hin].
    + intros message_id. as_preserves. unfold broadcast_message, fan_out_step.
      preserves_auto.
  - intros w [Hw _]. by apply sound_send_error.
Qed.

Lemma sound_handle_ping self data request_id :
  preserves sound (handle_ping self data request_id).
Proof. unfold handle_ping, update_connection_activity. preserves_auto. Qed.

#[local] Hint Resolve sound_handle_subscribe sound_handle_unsubscribe sound_handle_publish
  sound_handle_ping : inv.

Lemma sound_receive uuid_parses self text_data :
  preserves sound (receive uuid_parses self text_data).
Proof. unfold receive. preserves_auto. Qed.

(** ** The state of a running broker: deleting rows *)

Lemma NoDup_fmap_filter {A K} (key : A → K) (P : A → Prop) `{∀ x, Decision (P x)}
    (l : list A) :
  NoDup (key <$> l) → NoDup (key <$> filter P l).
Proof. intros Hl. eapply sublist_NoDup; [exact Hl|]. apply fmap_sublist, sublist_filter. Qed.

Lemma Forall_filter_keep {A} (Q P : A → Prop) `{∀ x, Decision (P x)} (l : list A) :
  Forall Q l → Forall Q (filter P l).
Proof. rewrite !Forall_forall. intros Hl x [_ Hx]%list_elem_of_filter. by apply Hl. Qed.

Lemma elem_of_fmap_filter {A K} (key : A → K) (P : A → Prop) `{∀ x, Decision (P x)}
    (l : list A) (k : K) :
  k ∈ key <$> l → (∀ x, key x = k → P x) → k ∈ key <$> filter P l.
Proof.
  intros (x & -> & Hx)%list_elem_of_fmap HP.
  apply list_elem_of_fmap_2, list_elem_of_filter. split; [by apply HP|done].
Qed.

Lemma filter_filter_implied {A} (P Q : A → Prop) `{∀ x, Decision (P x)}
    `{∀ x, Decision (Q x)} (l : list A) :
  (∀ x, P x → Q x) → filter P (filter Q l) = filter P l.
Proof.
  intros HPQ. induction l as [|x l IH]; [done|].
  destruct (decide (Q x)) as [HQ|HQ].
  - rewrite (filter_cons_True Q) by done. destruct (decide (P x)) as [HP|HP].
    + rewrite !(filter_cons_True P) by done. by rewrite IH.
    + rewrite !(filter_cons_False P) by done. done.
  - rewrite (filter_cons_False Q) by done.
    rewrite (filter_cons_False P) by (intros HP; by apply HQ, HPQ). done.
Qed.

Lemma sound_subscriptions_filtered (P : SubscriptionRow → Prop) `{∀ s, Decision (P s)} w :
  sound w → sound (set_db (with_subscriptions (filter P) (db w)) w).
Proof.
  intros Hw. destruct (sound_schema _ Hw) as [H1 H2 H3 H4 H5 H6 H7].
  apply (sound_intro w); simpl_db; try done; try apply Hw.
  - split; simpl_db; try done.
    + by apply NoDup_fmap_filter.
    + by apply Forall_filter_keep.
    + by apply NoDup_fmap_filter.
  - split; simpl_db; [|apply Hw].
    apply Forall_filter_keep, Hw.
Qed.

Lemma sound_connection_deleted c w :
  sound w → sound (set_db (db_connection_deleted c (db w)) w).
Proof.
  intros Hw. destruct (sound_schema _ Hw) as [H1 H2 H3 H4 H5 H6 H7].
  destruct (sound_refs _ Hw) as [R1 R2].
  set (g := λ m, if decide (m_publisher_connection m = Some c)
                 then set_publisher None m else m).
  assert (Hkeep : ∀ c', c' ∈ c_id <$> connections (db w) → c' ≠ c →
                        c' ∈ c_id <$> filter (λ r, c_id r ≠ c) (connections (db w))).
  { intros c' Hin Hne. apply elem_of_fmap_filter; [done|]. by intros x ->. }
  assert (Hcount : ∀ tid, length (filter (λ m, m_topic m = tid) (map g (messages (db w))))
                          = length (filter (λ m, m_topic m = tid) (messages (db w)))).
  { intros tid. rewrite filter_map_stable, length_map; [done|].
    intros m _. unfold g. by destruct (decide _). }
  split; unfold db_connection_deleted; simpl_db; fold g.
  - split; simpl_db; try done.
    + by apply NoDup_fmap_filter.
    + by apply NoDup_fmap_filter.
    + by apply Forall_filter_keep.
    + by apply NoDup_fmap_filter.
  - split; simpl_db; fold g.
    + apply Forall_forall. intros s [Hne Hs]%list_elem_of_filter.
      rewrite Forall_forall in R1. destruct (R1 s Hs) as [Hc Ht]. split; [|done].
      by apply Hkeep.
    + apply Forall_forall. intros m' Hm'.
      apply list_elem_of_fmap in Hm' as (m & -> & Hm).
      rewrite Forall_forall in R2. destruct (R2 m Hm) as [Ht Hc].
      unfold g. destruct (decide _) as [Hp|Hp]; cbn; split; try done.
      intros c' Hc'. apply Hkeep; [by apply Hc|]. congruence.
  - unfold counted, message_count. simpl_db. fold g.
    eapply Forall_impl; [apply (sound_counted _ Hw)|].
    intros r Hr. cbn in Hr. rewrite Hr. unfold message_count. by rewrite Hcount.
  - apply Hw.
  - apply Forall_forall. intros m' Hm'.
    apply list_elem_of_fmap in Hm' as (m & -> & Hm).
    pose proof (sound_stamped _ Hw) as Hs. rewrite Forall_forall in Hs. specialize (Hs m Hm).
    unfold g. by destruct (decide _).
  - pose proof (sound_connection_ids _ Hw) as Hi. rewrite Forall_forall in *.
    intros id (r & -> & [_ Hr]%list_elem_of_filter)%list_elem_of_fmap.
    by apply Hi, list_elem_of_fmap_2.
  - rewrite fmap_update_key; [apply Hw|]. intros m _. unfold g. by destruct (decide _).
  - rewrite fmap_update_key; [apply Hw|]. intros m _. unfold g. by destruct (decide _).
Qed.

Lemma sound_topic_deleted tid w :
  sound w → sound (set_db (db_topic_deleted tid (db w)) w).
Proof.
  intros Hw. destruct (sound_schema _ Hw) as [H1 H2 H3 H4 H5 H6 H7].
  destruct (sound_refs _ Hw) as [R1 R2].
  assert (Hkeep : ∀ i, i ∈ t_id <$> topics (db w) → i ≠ tid →
                       i ∈ t_id <$> filter (λ r, t_id r ≠ tid) (topics (db w))).
  { intros i Hin Hne. apply elem_of_fmap_filter; [done|]. by intros x ->. }
  split; unfold db_topic_deleted; simpl_db.
  - split; simpl_db; try done.
    + by apply NoDup_fmap_filter.
    + by apply NoDup_fmap_filter.
    + by apply Forall_filter_keep.
    + by apply NoDup_fmap_filter.
    + by apply Forall_filter_keep.
    + by apply NoDup_fmap_filter.
  - split; simpl_db.
    + apply Forall_forall. intros s [Hne Hs]%list_elem_of_filter.
      rewrite Forall_forall in R1. destruct (R1 s Hs) as [Hc Ht]. split; [done|].
      by apply Hkeep.
    + apply Forall_forall. intros m [Hne Hm]%list_elem_of_filter.
      rewrite Forall_forall in R2. destruct (R2 m Hm) as [Ht Hc]. split; [|done].
      by apply Hkeep.
  - unfold counted, message_count. simpl_db.
    apply Forall_forall. intros r [Hne Hr]%list_elem_of_filter.
    pose proof (sound_counted _ Hw) as Hc. unfold counted in Hc. rewrite Forall_forall in Hc.
    rewrite (Hc r Hr). unfold message_count.
    rewrite filter_filter_implied; [done|]. cbn. intros m ->. done.
  - apply Hw.
  - apply Forall_filter_keep, Hw.
  - apply Hw.
  - pose proof (sound_message_ids _ Hw) as Hi. rewrite Forall_forall in *.
    intros id (m & -> & [_ Hm]%list_elem_of_filter)%list_elem_of_fmap.
    by apply Hi, list_elem_of_fmap_2.
  - apply NoDup_fmap_filter, Hw.
Qed.

(** ** Sending the deletion notice *)

Global Instance only_sends_preorder : PreOrder only_sends.
Proof.
  split.
  - intros w. by split.
  - intros w1 w2 w3 [? ? Hr1 ? ? ? ?] [? ? Hr2 ? ? ? ?].
    split; [congruence|congruence| |congruence|lia|congruence|by etrans].
    intros topic_name. etrans; [apply Hr2|apply Hr1].
Qed.

Lemma only_sends_preserved {A} (m : M A) :
  (∀ w, only_sends w (m w).2) → ∀ w0, preserves (only_sends w0) m.
Proof.
  intros Hm w0 w Hw. specialize (Hm w).
  destruct (m w) as [[a|e] w1]; cbn in Hm; by etrans.
Qed.

Lemma only_sends_now w0 : preserves (only_sends w0) now.
Proof. apply only_sends_preserved. intros w. split; cbn; try done. lia. Qed.

Lemma only_sends_send w0 h f : preserves (only_sends w0) (send h f).
Proof.
  apply only_sends_preserved. intros w. unfold send.
  destruct (decide _); split; cbn; try done; by apply prefix_app_r.
Qed.

Lemma only_sends_forget w0 topic_name :
  preserves (only_sends w0)
    (modify (λ w, set_topic_connections (delete topic_name (topic_connections w)) w)).
Proof.
  apply only_sends_preserved. intros w. split; cbn; try done.
  intros other. destruct (decide (other = topic_name)) as [->|Hne].
  - rewrite lookup_delete_eq. set_solver.
  - by rewrite lookup_delete_ne.
Qed.

#[local] Hint Resolve only_sends_now only_sends_send only_sends_forget : inv.

Lemma only_sends_notify_loop w0 notice (pending : list nat) : ∀ connections,
  preserves (only_sends w0) (notify_loop pending connections notice).
Proof.
  induction pending as [|conn rest IH]; intros connections; cbn [notify_loop].
  - apply preserves_ret.
  - preserves_auto.
Qed.

#[local] Hint Resolve only_sends_notify_loop : inv.

(** [notify_topic_deleted] swallows whatever is raised inside it, and does
    nothing but send and drop entries of the routing table. *)
Lemma only_sends_notify_topic_deleted w0 topic_name :
  hoare (only_sends w0) (notify_topic_deleted topic_name) (λ _, only_sends w0) (λ _, False).
Proof.
  unfold notify_topic_deleted. apply (hoare_try _ _ _ _ (only_sends w0)).
  - as_preserves. preserves_auto.
  - intros e w Hw. done.
Qed.

Lemma sound_only_sends w w' : only_sends w w' → sound w → sound w'.
Proof.
  intros [Hdb Hcs Hreg Hcl Hclock Huuid Htrace] Hw.
  apply (sound_frame w); try done; [|lia].
  apply (tracked_mono w); [done| |apply Hw]. intros h. unfold self_of. by rewrite Hcs.
Qed.

(** ** Deleting a topic, whatever happens to the notice *)

Lemma delete_topic_run topic w :
  NoDup (t_name <$> topics (db w)) → topic ∈ topics (db w) →
  ∃ w', delete_topic (t_name topic) w
        = (Ok (Response 200 (JsonBody (JObj [("status", JStr "deleted");
                                             ("topic", JStr (t_name topic))]))), w')
        ∧ only_sends (set_db (db_topic_deleted (t_id topic) (db w)) w) w'.
Proof.
  intros Hnames Hin.
  set (w3 := set_db (db_topic_deleted (t_id topic) (db w)) w).
  pose proof (only_sends_notify_topic_deleted w3 (t_name topic) w3 (reflexivity _)) as Hn.
  destruct (notify_topic_deleted (t_name topic) w3) as [[[]|e] w4] eqn:Hnotify; [|done].
  exists w4. split; [|done].
  unfold delete_topic. apply try_except_Ok.
  assert (Hfind : find_topic (t_name topic) w = (Ok (Some topic), w)).
  { unfold find_topic. apply try_except_Ok.
    by rewrite (bind_Ok _ _ _ _ _ (Topic_get_found w topic Hnames Hin)). }
  rewrite (bind_Ok _ _ _ _ _ Hfind). cbn iota.
  unfold mbind at 1, M_bind at 1, get_db at 1. cbn beta iota.
  unfold mbind at 1, M_bind at 1, put_db at 1, modify at 1. cbn beta iota.
  unfold mbind at 1, M_bind at 1, get_db at 1. cbn beta iota.
  unfold mbind at 1, M_bind at 1, put_db at 1, modify at 1. cbn beta iota.
  unfold mbind at 1, M_bind at 1, get_db at 1. cbn beta iota.
  unfold mbind at 1, M_bind at 1, put_db at 1, modify at 1. cbn beta iota.
  change (set_db _ (set_db _ (set_db _ w))) with w3.
  rewrite (bind_Ok _ _ _ tt w4); [done|].
  by apply try_except_Ok.
Qed.

(** ** Connecting *)

Lemma connect_run self w :
  sound w →
  let id := uuid_text (uuid_counter w) in
  ∃ w5,
    connect self w = send self (connected_envelope id (S (S (clock w)))) w5 ∧
    sound w5 ∧
    db w5 = with_connections (λ l, l ++ [mkConnection id (clock w) (S (clock w)) true]) (db w) ∧
    self_of w5 self = mkConsumer (Some id) (client_id (self_of w self))
                                 (subscribed_topics (self_of w self)) (Some id) ∧
    (∀ h, h ≠ self → self_of w5 h = self_of w h) ∧
    topic_connections w5 = topic_connections w ∧ trace w5 = trace w ∧
    closed w5 = closed w.
Proof.
  intros Hw id.
  set (f1 := λ c, mkConsumer (Some id) (client_id c) (subscribed_topics c) (connection c)).
  set (f2 := λ c, mkConsumer (connection_id c) (client_id c) (subscribed_topics c) (Some id)).
  set (w1 := bump_uuid w).
  set (w2 := run (set_self self f1) w1).
  set (r := mkConnection id (clock w) (S (clock w)) true).
  set (w3 := set_db (with_connections (λ l, l ++ [r]) (db w)) (tick (tick w2))).
  set (w4 := run (set_self self f2) w3).
  assert (Hw1 : sound w1) by apply (sound_uuid4 w Hw).
  assert (Hw2 : sound w2) by apply (preserves_run _ _ _ (sound_set_connection_id self id) Hw1).
  assert (Hissued : issued w2 id) by apply issued_next.
  assert (Hfresh : id ∉ c_id <$> connections (db w)).
  { apply fresh_uuid, Hw. }
  assert (Hcreate : Connection_create id w2 = (Ok r, w3)).
  { unfold Connection_create, mbind, M_bind, now, get_db. cbn.
    by rewrite decide_False. }
  assert (Hw3 : sound w3).
  { pose proof (sound_Connection_create id w2 (conj Hw2 Hissued)) as H.
    rewrite Hcreate in H. apply H. }
  assert (Hw4 : sound w4) by apply (preserves_run _ _ _ (sound_set_connection self _) Hw3).
  assert (Hme2 : self_of w2 self = f1 (self_of w self)).
  { subst w2. rewrite self_of_set_self. by rewrite decide_True. }
  assert (Hrecord : create_connection_record self w2 = (Ok true, w4)).
  { unfold create_connection_record. apply try_except_Ok.
    rewrite (bind_Ok _ _ _ (self_of w2 self) w2) by done. rewrite Hme2.
    cbn [connection_id f1].
    rewrite (bind_Ok _ _ _ id w2) by done.
    rewrite (bind_Ok _ _ _ _ _ Hcreate).
    rewrite (bind_Ok _ _ _ tt w4) by done. done. }
  exists (tick w4). split_and!.
  - unfold connect. rewrite (bind_Ok _ _ _ id w1) by done.
    rewrite (bind_Ok _ _ _ tt w2) by done.
    rewrite (bind_Ok _ _ _ _ _ Hrecord).
    rewrite (bind_Ok _ _ _ (S (S (clock w))) (tick w4)) by done. done.
  - apply (sound_now w4 Hw4).
  - done.
  - change (self_of (tick w4) self) with (self_of w4 self). subst w4.
    rewrite self_of_set_self, decide_True by done.
    change (self_of w3 self) with (self_of w2 self). by rewrite Hme2.
  - intros h Hne. change (self_of (tick w4) h) with (self_of w4 h). subst w4.
    rewrite self_of_set_self, decide_False by done.
    change (self_of w3 h) with (self_of w2 h). subst w2.
    by rewrite self_of_set_self, decide_False by done.
  - done.
  - done.
  - done.
Qed.

(** ** Disconnecting: the routing table *)

Lemma for_each_registry_discard_lookup self (l : list string) : ∀ w other,
  default ∅ (topic_connections
               (run (for_each l (λ topic_name, registry_discard topic_name self)) w) !! other)
  = if decide (other ∈ l)
    then default ∅ (topic_connections w !! other) ∖ {[self]}
    else default ∅ (topic_connections w !! other).
Proof.
  induction l as [|topic_name l IH]; intros w other.
  - cbn. rewrite decide_False; [done|]. apply not_elem_of_nil.
  - change (run (for_each (topic_name :: l) (λ t, registry_discard t self)) w)
      with (run (for_each l (λ t, registry_discard t self))
                (run (registry_discard topic_name self) w)).
    rewrite IH, !registry_discard_lookup.
    destruct (decide (other = topic_name)) as [->|Hne].
    + rewrite (decide_True (P := topic_name ∈ topic_name :: l)) by left.
      destruct (decide _); set_solver.
    + destruct (decide (other ∈ l)) as [Hin|Hout].
      * rewrite decide_True by (by right). done.
      * rewrite decide_False; [done|]. by intros [?|?]%elem_of_cons.
Qed.

(** ** Disconnecting: the tables *)

Lemma db_connection_deleted_twice c d :
  db_connection_deleted c (with_subscriptions (filter (λ s, s_connection s ≠ c)) d)
  = db_connection_deleted c d.
Proof. unfold db_connection_deleted, with_messages. cbn. by rewrite filter_twice. Qed.

Lemma sound_cleanup_connection self : preserves sound (cleanup_connection self).
Proof.
  unfold cleanup_connection. apply preserves_try; [|intros; apply preserves_ret].
  apply preserves_bind; [apply preserves_get_self|intros me].
  destruct (connection me) as [c|]; [|apply preserves_ret].
  intros w Hw. cbn.
  apply (sound_subscriptions_filtered (λ s, s_connection s ≠ c)) in Hw.
  by apply (sound_connection_deleted c) in Hw.
Qed.

Lemma sound_disconnect self : preserves sound (disconnect self).
Proof.
  unfold disconnect. apply preserves_bind; [apply preserves_get_self|intros me].
  destruct (nonempty _); [|apply preserves_ret].
  apply preserves_bind; [apply preserves_for_each; intros; apply sound_registry_discard|].
  intros _. apply preserves_bind; [apply sound_cleanup_connection|].
  intros _. apply preserves_ret.
Qed.

Lemma disconnect_run self c w :
  is_Some (nonempty (connection_id (self_of w self))) →
  connection (self_of w self) = Some c →
  disconnect self w =
  (Ok tt, set_db (db_connection_deleted c (db w))
            (run (for_each (elements (subscribed_topics (self_of w self)))
                           (λ topic_name, registry_discard topic_name self)) w)).
Proof.
  intros [cid Hcid] Hconn.
  destruct (for_each_registry_discard_run self
              (elements (subscribed_topics (self_of w self))) w)
    as (w1 & Hloop & Hdb1 & Hcs1).
  unfold run. rewrite Hloop. cbn [snd].
  rewrite <- db_connection_deleted_twice, <- Hdb1.
  unfold disconnect. rewrite (bind_Ok _ _ _ (self_of w self) w) by done.
  rewrite Hcid. rewrite (bind_Ok _ _ _ _ _ Hloop).
  unfold cleanup_connection.
  erewrite bind_Ok; [done|]. apply try_except_Ok.
  rewrite (bind_Ok _ _ _ (self_of w1 self) w1) by done.
  unfold self_of. rewrite Hcs1. fold (self_of w self). rewrite Hconn. done.
Qed.

Lemma for_each_registry_discard_frame self (l : list string) : ∀ w,
  let w' := run (for_each l (λ topic_name, registry_discard topic_name self)) w in
  db w' = db w ∧ consumers w' = consumers w ∧ closed w' = closed w ∧ trace w' = trace w.
Proof.
  induction l as [|topic_name l IH]; intros w; [done|]. cbv zeta.
  change (run (for_each (topic_name :: l) (λ t, registry_discard t self)) w)
    with (run (for_each l (λ t, registry_discard t self))
              (run (registry_discard topic_name self) w)).
  destruct (IH (run (registry_discard topic_name self) w)) as (H1 & H2 & H3 & H4).
  destruct (registry_discard_frame topic_name self w) as (G1 & G2 & _ & _ & G3 & G4).
  cbv zeta in H1, H2, H3, H4, G1, G2, G3, G4.
  by rewrite H1, H2, H3, H4, G1, G2, G3, G4.
Qed.

(** ** Creating a topic *)

Lemma preserves_stripped_name I strip data : preserves I (stripped_name strip data).
Proof.
  apply preserves_pure. intros w. destruct data; try done. cbn.
  by destruct (default _ _).
Qed.

Lemma preserves_metadata_of I data : preserves I (metadata_of data).
Proof. apply preserves_pure. intros w. by destruct data. Qed.

#[local] Hint Resolve preserves_stripped_name preserves_metadata_of : inv.

Lemma sound_create_topic strip request : preserves sound (create_topic strip request).
Proof. unfold create_topic. preserves_auto. Qed.

(** ** The scenarios are states of a running broker *)

Lemma sound_connect self : preserves sound (connect self).
Proof.
  intros w Hw. destruct (connect_run self w Hw) as (w5 & Hrun & Hw5 & _).
  rewrite Hrun. by apply sound_send.
Qed.

Lemma sound_close_socket h w : sound w → sound (close_socket h w).
Proof. intros Hw. apply (sound_frame w); try done. apply Hw. Qed.

Lemma empty_world_sound : sound empty_world.
Proof.
  split.
  - split; cbn; by constructor.
  - split; cbn; by constructor.
  - by constructor.
  - intros h topic_name Hin. cbn in Hin. rewrite lookup_empty in Hin. set_solver.
  - by constructor.
  - by constructor.
  - by constructor.
  - cbn. by constructor.
Qed.

Lemma alice_connected_sound : sound alice_connected.
Proof.
  unfold alice_connected. apply preserves_run; [apply sound_connect|apply empty_world_sound].
Qed.

Lemma alice_subscribed_sound : sound alice_subscribed.
Proof.
  unfold alice_subscribed.
  apply preserves_run; [apply sound_handle_subscribe|apply alice_connected_sound].
Qed.

Lemma alice_published_sound : sound alice_published.
Proof.
  unfold alice_published.
  apply preserves_run; [apply sound_handle_publish|apply alice_subscribed_sound].
Qed.

Lemma two_on_goner_sound : sound two_on_goner.
Proof.
  unfold two_on_goner.
  apply preserves_run; [apply sound_handle_subscribe|].
  apply preserves_run; [apply sound_connect|].
  apply preserves_run; [apply sound_handle_subscribe|apply alice_connected_sound].
Qed.

(** ** What every operation keeps true *)

(** X3: handling a frame, whatever it is, keeps the broker sound: the keys
    and the unique constraints of the tables hold, every foreign key points
    at a row, the stored [message_count] of every topic is the number of its
    stored messages, a handle in the set of a topic has the topic in its own
    [subscribed_topics], and message ids are distinct. *)
Theorem receive_keeps_the_broker_sound uuid_parses self text_data w :
  sound w → sound (run (receive uuid_parses self text_data) w).
Proof. intros Hw. by apply preserves_run; [apply sound_receive|]. Qed.

Lemma receive_keeps_the_broker_sound_witness :
  sound (run (receive canonical_uuid 1
                (Decoded (publish_frame "news" "alice" (JObj [("payload", JInt 7)]))))
             alice_subscribed).
Proof. apply receive_keeps_the_broker_sound. exact alice_subscribed_sound. Defined.

(** X4: a consumer that connects while its socket is open gets an id that no
    connection row has yet, a row with that id is appended to the connection
    table, the consumer points at it, the only frame sent is the [connected]
    envelope carrying the id, and the broker stays sound. *)
Theorem connect_registers_a_live_connection self w :
  sound w → self ∉ closed w →
  let id := uuid_text (uuid_counter w) in
  let w' := run (connect self) w in
  (connect self w).1 = Ok tt ∧
  new_events (connect self) w = [Sent self (connected_envelope id (S (S (clock w))))] ∧
  (id ∉ c_id <$> connections (db w)) ∧
  connections (db w') = connections (db w) ++ [mkConnection id (clock w) (S (clock w)) true] ∧
  live w' self id ∧ connection_id (self_of w' self) = Some id ∧
  subscribed_topics (self_of w' self) = subscribed_topics (self_of w self) ∧
  sound w'.
Proof.
  intros Hw Hopen id w'.
  destruct (connect_run self w Hw) as (w5 & Hrun & Hw5 & Hdb & Hme & Hothers & Hreg & Htr & Hcl).
  fold id in Hrun, Hdb, Hme.
  assert (Hsend : connect self w
                  = (Ok tt, log_event (Sent self (connected_envelope id (S (S (clock w))))) w5)).
  { rewrite Hrun. apply send_open. by rewrite Hcl. }
  subst w'. unfold run. rewrite Hsend. cbn [fst snd]. split_and!.
  - done.
  - apply new_events_app. unfold run. rewrite Hsend. cbn. by rewrite Htr.
  - apply fresh_uuid, Hw.
  - change (connections (db w5) = connections (db w)
                                  ++ [mkConnection id (clock w) (S (clock w)) true]).
    by rewrite Hdb.
  - split_and!.
    + change (connection (self_of w5 self) = Some id). by rewrite Hme.
    + change (id ∈ c_id <$> connections (db w5)). rewrite Hdb.
      cbn [connections with_connections]. rewrite fmap_app. apply elem_of_app. right. by left.
    + change (self ∉ closed w5). by rewrite Hcl.
  - change (connection_id (self_of w5 self) = Some id). by rewrite Hme.
  - change (subscribed_topics (self_of w5 self) = subscribed_topics (self_of w self)).
    by rewrite Hme.
  - pose proof (sound_send self (connected_envelope id (S (S (clock w)))) w5 Hw5) as H.
    rewrite send_open in H by (by rewrite Hcl). done.
Qed.

Lemma connect_registers_a_live_connection_witness :
  live (run (connect 2) alice_subscribed) 2 "uuid-1".
Proof.
  apply (connect_registers_a_live_connection 2 alice_subscribed).
  - exact alice_subscribed_sound.
  - vm_compute. set_solver.
Defined.

(** X5: when a connected consumer disconnects, its handle is left in the set
    of no topic at all while the other handles stay where they were; the
    subscription rows of its connection and the connection row are deleted;
    the messages it published are kept, without a publisher; nothing is sent,
    and the broker stays sound. *)
Theorem disconnect_forgets_the_connection self c w :
  sound w →
  is_Some (nonempty (connection_id (self_of w self))) →
  connection (self_of w self) = Some c →
  let w' := run (disconnect self) w in
  (disconnect self w).1 = Ok tt ∧
  (∀ topic_name, self ∉ default ∅ (topic_connections w' !! topic_name)) ∧
  (∀ topic_name h, h ≠ self →
     h ∈ default ∅ (topic_connections w' !! topic_name)
     ↔ h ∈ default ∅ (topic_connections w !! topic_name)) ∧
  db w' = db_connection_deleted c (db w) ∧
  Forall (λ s, s_connection s ≠ c) (subscriptions (db w')) ∧
  (c ∉ c_id <$> connections (db w')) ∧
  (λ m, (m_id m, m_topic m, m_data m, m_published_at m)) <$> messages (db w')
    = (λ m, (m_id m, m_topic m, m_data m, m_published_at m)) <$> messages (db w) ∧
  Forall (λ m, m_publisher_connection m ≠ Some c) (messages (db w')) ∧
  trace w' = trace w ∧
  sound w'.
Proof.
  intros Hw Hcid Hconn w'.
  pose proof (disconnect_run self c w Hcid Hconn) as Hrun.
  set (l := elements (subscribed_topics (self_of w self))) in *.
  set (w1 := run (for_each l (λ topic_name, registry_discard topic_name self)) w) in *.
  assert (Hreg : ∀ topic_name,
             default ∅ (topic_connections w' !! topic_name)
             = if decide (topic_name ∈ l)
               then default ∅ (topic_connections w !! topic_name) ∖ {[self]}
               else default ∅ (topic_connections w !! topic_name)).
  { intros topic_name. subst w'. unfold run. rewrite Hrun.
    change (topic_connections (_, set_db _ w1).2) with (topic_connections w1).
    apply for_each_registry_discard_lookup. }
  assert (Hdb : db w' = db_connection_deleted c (db w)).
  { subst w'. unfold run. by rewrite Hrun. }
  split_and!.
  - by rewrite Hrun.
  - intros topic_name. rewrite Hreg. destruct (decide _) as [Hin|Hout]; [set_solver|].
    intros Hself. apply (sound_tracked _ Hw) in Hself.
    apply Hout, elem_of_elements, Hself.
  - intros topic_name h Hne. rewrite Hreg. destruct (decide _); set_solver.
  - done.
  - rewrite Hdb. apply Forall_forall. by intros s [Hs _]%list_elem_of_filter.
  - rewrite Hdb. intros (r & Hr & [Hne _]%list_elem_of_filter)%list_elem_of_fmap. done.
  - rewrite Hdb. unfold db_connection_deleted. simpl_db.
    apply fmap_update_key. intros m _. by destruct (decide _).
  - rewrite Hdb. apply Forall_forall. intros m' (m & -> & Hm)%list_elem_of_fmap.
    destruct (decide _) as [|Hp]; [done|exact Hp].
  - subst w'. unfold run. rewrite Hrun.
    change (trace (_, set_db _ w1).2) with (trace w1).
    exact (proj2 (proj2 (proj2 (for_each_registry_discard_frame self l w)))).
  - by apply preserves_run; [apply sound_disconnect|].
Qed.

Lemma disconnect_forgets_the_connection_witness :
  1 ∉ default ∅ (topic_connections (run (disconnect 1) alice_subscribed) !! "news").
Proof.
  apply (disconnect_forgets_the_connection 1 "uuid-0" alice_subscribed).
  - exact alice_subscribed_sound.
  - vm_compute. eauto.
  - reflexivity.
Defined.

(** X6: [disconnect] deletes the subscription rows of the connection but
    never recounts: a topic on which the connection had an active row keeps
    the [subscriber_count] it had, which is now one more than the number of
    active rows of the topic. *)
Theorem disconnect_leaves_subscriber_count_behind self c topic s w :
  is_Some (nonempty (connection_id (self_of w self))) →
  connection (self_of w self) = Some c →
  topic ∈ topics (db w) →
  subscriptions_of c (t_id topic) (db w) = [s] → s_is_active s = true →
  t_subscriber_count topic = active_count (t_id topic) (db w) →
  let w' := run (disconnect self) w in
  topic ∈ topics (db w') ∧
  t_subscriber_count topic = S (active_count (t_id topic) (db w')).
Proof.
  intros Hcid Hconn Hin Hrow Hactive Hsync w'.
  assert (Hdb : db w' = db_connection_deleted c (db w)).
  { subst w'. unfold run. by rewrite (disconnect_run self c w Hcid Hconn). }
  rewrite Hdb. split; [done|]. rewrite Hsync. unfold active_count.
  unfold db_connection_deleted. simpl_db.
  set (P := λ s, s_topic s = t_id topic ∧ s_is_active s = true).
  set (Q := λ s, s_connection s ≠ c).
  pose proof (filter_app_complement Q (filter P (subscriptions (db w)))) as Hsplit.
  apply Permutation_length in Hsplit. rewrite length_app in Hsplit.
  rewrite <- Hsplit, (filter_swap P Q).
  assert (Hone : filter (λ x, ¬ Q x) (filter P (subscriptions (db w))) = [s]).
  { transitivity (filter (λ s, s_is_active s = true)
                         (subscriptions_of c (t_id topic) (db w))).
    - unfold subscriptions_of. rewrite !list_filter_filter. apply list_filter_iff.
      intros x. unfold P, Q. split.
      + intros [Hc [Ht Ha]]. split_and!; try done. by destruct (decide (s_connection x = c)).
      + intros [Ha [Hc Ht]]. split_and!; try done. intros Hne. by apply Hne.
    - rewrite Hrow. by rewrite filter_cons_True. }
  rewrite Hone. cbn. lia.
Qed.

Lemma disconnect_leaves_subscriber_count_behind_witness :
  let topic := mkTopic 1 "news" 3 None 0 1 true (JObj []) in
  t_subscriber_count topic = 1 ∧
  active_count 1 (db (run (disconnect 1) alice_subscribed)) = 0.
Proof.
  destruct (disconnect_leaves_subscriber_count_behind 1 "uuid-0"
              (mkTopic 1 "news" 3 None 0 1 true (JObj []))
              (mkSubscription 1 "uuid-0" 1 4 true) alice_subscribed) as [_ H].
  - vm_compute. eauto.
  - reflexivity.
  - vm_compute. left.
  - reflexivity.
  - reflexivity.
  - reflexivity.
  - cbn in H. split; [reflexivity|]. cbn. lia.
Defined.

(** X7: deleting a topic that exists answers 200 and removes the topic with
    its subscription rows and its messages, whichever sockets are closed and
    whatever becomes of the notice; the rows of the other topics, the
    connections and the consumers are left as they were, and the broker
    stays sound. *)
Theorem delete_topic_removes_the_topic_and_its_rows topic w :
  sound w → topic ∈ topics (db w) →
  let w' := run (delete_topic (t_name topic)) w in
  (delete_topic (t_name topic) w).1 =
    Ok (Response 200 (JsonBody (JObj [("status", JStr "deleted");
                                      ("topic", JStr (t_name topic))]))) ∧
  db w' = db_topic_deleted (t_id topic) (db w) ∧
  (t_name topic ∉ t_name <$> topics (db w')) ∧
  subscription_count (t_id topic) (db w') = 0 ∧
  message_count (t_id topic) (db w') = 0 ∧
  (∀ tid, tid ≠ t_id topic →
     subscription_count tid (db w') = subscription_count tid (db w) ∧
     message_count tid (db w') = message_count tid (db w)) ∧
  connections (db w') = connections (db w) ∧
  consumers w' = consumers w ∧
  sound w'.
Proof.
  intros Hw Hin w'.
  pose proof (topic_names_unique _ (sound_schema _ Hw)) as Hnames.
  destruct (delete_topic_run topic w Hnames Hin) as (w4 & Hrun & Hsends).
  assert (Hdb : db w' = db_topic_deleted (t_id topic) (db w)).
  { subst w'. unfold run. rewrite Hrun. apply (only_sends_db _ _ Hsends). }
  split_and!.
  - by rewrite Hrun.
  - done.
  - rewrite Hdb. intros (r & Hname & [Hne Hr]%list_elem_of_filter)%list_elem_of_fmap.
    apply Hne. f_equal. symmetry in Hname.
    by apply (key_unique_inj t_name (topics (db w)) topic r).
  - rewrite Hdb. unfold subscription_count, db_topic_deleted. simpl_db.
    rewrite filter_none_in; [done|]. by intros s [Hne _]%list_elem_of_filter.
  - rewrite Hdb. unfold message_count, db_topic_deleted. simpl_db.
    rewrite filter_none_in; [done|]. by intros m [Hne _]%list_elem_of_filter.
  - intros tid Htid. rewrite Hdb.
    unfold subscription_count, message_count, db_topic_deleted. simpl_db.
    rewrite !filter_filter_implied; [done| |]; cbn; by intros ? ->.
  - by rewrite Hdb.
  - subst w'. unfold run. rewrite Hrun. apply (only_sends_consumers _ _ Hsends).
  - subst w'. unfold run. rewrite Hrun.
    apply (sound_only_sends _ _ Hsends). by apply sound_topic_deleted.
Qed.

Lemma delete_topic_removes_the_topic_and_its_rows_witness :
  db (run (delete_topic "goner") (close_socket 2 two_on_goner))
  = db_topic_deleted 1 (db (close_socket 2 two_on_goner)).
Proof.
  apply (delete_topic_removes_the_topic_and_its_rows
           (mkTopic 1 "goner" 3 None 0 2 true (JObj [])) (close_socket 2 two_on_goner)).
  - apply sound_close_socket, two_on_goner_sound.
  - vm_compute. left.
Defined.

(** ** Creating a topic over HTTP *)

Lemma create_topic_created strip members s metadata w :
  default (JStr "") (obj_get "name" members) = JStr s →
  strip s ≠ "" → strip s ∉ t_name <$> topics (db w) →
  default (JObj []) (obj_get "metadata" members) = metadata → metadata ≠ JNull →
  create_topic strip (mkHttpRequest "POST" (Document (JObj members))) w =
  (Ok (Response 201 (JsonBody (JObj [("status", JStr "created");
                                     ("topic", JStr (strip s))]))),
   set_db (db_add_topic (mkTopic (next_topic_id (db w)) (strip s) (clock w) None 0 0 true
                                 metadata) (db w))
          (tick w)).
Proof.
  intros Hname Hne Hfresh Hmeta Hnull. unfold create_topic.
  rewrite decide_False by (intros H; by apply H).
  unfold stripped_name, metadata_of, try_except, mbind, M_bind. cbn.
  rewrite Hname, Hmeta. cbn.
  apply String.eqb_neq in Hne. rewrite Hne. cbn.
  rewrite decide_False by done.
  unfold Topic_insert, Topic_create, mbind, M_bind.
  destruct metadata; try done; cbn; by rewrite decide_False.
Qed.

Lemma create_topic_conflict strip members s w :
  default (JStr "") (obj_get "name" members) = JStr s →
  strip s ≠ "" → strip s ∈ t_name <$> topics (db w) →
  create_topic strip (mkHttpRequest "POST" (Document (JObj members))) w =
  (Ok (Response 409 (error_body "Topic already exists")), w).
Proof.
  intros Hname Hne Hin. unfold create_topic.
  rewrite decide_False by (intros H; by apply H).
  unfold stripped_name, metadata_of, try_except, mbind, M_bind. cbn.
  rewrite Hname. cbn.
  apply String.eqb_neq in Hne. rewrite Hne. cbn.
  by rewrite decide_True.
Qed.

(** X8: a POST whose stripped name is not empty and not taken, with a
    [metadata] that is not null, answers 201 and appends one topic row with
    that name, the metadata and both counters at zero; nothing else in the
    store moves.  The topic is then found by [get_topic], and the same
    request sent again answers 409 and changes nothing. *)
Theorem create_topic_creates_once strip members s metadata w :
  schema_ok (db w) →
  default (JStr "") (obj_get "name" members) = JStr s →
  strip s ≠ "" → strip s ∉ t_name <$> topics (db w) →
  default (JObj []) (obj_get "metadata" members) = metadata → metadata ≠ JNull →
  let request := mkHttpRequest "POST" (Document (JObj members)) in
  let row := mkTopic (next_topic_id (db w)) (strip s) (clock w) None 0 0 true metadata in
  let w' := run (create_topic strip request) w in
  (create_topic strip request w).1 =
    Ok (Response 201 (JsonBody (JObj [("status", JStr "created");
                                      ("topic", JStr (strip s))]))) ∧
  topics (db w') = topics (db w) ++ [row] ∧
  connections (db w') = connections (db w) ∧
  subscriptions (db w') = subscriptions (db w) ∧
  messages (db w') = messages (db w) ∧
  schema_ok (db w') ∧
  get_topic (strip s) w' = (Ok (Some row), w') ∧
  create_topic strip request w' = (Ok (Response 409 (error_body "Topic already exists")), w').
Proof.
  intros Hschema Hname Hne Hfresh Hmeta Hnull request row w'.
  pose proof (create_topic_created strip members s metadata w Hname Hne Hfresh Hmeta Hnull)
    as Hrun.
  fold request row in Hrun.
  assert (Hw' : w' = set_db (db_add_topic row (db w)) (tick w)).
  { subst w'. unfold run. by rewrite Hrun. }
  assert (Hschema' : schema_ok (db w')).
  { rewrite Hw'. by apply (schema_ok_add_topic row (db w)). }
  assert (Hrow : row ∈ topics (db w')).
  { rewrite Hw'. cbn. apply elem_of_app. right. by left. }
  split_and!; try (by rewrite Hw'); try done.
  - by rewrite Hrun.
  - unfold get_topic. apply try_except_Ok.
    change (strip s) with (t_name row).
    by rewrite (bind_Ok _ _ _ _ _
                  (Topic_get_found w' row (topic_names_unique _ Hschema') Hrow)).
  - apply (create_topic_conflict strip members s w' Hname Hne).
    change (strip s) with (t_name row). by apply list_elem_of_fmap_2.
Qed.

Lemma create_topic_creates_once_witness :
  create_topic strip_ascii create_orders (run (create_topic strip_ascii create_orders)
                                              alice_subscribed)
  = (Ok (Response 409 (error_body "Topic already exists")),
     run (create_topic strip_ascii create_orders) alice_subscribed).
Proof.
  apply (create_topic_creates_once strip_ascii [("name", JStr "  orders ")]
           "  orders " (JObj []) alice_subscribed).
  - exact alice_subscribed_schema.
  - reflexivity.
  - vm_compute. discriminate.
  - vm_compute. intros H. by repeat (apply elem_of_cons in H as [H|H]; [discriminate|]);
      apply elem_of_nil in H.
  - reflexivity.
  - discriminate.
Defined.

(** X9: [create_topic] always answers, whatever the method, the body and the
    state; unless the answer is 201 the store is exactly as it was, and in no
    case is a frame sent or the routing table or a consumer touched. *)
Theorem create_topic_fails_without_side_effects strip request w :
  ∃ resp w',
    create_topic strip request w = (Ok resp, w') ∧
    (status resp = 201 ∨ db w' = db w) ∧
    trace w' = trace w ∧ topic_connections w' = topic_connections w ∧
    consumers w' = consumers w.
Proof.
  assert (Hanswer : ∀ (x : outcome HttpResponse * World) resp w',
             x = (Ok resp, w') → (status resp = 201 ∨ db w' = db w) →
             trace w' = trace w → topic_connections w' = topic_connections w →
             consumers w' = consumers w →
             ∃ resp w', x = (Ok resp, w') ∧ (status resp = 201 ∨ db w' = db w) ∧
                        trace w' = trace w ∧ topic_connections w' = topic_connections w ∧
                        consumers w' = consumers w).
  { intros x resp w' -> ? ? ? ?. by exists resp, w'. }
  unfold create_topic.
  destruct (decide _); [by eapply Hanswer; [reflexivity|right|..]|].
  unfold stripped_name, metadata_of, Topic_insert, Topic_create, try_except, mbind, M_bind.
  destruct (request_body request) as [|data]; [by eapply Hanswer; [reflexivity|right|..]|].
  destruct data as [| | | | |members]; try by eapply Hanswer; [reflexivity|right|..].
  cbn.
  destruct (default (JStr "") (obj_get "name" members)) as [| | |s| |];
    try by eapply Hanswer; [reflexivity|right|..].
  cbn.
  destruct (String.eqb (strip s) ""); [by eapply Hanswer; [reflexivity|right|..]|].
  cbn.
  destruct (decide (strip s ∈ _)); [by eapply Hanswer; [reflexivity|right|..]|].
  destruct (default (JObj []) (obj_get "metadata" members)); cbn;
    try (destruct (decide _); [done|]); cbn;
    (by eapply Hanswer; [reflexivity|right|..]) || (by eapply Hanswer; [reflexivity|left|..]).
Qed.

(** ** What the control plane shows of a subscription *)

(** X10: right after an accepted subscribe, the detail of the topic answers
    200 and its [subscriber_count], the stored counter, equals its
    [subscriptions_count], the recount of the active rows; both are at least
    one. *)
Theorem topic_detail_after_subscribe
    datetime_repr self data request_id topic_name client z c w :
  nonempty (req_topic data) = Some topic_name →
  nonempty (req_client_id data) = Some client →
  default (JInt 0) (req_last_n data) = JInt z →
  live w self c → schema_ok (db w) →
  let w' := run (handle_subscribe self data request_id) w in
  ∃ detail n,
    get_topic_detail datetime_repr topic_name w' = (Ok (Response 200 (JsonBody detail)), w') ∧
    member "name" detail = Some (JStr topic_name) ∧
    member "subscriber_count" detail = Some (JInt n) ∧
    member "subscriptions_count" detail = Some (JInt n) ∧
    (0 < n)%Z.
Proof.
  intros Htopic Hclient Hlast Hlive Hschema w'.
  destruct (handle_subscribe_spec self data request_id topic_name client z c w
              Htopic Hclient Hlast Hlive Hschema)
    as (w1 & topic & s & t & Hrun & _ & Hname & (row & Hrow & Hid & Hrname) & Hsub & Hact
        & Hcount & _ & _ & Hschema1 & _).
  assert (Hw' : w' = w1) by (subst w'; unfold run; by rewrite Hrun).
  rewrite Hw'. clear Hw' w'.
  exists (topic_detail datetime_repr (db w1) row), (Z.of_nat (t_subscriber_count row)).
  assert (Hfind : find_topic topic_name w1 = (Ok (Some row), w1)).
  { unfold find_topic. apply try_except_Ok. rewrite <- Hrname.
    by rewrite (bind_Ok _ _ _ _ _
                  (Topic_get_found w1 row (topic_names_unique _ Hschema1) Hrow)). }
  split_and!.
  - unfold get_topic_detail. apply try_except_Ok.
    rewrite (bind_Ok _ _ _ _ _ Hfind). done.
  - cbn. by rewrite Hrname.
  - done.
  - cbn. by rewrite Hid, (Hcount row Hrow Hid).
  - rewrite (Hcount row Hrow Hid). unfold active_count.
    assert (Hs : s ∈ filter (λ s, s_topic s = t_id topic ∧ s_is_active s = true)
                            (subscriptions (db w1))).
    { apply subscription_row_member in Hsub as (Hin & _ & Ht).
      apply list_elem_of_filter. by split. }
    destruct (filter _ (subscriptions (db w1))); [by apply elem_of_nil in Hs|cbn; lia].
Qed.

Lemma topic_detail_after_subscribe_witness :
  ∃ detail n,
    get_topic_detail pretty "news" alice_subscribed
      = (Ok (Response 200 (JsonBody detail)), alice_subscribed) ∧
    member "subscriber_count" detail = Some (JInt n) ∧
    member "subscriptions_count" detail = Some (JInt n).
Proof.
  destruct (topic_detail_after_subscribe pretty 1 (subscribe_frame "news" "alice" None)
              sample_request_id "news" "alice" 0 "uuid-0" alice_connected)
    as (detail & n & H1 & _ & H2 & H3 & _).
  - reflexivity.
  - reflexivity.
  - reflexivity.
  - exact alice_connected_live.
  - exact alice_connected_schema.
  - by exists detail, n.
Defined.

Global Instance created_later_total : Total created_later.
Proof. intros a b. unfold created_later. lia. Qed.

Global Instance created_later_trans : Transitive created_later.
Proof. intros a b c. unfold created_later. lia. Qed.

(** X11: [list_topics] always answers 200, changes nothing, and has one entry
    per topic row: the entries are those of a rearrangement of the topic
    table in which no row was created later than a row before it. *)
Theorem list_topics_shows_every_topic_newest_first w :
  ∃ rows,
    list_topics w =
      (Ok (Response 200 (JsonBody (JObj [("topics", JArr (topic_entry (db w) <$> rows))]))),
       w) ∧
    rows ≡ₚ topics (db w) ∧
    StronglySorted created_later rows.
Proof.
  exists (Topic_all (db w)). split_and!.
  - done.
  - apply merge_sort_Permutation.
  - apply StronglySorted_merge_sort; apply _.
Qed.

(** X12: after an accepted unsubscribe the row of the connection is still
    stored, but [get_topic_subscriptions] no longer lists the connection: it
    returns the active rows of the topic and no other. *)
Theorem unsubscribed_connection_is_not_listed
    self data request_id topic client c s0 w :
  nonempty (req_topic data) = Some (t_name topic) →
  nonempty (req_client_id data) = Some client →
  live w self c → schema_ok (db w) →
  topic ∈ topics (db w) → subscriptions_of c (t_id topic) (db w) = [s0] →
  let w' := run (handle_unsubscribe self data request_id) w in
  ∃ rows,
    get_topic_subscriptions (t_name topic) w' = (Ok rows, w') ∧
    rows ≡ₚ filter (λ s, s_topic s = t_id topic ∧ s_is_active s = true)
                   (subscriptions (db w')) ∧
    Forall (λ s, s_connection s ≠ c) rows ∧
    set_is_active false s0 ∈ subscriptions (db w').
Proof.
  intros Htopic Hclient Hlive Hschema Hin Hrow w'.
  destruct (handle_unsubscribe_accepted self data request_id topic client c s0 w
              Htopic Hclient Hlive Hschema Hin Hrow) as (w1 & t & Hrun & _ & Hdb & _).
  assert (Hw' : w' = w1) by (subst w'; unfold run; by rewrite Hrun).
  rewrite Hw'. clear Hw' w'.
  destruct Hlive as (_ & Hc & _).
  destruct (db_unsubscribed_facts topic c s0 w Hschema Hin Hc Hrow)
    as (Hschema1 & Hsub1 & _ & (row & Hrow1 & Hid & Hname) & _).
  rewrite <- Hdb in Hschema1, Hsub1, Hrow1.
  set (active := filter (λ s, s_topic s = t_id topic ∧ s_is_active s = true)
                        (subscriptions (db w1))).
  exists (merge_sort subscribed_later active).
  assert (Hperm : merge_sort subscribed_later active ≡ₚ active)
    by apply merge_sort_Permutation.
  split_and!.
  - unfold get_topic_subscriptions. apply try_except_Ok. rewrite <- Hname.
    rewrite (bind_Ok _ _ _ _ _
               (Topic_get_found w1 row (topic_names_unique _ Hschema1) Hrow1)).
    rewrite (bind_Ok _ _ _ (db w1) w1) by done. by rewrite Hid.
  - done.
  - apply Forall_forall. intros s Hs Hconn. rewrite Hperm in Hs.
    apply list_elem_of_filter in Hs as [[Ht Ha] Hs].
    assert (Hmine : s ∈ subscriptions_of c (t_id topic) (db w1)).
    { apply list_elem_of_filter. by split. }
    rewrite Hsub1 in Hmine. apply list_elem_of_singleton in Hmine. by subst s.
  - apply (subscription_row_member _ _ _ _ Hsub1).
Qed.

Lemma unsubscribed_connection_is_not_listed_witness :
  get_topic_subscriptions "news"
    (run (handle_unsubscribe 1 (unsubscribe_frame "news" "alice") sample_request_id)
         alice_subscribed)
  = (Ok [], run (handle_unsubscribe 1 (unsubscribe_frame "news" "alice") sample_request_id)
                alice_subscribed).
Proof.
  destruct (unsubscribed_connection_is_not_listed 1 (unsubscribe_frame "news" "alice")
              sample_request_id (mkTopic 1 "news" 3 None 0 1 true (JObj [])) "alice"
              "uuid-0" (mkSubscription 1 "uuid-0" 1 4 true) alice_subscribed)
    as (rows & Hrun & _).
  - reflexivity.
  - reflexivity.
  - exact alice_subscribed_live.
  - exact alice_subscribed_schema.
  - vm_compute. left.
  - reflexivity.
  - vm_compute. reflexivity.
Defined.

(** ** Frames that are refused *)

Lemma send_error_run self msg request_id w :
  self ∉ closed w →
  send_error self msg request_id w =
  (Ok tt, log_event (Sent self (error_envelope msg request_id (clock w))) (tick w)).
Proof. intros Hopen. unfold send_error, mbind, M_bind, now. by rewrite send_open. Qed.

(** With a request id that parses, [receive] hands the frame to the handler of
    its type. *)
Lemma receive_handled uuid_parses self data s w w' :
  req_request_id data = JStr s → s ≠ "" → uuid_parses s = true →
  (if decide (req_type data = Some "subscribe")
   then handle_subscribe self data (JStr s)
   else if decide (req_type data = Some "unsubscribe")
   then handle_unsubscribe self data (JStr s)
   else if decide (req_type data = Some "publish")
   then handle_publish self data (JStr s)
   else if decide (req_type data = Some "ping")
   then handle_ping self data (JStr s)
   else send_error self ("Unknown message type: " +:+ fmt (req_type data)) (JStr s)) w
  = (Ok tt, w') →
  receive uuid_parses self (Decoded data) w = (Ok tt, w').
Proof.
  intros Hrid Hs Hparse Hrun.
  assert (Htruthy : truthy (JStr s) = true).
  { cbn. destruct (String.eqb s "") eqn:E; [|done]. by apply String.eqb_eq in E. }
  unfold receive. apply try_except_Ok. rewrite Hrid, Htruthy.
  rewrite (bind_Ok _ _ _ true w) by (cbn; by rewrite Hparse).
  exact Hrun.
Qed.

(** X13: a frame that is not JSON is answered with the error "Invalid JSON
    format", without a [request_id] member, and nothing but the trace and the
    clock changes. *)
Theorem undecodable_frame_is_answered uuid_parses self w :
  self ∉ closed w →
  receive uuid_parses self Undecodable w =
  (Ok tt, log_event (Sent self (JObj [("type", JStr "error");
                                      ("error", JStr "Invalid JSON format");
                                      ("timestamp", JStr (isoformat (clock w)))]))
                    (tick w)).
Proof.
  intros Hopen. unfold receive. erewrite try_except_Raise; [|reflexivity].
  rewrite decide_True by done. by rewrite send_error_run.
Qed.

Lemma undecodable_frame_is_answered_witness :
  new_events (receive canonical_uuid 1 Undecodable) alice_subscribed =
  [Sent 1 (JObj [("type", JStr "error"); ("error", JStr "Invalid JSON format");
                 ("timestamp", JStr "7")])].
Proof.
  unfold new_events, run.
  rewrite (undecodable_frame_is_answered canonical_uuid 1 alice_subscribed).
  - reflexivity.
  - vm_compute. set_solver.
Defined.

(** X14: a frame with a valid request id whose [type] is missing or is none
    of subscribe, unsubscribe, publish and ping is answered with the error
    "Unknown message type: " followed by the type ("None" when it is missing),
    the request id is echoed, and nothing but the trace and the clock
    changes. *)
Theorem unknown_message_type_is_reported uuid_parses self data s w :
  req_request_id data = JStr s → s ≠ "" → uuid_parses s = true →
  req_type data ∉ [Some "subscribe"; Some "unsubscribe"; Some "publish"; Some "ping"] →
  self ∉ closed w →
  receive uuid_parses self (Decoded data) w =
  (Ok tt, log_event (Sent self (JObj [("type", JStr "error");
                                      ("error", JStr ("Unknown message type: "
                                                      +:+ default "None" (req_type data)));
                                      ("timestamp", JStr (isoformat (clock w)));
                                      ("request_id", JStr s)]))
                    (tick w)).
Proof.
  intros Hrid Hs Hparse Htype Hopen.
  apply (receive_handled uuid_parses self data s); try done.
  rewrite !decide_False by (intros Heq; apply Htype; rewrite Heq; set_solver).
  rewrite send_error_run by done. unfold error_envelope, fmt.
  assert (Htruthy : truthy (JStr s) = true).
  { cbn. destruct (String.eqb s "") eqn:E; [|done]. by apply String.eqb_eq in E. }
  by rewrite Htruthy.
Qed.

Lemma unknown_message_type_is_reported_witness :
  new_events (receive canonical_uuid 1
                (Decoded (mkRequest None sample_request_id None None None None)))
             alice_subscribed =
  [Sent 1 (JObj [("type", JStr "error"); ("error", JStr "Unknown message type: None");
                 ("timestamp", JStr "7"); ("request_id", sample_request_id)])].
Proof.
  unfold new_events, run.
  rewrite (unknown_message_type_is_reported canonical_uuid 1
             (mkRequest None sample_request_id None None None None)
             "9f1c2d3e-4b5a-4c6d-8e7f-0a1b2c3d4e5f" alice_subscribed).
  - reflexivity.
  - reflexivity.
  - discriminate.
  - reflexivity.
  - cbn. intros H. by repeat (apply elem_of_cons in H as [H|H]; [discriminate|]);
      apply elem_of_nil in H.
  - vm_compute. set_solver.
Defined.

(** X15: a publish whose [message] is missing, or is falsy for Python (the
    empty object, the empty string, zero, null), is refused with "Missing
    message data" before the client id and the topic are looked at: the
    answer is the same whether or not the topic exists, and nothing is
    stored. *)
Theorem publish_without_message_is_refused uuid_parses self data s topic_name w :
  req_type data = Some "publish" →
  req_request_id data = JStr s → s ≠ "" → uuid_parses s = true →
  nonempty (req_topic data) = Some topic_name →
  truthy (default (JObj []) (req_message data)) = false →
  self ∉ closed w →
  receive uuid_parses self (Decoded data) w =
  (Ok tt, log_event (Sent self (error_envelope "Missing message data" (JStr s) (clock w)))
                    (tick w)).
Proof.
  intros Htype Hrid Hs Hparse Htopic Hfalsy Hopen.
  apply (receive_handled uuid_parses self data s); try done.
  rewrite Htype. rewrite decide_False by done. rewrite decide_False by done.
  rewrite decide_True by done.
  unfold handle_publish. cbv zeta. rewrite Htopic, Hfalsy. cbn [negb].
  apply try_except_Ok. by apply send_error_run.
Qed.

Lemma publish_without_message_is_refused_witness :
  db (run (receive canonical_uuid 1 (Decoded (publish_frame "news" "alice" (JObj []))))
          alice_subscribed)
  = db alice_subscribed.
Proof.
  unfold run.
  rewrite (publish_without_message_is_refused canonical_uuid 1
             (publish_frame "news" "alice" (JObj []))
             "9f1c2d3e-4b5a-4c6d-8e7f-0a1b2c3d4e5f" "news" alice_subscribed).
  - reflexivity.
  - reflexivity.
  - reflexivity.
  - discriminate.
  - reflexivity.
  - reflexivity.
  - reflexivity.
  - vm_compute. set_solver.
Defined.

(** X16: a subscribe, an unsubscribe or a publish (with a message) that names
    a topic but no client id is refused with "Missing client_id"; the store
    is not touched, so a subscribe refused this way does not create the
    topic. *)
Theorem frame_without_client_id_is_refused uuid_parses self data s topic_name w :
  req_type data ∈ [Some "subscribe"; Some "unsubscribe"; Some "publish"] →
  req_request_id data = JStr s → s ≠ "" → uuid_parses s = true →
  nonempty (req_topic data) = Some topic_name →
  (req_type data = Some "publish" → truthy (default (JObj []) (req_message data)) = true) →
  nonempty (req_client_id data) = None →
  self ∉ closed w →
  receive uuid_parses self (Decoded data) w =
  (Ok tt, log_event (Sent self (error_envelope "Missing client_id" (JStr s) (clock w)))
                    (tick w)).
Proof.
  intros Htype Hrid Hs Hparse Htopic Hmsg Hclient Hopen.
  apply (receive_handled uuid_parses self data s); try done.
  apply elem_of_cons in Htype as [Ht|Htype]; [|apply elem_of_cons in Htype as [Ht|Htype]];
    [| |apply list_elem_of_singleton in Htype as Ht]; rewrite Ht in *.
  - rewrite decide_True by done.
    unfold handle_subscribe. cbv zeta. rewrite Htopic, Hclient.
    apply try_except_Ok. by apply send_error_run.
  - rewrite decide_False by done. rewrite decide_True by done.
    unfold handle_unsubscribe. rewrite Htopic, Hclient.
    apply try_except_Ok. by apply send_error_run.
  - rewrite decide_False by done. rewrite decide_False by done. rewrite decide_True by done.
    unfold handle_publish. cbv zeta. rewrite Htopic, Hclient, (Hmsg eq_refl). cbn [negb].
    apply try_except_Ok. by apply send_error_run.
Qed.

Lemma frame_without_client_id_is_refused_witness :
  topics (db (run (receive canonical_uuid 1
                     (Decoded (mkRequest (Some "subscribe") sample_request_id
                                         (Some "fresh") None None None)))
                  alice_connected))
  = [].
Proof.
  unfold run.
  rewrite (frame_without_client_id_is_refused canonical_uuid 1
             (mkRequest (Some "subscribe") sample_request_id (Some "fresh") None None None)
             "9f1c2d3e-4b5a-4c6d-8e7f-0a1b2c3d4e5f" "fresh" alice_connected).
  - reflexivity.
  - left.
  - reflexivity.
  - discriminate.
  - reflexivity.
  - reflexivity.
  - discriminate.
  - reflexivity.
  - vm_compute. set_solver.
Defined.

(** ** A whole publish: what is stored *)

Lemma only_sends_registry_drop_failed w0 topic_name h :
  preserves (only_sends w0) (registry_drop_failed topic_name h).
Proof.
  apply only_sends_preserved. intros w. unfold registry_drop_failed, mbind, M_bind, get_world.
  destruct (topic_connections w !! topic_name) as [s|] eqn:Hs; [|done].
  split; cbn; try done. intros other. destruct (decide (other = topic_name)) as [->|Hne].
  - rewrite lookup_insert_eq, Hs. cbn. set_solver.
  - by rewrite lookup_insert_ne.
Qed.

#[local] Hint Resolve only_sends_registry_drop_failed : inv.

(** [broadcast_message] swallows whatever is raised inside it, and does
    nothing but send and drop handles from the routing table. *)
Lemma only_sends_broadcast_message w0 self topic_name message_data message_id client :
  hoare (only_sends w0)
        (broadcast_message self topic_name message_data message_id client)
        (λ _, only_sends w0) (λ _, False).
Proof.
  unfold broadcast_message. apply (hoare_try _ _ _ _ (only_sends w0)).
  - as_preserves. unfold fan_out_step. preserves_auto.
  - intros e w Hw. done.
Qed.

Lemma publish_message_effect self topic message_data client c w :
  connection (self_of w self) = Some c → c ∈ c_id <$> connections (db w) →
  t_id topic ∈ t_id <$> topics (db w) →
  let m := mkMessage (uuid_text (uuid_counter w)) (t_id topic) (Some c) message_data
                     (clock w) 0 3 (JObj [("client_id", JStr client)]) in
  publish_message self topic message_data client w
  = (Ok (Some (uuid_text (uuid_counter w))),
     set_db (db_published topic c m (S (clock w)) (db w)) (tick (tick (tick (bump_uuid w))))).
Proof.
  intros Hconn Hc Ht m. unfold publish_message.
  set (w1 := set_db (with_messages (λ l, l ++ [m]) (db w)) (tick (bump_uuid w))).
  assert (Hcreate : Message_create topic (Some c) message_data
                      (JObj [("client_id", JStr client)]) w = (Ok m, w1)).
  { unfold Message_create, mbind, M_bind, uuid4, now, get_db. cbn.
    rewrite bool_decide_eq_true_2 by done. rewrite bool_decide_eq_true_2 by done. done. }
  assert (Ht1 : t_id topic ∈ t_id <$> topics (db w1)) by done.
  set (w2 := set_db (with_topics
                       (map (λ r, if decide (t_id r = t_id topic)
                                  then set_message_count (t_message_count topic + 1) r
                                  else r)) (db w1)) w1).
  assert (Hinc : increment_message_count topic w1 = (Ok tt, w2)).
  { unfold increment_message_count, Topic_save, mbind, M_bind, get_db. cbn.
    by rewrite decide_True. }
  assert (Ht2 : t_id topic ∈ t_id <$> topics (db w2)).
  { subst w2. cbn. rewrite fmap_update_key; [done|]. intros r _. by destruct (decide _). }
  set (w3 := set_db (with_topics
                       (map (λ r, if decide (t_id r = t_id topic)
                                  then set_last_published (clock w2) r else r))
                       (db w2)) (tick w2)).
  assert (Hlast : update_last_published topic w2 = (Ok tt, w3)).
  { unfold update_last_published, Topic_save, mbind, M_bind, now, get_db.
    cbn [tick db clock fst snd]. by rewrite (decide_True _ _ Ht2). }
  assert (Hc3 : c ∈ c_id <$> connections (db w3)) by done.
  apply try_except_Ok.
  rewrite (bind_Ok _ _ _ (self_of w self) w) by done. rewrite Hconn.
  rewrite (bind_Ok _ _ _ _ _ Hcreate), (bind_Ok _ _ _ _ _ Hinc), (bind_Ok _ _ _ _ _ Hlast).
  rewrite (bind_Ok _ _ _ _ _ (update_activity_run c w3 Hc3)). done.
Qed.

Lemma handle_publish_run self data request_id topic message client c w :
  nonempty (req_topic data) = Some (t_name topic) →
  req_message data = Some message → truthy message = true →
  nonempty (req_client_id data) = Some client →
  live w self c → schema_ok (db w) → topic ∈ topics (db w) →
  let mid := uuid_text (uuid_counter w) in
  let m := mkMessage mid (t_id topic) (Some c) message (clock w) 0 3
                     (JObj [("client_id", JStr client)]) in
  let w2 := log_event (Sent self (published_ack (t_name topic) mid client request_id
                                                (S (S (S (clock w))))))
              (tick (set_db (db_published topic c m (S (clock w)) (db w))
                            (tick (tick (tick (bump_uuid w)))))) in
  ∃ w3,
    handle_publish self data request_id w = (Ok tt, w3) ∧
    broadcast_message self (t_name topic) message mid client w2 = (Ok tt, w3) ∧
    only_sends w2 w3.
Proof.
  intros Htopic Hmsg Htruthy Hclient (Hconn & Hc & Hopen) Hok Hin mid m w2.
  assert (Htid : t_id topic ∈ t_id <$> topics (db w)) by by apply list_elem_of_fmap_2.
  pose proof (publish_message_effect self topic message client c w Hconn Hc Htid) as Hpub.
  fold mid m in Hpub.
  pose proof (only_sends_broadcast_message w2 self (t_name topic) message mid client w2
                (reflexivity _)) as Hcast.
  destruct (broadcast_message self (t_name topic) message mid client w2)
    as [[[]|e] w3] eqn:Hrun; [|done].
  exists w3. split_and!; [|done|done].
  assert (Hget : get_topic (t_name topic) w = (Ok (Some topic), w)).
  { unfold get_topic. apply try_except_Ok.
    by rewrite (bind_Ok _ _ _ _ _ (Topic_get_found w topic (topic_names_unique _ Hok) Hin)). }
  unfold handle_publish. cbv zeta. rewrite Htopic, Hmsg, Hclient. cbn [default].
  unfold id. rewrite Htruthy. cbn [negb].
  apply try_except_Ok.
  rewrite (bind_Ok _ _ _ _ _ Hget). cbn iota.
  rewrite (bind_Ok _ _ _ _ _ Hpub).
  change (nonempty (Some mid)) with (Some mid). cbn iota.
  erewrite bind_Ok; [|reflexivity].
  erewrite bind_Ok; [|by apply send_open].
  exact Hrun.
Qed.

(** X17: a publish with a message, by a live connection, to a topic that
    exists: one message row is appended, holding the whole [message] value,
    the publisher and the time; the topic's [message_count] becomes one more
    than in the row that was looked up and its [last_published] is set; the
    number of stored messages of the topic grows by one; the subscription
    table is untouched; and the first frame sent is the [published] ack with
    the id of the new row. *)
Theorem publish_stores_the_message_and_counts_it
    self data request_id topic message client c w :
  nonempty (req_topic data) = Some (t_name topic) →
  req_message data = Some message → truthy message = true →
  nonempty (req_client_id data) = Some client →
  live w self c → schema_ok (db w) → topic ∈ topics (db w) →
  let m := mkMessage (uuid_text (uuid_counter w)) (t_id topic) (Some c) message (clock w)
                     0 3 (JObj [("client_id", JStr client)]) in
  let w' := run (handle_publish self data request_id) w in
  (handle_publish self data request_id w).1 = Ok tt ∧
  db w' = db_published topic c m (S (clock w)) (db w) ∧
  messages (db w') = messages (db w) ++ [m] ∧
  message_count (t_id topic) (db w') = S (message_count (t_id topic) (db w)) ∧
  (∃ row, row ∈ topics (db w') ∧ t_id row = t_id topic) ∧
  (∀ row, row ∈ topics (db w') → t_id row = t_id topic →
     t_message_count row = t_message_count topic + 1 ∧
     t_last_published row = Some (S (clock w))) ∧
  subscriptions (db w') = subscriptions (db w) ∧
  ∃ rest, new_events (handle_publish self data request_id) w =
          Sent self (published_ack (t_name topic) (m_id m) client request_id
                                   (S (S (S (clock w))))) :: rest.
Proof.
  intros Htopic Hmsg Htruthy Hclient Hlive Hok Hin m w'.
  destruct (handle_publish_run self data request_id topic message client c w
              Htopic Hmsg Htruthy Hclient Hlive Hok Hin) as (w3 & Hrun & _ & Hsends).
  fold m in Hsends.
  assert (Hw' : w' = w3) by (subst w'; unfold run; by rewrite Hrun).
  assert (Hdb : db w' = db_published topic c m (S (clock w)) (db w)).
  { rewrite Hw'. by rewrite (only_sends_db _ _ Hsends). }
  split_and!.
  - by rewrite Hrun.
  - done.
  - by rewrite Hdb.
  - rewrite Hdb. unfold message_count, db_published, db_touch. simpl_db.
    rewrite filter_app, length_app, filter_cons_True by done. cbn. lia.
  - rewrite Hdb. unfold db_published, db_touch. simpl_db.
    eexists. split; [apply list_elem_of_fmap_2, list_elem_of_fmap_2, Hin|].
    by repeat (destruct (decide _); cbn).
  - intros row Hrow Hid. rewrite Hdb in Hrow. unfold db_published, db_touch in Hrow.
    simpl_db in Hrow.
    apply list_elem_of_fmap in Hrow as (r1 & -> & Hr1).
    apply list_elem_of_fmap in Hr1 as (r & -> & Hr).
    destruct (decide (t_id r = t_id topic)) as [He|Hne].
    + by rewrite decide_True by done.
    + rewrite decide_False in Hid by done. done.
  - by rewrite Hdb.
  - destruct (only_sends_trace _ _ Hsends) as [rest Hrest]. exists rest.
    apply new_events_app. unfold run. rewrite Hrun. cbn [snd]. rewrite Hrest. cbn.
    by rewrite <- app_assoc.
Qed.

Lemma publish_stores_the_message_and_counts_it_witness :
  message_count 1 (db alice_published) = S (message_count 1 (db alice_subscribed)).
Proof.
  apply (publish_stores_the_message_and_counts_it 1
           (publish_frame "news" "alice" (JObj [("payload", JObj [("seq", JInt 1)])]))
           sample_request_id (mkTopic 1 "news" 3 None 0 1 true (JObj []))
           (JObj [("payload", JObj [("seq", JInt 1)])]) "alice" "uuid-0" alice_subscribed).
  - reflexivity.
  - reflexivity.
  - reflexivity.
  - reflexivity.
  - exact alice_subscribed_live.
  - exact alice_subscribed_schema.
  - vm_compute. left.
Defined.

(** ** From a publish to the history of a later subscriber *)

(** A row later than every other row comes first in the newest-first order. *)
Lemma newest_comes_first (l : list MessageRow) (m : MessageRow) :
  m ∈ l → (∀ x, x ∈ l → x = m ∨ m_published_at x < m_published_at m) →
  ∃ rest, merge_sort newer_first l = m :: rest.
Proof.
  intros Hm Hlate.
  pose proof (merge_sort_Permutation newer_first l) as Hperm.
  pose proof (StronglySorted_merge_sort newer_first l) as Hsorted.
  destruct (merge_sort newer_first l) as [|h tl].
  - rewrite <- Hperm in Hm. by apply elem_of_nil in Hm.
  - exists tl. f_equal.
    assert (Hh : h ∈ l) by (rewrite <- Hperm; left).
    destruct (Hlate h Hh) as [->|Hlt]; [done|].
    rewrite <- Hperm in Hm. apply elem_of_cons in Hm as [->|Htl]; [done|].
    apply StronglySorted_inv in Hsorted as [_ Hall].
    rewrite Forall_forall in Hall. specialize (Hall m Htl). unfold newer_first in Hall. lia.
Qed.

(** X18: the message a publish has just stored is the first one replayed to
    whoever asks next for the last [z] messages of the topic, for a positive
    [z] that the database takes as a limit (at most [max_limit], that is
    [2^63 - 1]), as long as the stored messages are older than the clock; the
    replayed payload is the whole [message] value of the publish frame, not
    its [payload] member. *)
Theorem published_message_is_replayed_first
    self data request_id topic message client c z w :
  nonempty (req_topic data) = Some (t_name topic) →
  req_message data = Some message → truthy message = true →
  nonempty (req_client_id data) = Some client →
  live w self c → schema_ok (db w) → topic ∈ topics (db w) →
  Forall (λ m, m_published_at m < clock w) (messages (db w)) →
  (0 < z)%Z → (z ≤ max_limit)%Z →
  let w' := run (handle_publish self data request_id) w in
  ∃ older,
    get_last_n_messages topic (JInt z) w' =
    (Ok (JObj [("type", JStr "message");
               ("topic", JStr (t_name topic));
               ("message", JObj [("id", JStr (uuid_text (uuid_counter w)));
                                 ("payload", message);
                                 ("timestamp", JStr (isoformat (clock w)))])]
         :: older), w').
Proof.
  intros Htopic Hmsg Htruthy Hclient Hlive Hok Hin Hstamped Hz Hmax w'.
  set (m := mkMessage (uuid_text (uuid_counter w)) (t_id topic) (Some c) message (clock w)
                      0 3 (JObj [("client_id", JStr client)])).
  destruct (handle_publish_run self data request_id topic message client c w
              Htopic Hmsg Htruthy Hclient Hlive Hok Hin) as (w3 & Hrun & _ & Hsends).
  fold m in Hsends.
  assert (Hmessages : messages (db w') = messages (db w) ++ [m]).
  { subst w'. unfold run. rewrite Hrun. cbn [snd]. by rewrite (only_sends_db _ _ Hsends). }
  destruct (newest_comes_first
              (filter (λ x, m_topic x = t_id topic) (messages (db w')))  m) as [rest Hrest].
  { rewrite Hmessages, filter_app, filter_cons_True by done.
    apply elem_of_app. right. left. }
  { intros x. rewrite Hmessages, filter_app, filter_cons_True by done.
    intros [Hx|Hx]%elem_of_app.
    - right. apply list_elem_of_filter in Hx as [_ Hx].
      rewrite Forall_forall in Hstamped. by apply Hstamped.
    - left. by apply list_elem_of_singleton in Hx. }
  exists (history_envelope topic <$> take (Z.to_nat z - 1) rest).
  unfold get_last_n_messages. apply try_except_Ok.
  unfold slice_stop. rewrite (proj2 (Z.ltb_ge z 0)) by lia.
  rewrite (bind_Ok _ _ _ (Some z) w') by done.
  unfold fetch_recent. rewrite (bind_Ok _ _ _ (recent_messages topic (Z.to_nat z) (db w')) w').
  2: { rewrite (bind_Ok _ _ _ (db w') w') by done.
       by rewrite (proj2 (Z.ltb_ge max_limit z)) by lia. }
  unfold recent_messages, order_by_published_desc. rewrite Hrest.
  destruct (Z.to_nat z) as [|n] eqn:Hn; [lia|]. cbn. by rewrite Nat.sub_0_r.
Qed.

Lemma published_message_is_replayed_first_witness :
  ∃ older,
    get_last_n_messages (mkTopic 1 "news" 3 None 0 1 true (JObj [])) (JInt 5) alice_published
    = (Ok (JObj [("type", JStr "message"); ("topic", JStr "news");
                 ("message", JObj [("id", JStr "uuid-1");
                                   ("payload", JObj [("payload", JObj [("seq", JInt 1)])]);
                                   ("timestamp", JStr "7")])]
           :: older), alice_published).
Proof.
  apply (published_message_is_replayed_first 1
           (publish_frame "news" "alice" (JObj [("payload", JObj [("seq", JInt 1)])]))
           sample_request_id (mkTopic 1 "news" 3 None 0 1 true (JObj []))
           (JObj [("payload", JObj [("seq", JInt 1)])]) "alice" "uuid-0" 5 alice_subscribed).
  - reflexivity.
  - reflexivity.
  - reflexivity.
  - reflexivity.
  - exact alice_subscribed_live.
  - exact alice_subscribed_schema.
  - vm_compute. left.
  - vm_compute. constructor.
  - lia.
  - unfold max_limit. lia.
Defined.

(** X19: a publish whose [message] is not a JSON object (a string, a number,
    a list) is acknowledged and stored like any other, but reaches no
    subscriber: the only frame sent is the [published] ack, whoever is
    registered for the topic. *)
Theorem publish_of_a_non_object_reaches_no_subscriber
    self data request_id topic message client c w :
  nonempty (req_topic data) = Some (t_name topic) →
  req_message data = Some message → truthy message = true →
  (∀ members, message ≠ JObj members) →
  nonempty (req_client_id data) = Some client →
  live w self c → schema_ok (db w) → topic ∈ topics (db w) →
  let m := mkMessage (uuid_text (uuid_counter w)) (t_id topic) (Some c) message (clock w)
                     0 3 (JObj [("client_id", JStr client)]) in
  let w' := run (handle_publish self data request_id) w in
  new_events (handle_publish self data request_id) w =
    [Sent self (published_ack (t_name topic) (m_id m) client request_id
                              (S (S (S (clock w)))))] ∧
  messages (db w') = messages (db w) ++ [m] ∧
  topic_connections w' = topic_connections w.
Proof.
  intros Htopic Hmsg Htruthy Hnot Hclient Hlive Hok Hin m w'.
  destruct (handle_publish_run self data request_id topic message client c w
              Htopic Hmsg Htruthy Hclient Hlive Hok Hin) as (w3 & Hrun & Hcast & _).
  fold m in Hcast.
  rewrite broadcast_message_not_an_object in Hcast by done.
  injection Hcast as <-.
  subst w'. unfold new_events, run. rewrite Hrun. cbn [snd]. split_and!; try done.
  cbn. by rewrite drop_app_length.
Qed.

Lemma publish_of_a_non_object_reaches_no_subscriber_witness :
  ∃ t, new_events (handle_publish 1 (publish_frame "goner" "alice" (JStr "hello"))
                                  sample_request_id) two_on_goner
       = [Sent 1 (published_ack "goner" "uuid-2" "alice" sample_request_id t)].
Proof.
  eexists.
  apply (publish_of_a_non_object_reaches_no_subscriber 1
           (publish_frame "goner" "alice" (JStr "hello")) sample_request_id
           (mkTopic 1 "goner" 3 None 0 2 true (JObj [])) (JStr "hello") "alice" "uuid-0"
           two_on_goner).
  - reflexivity.
  - reflexivity.
  - reflexivity.
  - discriminate.
  - reflexivity.
  - vm_compute. split_and!; [reflexivity|left|set_solver].
  - unfold two_on_goner.
    apply sound_schema, preserves_run; [apply sound_handle_subscribe|].
    apply preserves_run; [apply sound_connect|].
    apply preserves_run; [apply sound_handle_subscribe|apply alice_connected_sound].
  - vm_compute. left.
Defined.

(** ** Ping *)

(** X20: a ping with a valid request id is answered with a pong that echoes
    the id.  When the connection row of the consumer is in the store its
    [last_activity] is set to the time of the ping; when the row is gone the
    failure is swallowed, the store is left as it is, and the pong is sent all
    the same. *)
Theorem ping_is_answered_and_stamps_the_connection uuid_parses self data s c w :
  req_type data = Some "ping" →
  req_request_id data = JStr s → s ≠ "" → uuid_parses s = true →
  connection (self_of w self) = Some c → self ∉ closed w →
  let w' := run (receive uuid_parses self (Decoded data)) w in
  (receive uuid_parses self (Decoded data) w).1 = Ok tt ∧
  new_events (receive uuid_parses self (Decoded data)) w =
    [Sent self (JObj [("type", JStr "pong"); ("request_id", JStr s);
                      ("timestamp", JStr (isoformat (S (clock w))))])] ∧
  db w' = (if decide (c ∈ c_id <$> connections (db w))
           then db_touch c (clock w) (db w) else db w).
Proof.
  intros Htype Hrid Hs Hparse Hconn Hopen w'.
  set (d' := if decide (c ∈ c_id <$> connections (db w))
             then db_touch c (clock w) (db w) else db w).
  assert (Hact : ∃ b, update_connection_activity self w = (Ok b, set_db d' (tick w))).
  { unfold update_connection_activity, try_except.
    rewrite (bind_Ok _ _ _ (self_of w self) w) by done. rewrite Hconn.
    subst d'. destruct (decide (c ∈ c_id <$> connections (db w))) as [Hin|Hout].
    - exists true. by rewrite (bind_Ok _ _ _ _ _ (update_activity_run c w Hin)).
    - exists false. unfold update_activity, mbind, M_bind, now, get_db. cbn.
      by rewrite decide_False. }
  destruct Hact as [b Hact].
  set (pong := JObj [("type", JStr "pong"); ("request_id", JStr s);
                     ("timestamp", JStr (isoformat (S (clock w))))]).
  assert (Hrun : receive uuid_parses self (Decoded data) w
                 = (Ok tt, log_event (Sent self pong) (tick (set_db d' (tick w))))).
  { apply (receive_handled uuid_parses self data s); try done.
    rewrite Htype. rewrite decide_False by done. rewrite decide_False by done.
    rewrite decide_False by done. rewrite decide_True by done.
    unfold handle_ping. apply try_except_Ok.
    rewrite (bind_Ok _ _ _ _ _ Hact).
    erewrite bind_Ok; [|reflexivity].
    by apply send_open. }
  subst w'. unfold new_events, run. rewrite Hrun. cbn [fst snd]. split_and!; try done.
  cbn. by rewrite drop_app_length.
Qed.

Lemma ping_is_answered_and_stamps_the_connection_witness :
  connections (db (run (receive canonical_uuid 1
                          (Decoded (mkRequest (Some "ping") sample_request_id
                                              None None None None)))
                       alice_subscribed))
  = [mkConnection "uuid-0" 0 7 true].
Proof.
  destruct (ping_is_answered_and_stamps_the_connection canonical_uuid 1
              (mkRequest (Some "ping") sample_request_id None None None None)
              "9f1c2d3e-4b5a-4c6d-8e7f-0a1b2c3d4e5f" "uuid-0" alice_subscribed)
    as (_ & _ & Hdb).
  - reflexivity.
  - reflexivity.
  - discriminate.
  - reflexivity.
  - reflexivity.
  - vm_compute. set_solver.
  - rewrite Hdb. vm_compute. reflexivity.
Defined.

(** ** The history query *)


(** ** A subscribe whose [last_n] is not a number *)

(** X22: a subscribe whose [last_n] is a string, a list, an object or null
    subscribes all the same: the row is active, the handle is registered and
    the [subscribed] ack is sent.  The comparison [last_n > 0] that follows
    raises, and a second frame, the error "Subscribe error: '>' not supported
    between instances of ... and 'int'", is sent with the same request id. *)
Theorem subscribe_with_a_non_numeric_last_n
    self data request_id topic_name client v c w :
  nonempty (req_topic data) = Some topic_name →
  nonempty (req_client_id data) = Some client →
  req_last_n data = Some v →
  (∀ z, v ≠ JInt z) → (∀ b, v ≠ JBool b) →
  live w self c → schema_ok (db w) →
  let w' := run (handle_subscribe self data request_id) w in
  (∃ t t', new_events (handle_subscribe self data request_id) w =
     [Sent self (subscribed_ack topic_name client request_id t);
      Sent self (error_envelope
                   ("Subscribe error: '>' not supported between instances of '"
                    +:+ type_name v +:+ "' and 'int'") request_id t')]) ∧
  (∃ row s, row ∈ topics (db w') ∧ t_name row = topic_name ∧
            subscriptions_of c (t_id row) (db w') = [s] ∧ s_is_active s = true) ∧
  self ∈ default ∅ (topic_connections w' !! topic_name).
Proof.
  intros Htopic Hclient Hlast Hint Hbool (Hconn & Hc & Hopen) Hok w'.
  set (remember_client := λ c0 : Consumer,
         mkConsumer (connection_id c0) (Some client) (subscribed_topics c0) (connection c0)).
  set (wa := set_consumers (<[self := remember_client (self_of w self)]> (consumers w)) w).
  assert (Hconn_a : connection (self_of wa self) = Some c).
  { unfold self_of at 1. subst wa. cbn. by rewrite lookup_insert_eq. }
  destruct (get_or_create_topic_spec wa topic_name Hok)
    as (topic & wb & Hgoc & Hin_b & Hname & Hok_b & Hconns_b & Hsubs_b & Hmsg_b
        & Hreg_b & Hcs_b & Htr_b & Hcl_b).
  assert (Hconn_b : connection (self_of wb self) = Some c).
  { unfold self_of. rewrite Hcs_b. exact Hconn_a. }
  assert (Hc_b : c ∈ c_id <$> connections (db wb)) by by rewrite Hconns_b.
  destruct (subscribe_to_topic_spec wb self c topic client Hconn_b Hc_b Hok_b Hin_b)
    as (wc & s & Hsub & (Hreg_c & Hcs_c & Htr_c & Hcl_c) & Hok_c & Hone & Hact
        & Hmsg_c & Hids_c & Hrow & Hcount).
  set (add_topic := λ c0 : Consumer,
         mkConsumer (connection_id c0) (client_id c0)
                    (subscribed_topics c0 ∪ {[topic_name]}) (connection c0)).
  set (wd := set_consumers (<[self := add_topic (self_of wc self)]> (consumers wc)) wc).
  set (we := set_topic_connections
               (<[topic_name := default ∅ (topic_connections wd !! topic_name) ∪ {[self]}]>
                  (topic_connections wd)) wd).
  set (ack := subscribed_ack topic_name client request_id (clock we)).
  set (wg := log_event (Sent self ack) (tick we)).
  assert (Hopen_g : self ∉ closed wg).
  { subst wg we wd. cbn. by rewrite Hcl_c, Hcl_b. }
  set (complaint := "'>' not supported between instances of '" +:+ type_name v
                    +:+ "' and 'int'").
  set (err := error_envelope ("Subscribe error: " +:+ complaint) request_id (clock wg)).
  assert (Hraise : gt_zero v wg = (Raise (Exn TypeError complaint), wg)).
  { destruct v; try done; [by destruct (Hbool b)|by destruct (Hint z)]. }
  assert (Hrun : handle_subscribe self data request_id w
                 = (Ok tt, log_event (Sent self err) (tick wg))).
  { unfold handle_subscribe. rewrite Htopic, Hclient, Hlast. cbn [default].
    eapply eq_trans.
    - apply try_except_Raise.
      rewrite (bind_Ok _ _ _ tt wa) by done.
      rewrite (bind_Ok _ _ _ _ _ Hgoc). cbn beta iota.
      rewrite (bind_Ok _ _ _ _ _ Hsub). cbn beta iota.
      rewrite (bind_Ok _ _ _ tt wd) by done.
      rewrite (bind_Ok _ _ _ tt we) by done.
      rewrite (bind_Ok _ _ _ (clock we) (tick we)) by done.
      rewrite (bind_Ok _ _ _ tt wg)
        by (apply send_open; subst we wd; cbn; by rewrite Hcl_c, Hcl_b).
      by rewrite (bind_Raise _ _ _ _ _ Hraise).
    - by apply send_error_run. }
  assert (Hdb' : db w' = db wc) by (subst w'; unfold run; by rewrite Hrun).
  split_and!.
  - exists (clock we), (clock wg). apply new_events_app. unfold run. rewrite Hrun.
    subst wg we wd. cbn. rewrite Htr_c, Htr_b. cbn. by rewrite <- app_assoc.
  - destruct Hrow as (row & Hr1 & Hr2 & Hr3). exists row, s. rewrite Hdb', Hr2.
    split_and!; try done. congruence.
  - subst w'. unfold run. rewrite Hrun. cbn. rewrite lookup_insert_eq. cbn. set_solver.
Qed.

Lemma subscribe_with_a_non_numeric_last_n_witness :
  ∃ t t', new_events (handle_subscribe 1 (subscribe_frame "news" "alice" (Some (JStr "5")))
                                       sample_request_id) alice_connected =
     [Sent 1 (subscribed_ack "news" "alice" sample_request_id t);
      Sent 1 (error_envelope
                "Subscribe error: '>' not supported between instances of 'str' and 'int'"
                sample_request_id t')].
Proof.
  apply (subscribe_with_a_non_numeric_last_n 1
           (subscribe_frame "news" "alice" (Some (JStr "5"))) sample_request_id
           "news" "alice" (JStr "5") "uuid-0" alice_connected).
  - reflexivity.
  - reflexivity.
  - reflexivity.
  - discriminate.
  - discriminate.
  - exact alice_connected_live.
  - exact alice_connected_schema.
Defined.

(** ** Further statements at concrete inputs *)



Lemma handle_publish_topic_missing_witness :
  db (run (handle_publish 1 (publish_frame "nowhere" "alice" (JObj [("payload", JInt 1)]))
                          sample_request_id) alice_subscribed)
  = db alice_subscribed.
Proof.
  unfold run.
  rewrite (handle_publish_topic_missing 1
             (publish_frame "nowhere" "alice" (JObj [("payload", JInt 1)]))
             sample_request_id "nowhere" "alice" (JObj [("payload", JInt 1)])
             alice_subscribed).
  - reflexivity.
  - reflexivity.
  - reflexivity.
  - reflexivity.
  - reflexivity.
  - vm_compute. intros H. by repeat (apply elem_of_cons in H as [H|H]; [discriminate|]);
      apply elem_of_nil in H.
  - vm_compute. set_solver.
Defined.

Lemma delete_topic_all_open_witness :
  topic_connections (run (delete_topic "goner") two_on_goner) !! "goner" = None.
Proof.
  apply (delete_topic_all_open (mkTopic 1 "goner" 3 None 0 2 true (JObj []))
           ({[1; 2]} : gset nat) two_on_goner).
  - split; compute_done.
  - vm_compute. left.
  - vm_compute. reflexivity.
  - intros h _. vm_compute. set_solver.
Defined.

Lemma handle_publish_fans_out_witness :
  ∃ t t' message_id,
    new_events (handle_publish 2 (publish_frame "goner" "bob"
                                    (JObj [("payload", JStr "hello")]))
                               sample_request_id) two_on_goner =
    [Sent 2 (JObj [("type", JStr "published"); ("topic", JStr "goner");
                   ("message_id", JStr message_id); ("client_id", JStr "bob");
                   ("request_id", sample_request_id); ("status", JStr "success");
                   ("timestamp", JStr (isoformat t))]);
     Sent 1 (broadcast_envelope "goner" (JStr "hello") message_id "bob" t')].
Proof.
  destruct (handle_publish_fans_out 2
              (publish_frame "goner" "bob" (JObj [("payload", JStr "hello")]))
              sample_request_id (mkTopic 1 "goner" 3 None 0 2 true (JObj []))
              [("payload", JStr "hello")] "bob" "uuid-1" two_on_goner)
    as (t & t' & message_id & H).
  - reflexivity.
  - reflexivity.
  - discriminate.
  - reflexivity.
  - split_and!; [reflexivity | compute_done | compute_done].
  - split; compute_done.
  - vm_compute. left.
  - exists t, t', message_id. rewrite H. vm_compute. reflexivity.
Defined.

Lemma rejected_frame_then_ping_witness :
  ∃ t, new_events (receive canonical_uuid 1
                     (Decoded (mkRequest (Some "ping") sample_request_id None None None None)))
                  (run (receive canonical_uuid 1
                          (Decoded (mkRequest (Some "ping") JNull None None None None)))
                       alice_subscribed) =
       [Sent 1 (JObj [("type", JStr "pong");
                      ("request_id", JStr "9f1c2d3e-4b5a-4c6d-8e7f-0a1b2c3d4e5f");
                      ("timestamp", JStr (isoformat t))])].
Proof.
  apply (rejected_frame_then_ping canonical_uuid 1
           (mkRequest (Some "ping") JNull None None None None)
           (mkRequest (Some "ping") sample_request_id None None None None)
           "9f1c2d3e-4b5a-4c6d-8e7f-0a1b2c3d4e5f" alice_subscribed).
  - vm_compute. set_solver.
  - left. reflexivity.
  - reflexivity.
  - reflexivity.
  - discriminate.
  - reflexivity.
Defined.


(** ** What the endpoints report *)

Lemma filter_disjoint {A} (P Q : A → Prop) `{∀ x, Decision (P x)} `{∀ x, Decision (Q x)}
    (l : list A) :
  (∀ x, P x → Q x → False) → filter P (filter Q l) = [].
Proof.
  intros Hno. apply filter_none_in.
  intros x Hx%list_elem_of_filter HP. apply (Hno x); tauto.
Qed.

(** C9, as amended: a connection unsubscribes from a topic through its row
    [s]; then it disconnects or, instead, the topic is deleted.  In any state
    [list_topics] and [get_stats] report for each topic the number of its
    subscription rows, and [health_check] the number of all subscription rows,
    whatever their [is_active] says.  After the unsubscribe the three answer
    exactly as before it, the row is still in the table with [is_active]
    cleared and is among the rows counted, the topic is listed, and the number
    reported for it is larger than the recounted [subscriber_count] of its
    row.  No frame handled by [receive] ever lowers the number of subscription
    rows, in total or for any topic; the disconnect deletes the rows of the
    connection, which lowers both the per-topic count and the total; and so
    does [delete_topic], which deletes the rows of the topic with the topic
    and leaves every connection in place. *)
Theorem endpoints_count_inactive_rows
    uuid_parses self data request_id topic client c s uptime w :
  nonempty (req_topic data) = Some (t_name topic) →
  nonempty (req_client_id data) = Some client →
  live w self c → is_Some (nonempty (connection_id (self_of w self))) →
  schema_ok (db w) → topic ∈ topics (db w) →
  subscriptions_of c (t_id topic) (db w) = [s] →
  let w' := run (handle_unsubscribe self data request_id) w in
  let gone := run (disconnect self) w' in
  let deleted := run (delete_topic (t_name topic)) w' in
  let rows_of := λ (tid : nat) (v : World),
                   length (filter (λ r, s_topic r = tid) (subscriptions (db v))) in
  (∀ v,
     (list_topics v).1 =
       Ok (Response 200 (JsonBody (JObj [("topics", JArr (
             (λ t, JObj [("name", JStr (t_name t));
                         ("subscribers", JInt (Z.of_nat (rows_of (t_id t) v)))])
             <$> Topic_all (db v)))]))) ∧
     (get_stats v).1 =
       Ok (Response 200 (JsonBody (JObj [("topics", JObj (
             (λ t, (t_name t,
                    JObj [("messages",
                           JInt (Z.of_nat (length (filter (λ m, m_topic m = t_id t)
                                                          (messages (db v))))));
                          ("subscribers", JInt (Z.of_nat (rows_of (t_id t) v)))]))
             <$> Topic_all (db v)))]))) ∧
     (health_check uptime v).1 =
       Ok (Response 200 (JsonBody (JObj [
             ("uptime_sec", JInt (Z.of_nat uptime));
             ("topics", JInt (Z.of_nat (length (topics (db v)))));
             ("subscribers", JInt (Z.of_nat (length (subscriptions (db v)))))])))) ∧
  ((list_topics w').1 = (list_topics w).1 ∧
   (get_stats w').1 = (get_stats w).1 ∧
   (health_check uptime w').1 = (health_check uptime w).1) ∧
  (subscriptions_of c (t_id topic) (db w') = [set_is_active false s] ∧
   subscription_count (t_id topic) (db w') = subscription_count (t_id topic) (db w)) ∧
  (set_is_active false s ∈ filter (λ r, s_topic r = t_id topic) (subscriptions (db w')) ∧
   s_is_active (set_is_active false s) = false ∧
   rows_of (t_id topic) w' = rows_of (t_id topic) w ∧
   ∃ row, row ∈ Topic_all (db w') ∧ t_name row = t_name topic ∧ t_id row = t_id topic ∧
          t_subscriber_count row < rows_of (t_id row) w') ∧
  (∀ row, row ∈ topics (db w') → t_id row = t_id topic →
          t_subscriber_count row < subscription_count (t_id topic) (db w')) ∧
  (∀ other text_data v,
     length (subscriptions (db v)) ≤
     length (subscriptions (db (run (receive uuid_parses other text_data) v))) ∧
     (schema_ok (db v) → ∀ tid,
        subscription_count tid (db v) ≤
        subscription_count tid (db (run (receive uuid_parses other text_data) v)))) ∧
  (subscriptions (db gone) = filter (λ r, s_connection r ≠ c) (subscriptions (db w')) ∧
   subscription_count (t_id topic) (db gone) < subscription_count (t_id topic) (db w') ∧
   length (subscriptions (db gone)) < length (subscriptions (db w'))) ∧
  ((delete_topic (t_name topic) w').1 =
     Ok (Response 200 (JsonBody (JObj [("status", JStr "deleted");
                                       ("topic", JStr (t_name topic))]))) ∧
   subscriptions (db deleted) = filter (λ r, s_topic r ≠ t_id topic) (subscriptions (db w')) ∧
   connections (db deleted) = connections (db w') ∧
   consumers deleted = consumers w' ∧
   (∀ row, row ∈ topics (db deleted) → t_id row ≠ t_id topic) ∧
   rows_of (t_id topic) deleted = 0 ∧
   rows_of (t_id topic) deleted < rows_of (t_id topic) w' ∧
   length (subscriptions (db deleted)) < length (subscriptions (db w'))).
Proof.
  intros Htopic Hclient (Hconn & Hc & Hopen) Hcid Hok Hin Hone w' gone deleted rows_of.
  destruct (handle_unsubscribe_accepted self data request_id topic client c s w)
    as (w1 & t1 & Hrun1 & _ & Hdb1 & Hconn1 & Hcid1 & _); try done.
  assert (w' = w1) as Hw' by (subst w'; unfold run; by rewrite Hrun1).
  destruct (db_unsubscribed_facts topic c s w Hok Hin Hc Hone)
    as (Hok1 & Hone1 & _ & (row & Hrow & Hrid & Hrname) & _).
  rewrite <- Hdb1, <- Hw' in Hone1, Hok1, Hrow.
  destruct (subscription_row_member _ _ _ _ Hone1) as (Hrow1 & Hrow_c & Hrow_t).
  destruct (disconnect_deletes_rows self c w') as (_ & Hgone & _).
  { by rewrite Hw', Hcid1. }
  { by rewrite Hw'. }
  fold gone in Hgone.
  assert (Hdb' : db w' = db_unsubscribed topic c s w) by by rewrite Hw'.
  destruct (unsubscribed_endpoints topic c s w Hok Hone uptime w' Hdb') as (E1 & E2 & E3).
  assert (Hkept : set_is_active false s
                  ∈ filter (λ r, s_topic r = t_id topic) (subscriptions (db w')))
    by by apply list_elem_of_filter.
  assert (Hsame : rows_of (t_id topic) w' = rows_of (t_id topic) w).
  { subst rows_of. cbn beta. rewrite Hdb'.
    by apply (unsubscribed_subscription_count topic c s w). }
  assert (Hlags : ∀ r, r ∈ topics (db w') → t_id r = t_id topic →
                       t_subscriber_count r < subscription_count (t_id topic) (db w')).
  { rewrite Hdb'. by apply unsubscribed_counter_lags. }
  destruct (delete_topic_run row w' (topic_names_unique _ Hok1) Hrow) as (w2 & Hdel & Hsends).
  rewrite Hrname in Hdel.
  assert (Hdeleted : db deleted = db_topic_deleted (t_id topic) (db w')).
  { subst deleted. unfold run. rewrite Hdel. cbn [snd].
    rewrite (only_sends_db _ _ Hsends). cbn [db set_db]. by rewrite Hrid. }
  assert (Hnone : rows_of (t_id topic) deleted = 0).
  { subst rows_of. cbn beta. rewrite Hdeleted. cbn.
    rewrite filter_disjoint; [done|]. intros x Hx Hnx. by apply Hnx. }
  split_and!; [|exact E1 | exact E2 | exact E3 | ..].
  - intros v. split_and!; reflexivity.
  - done.
  - rewrite Hdb'. by apply unsubscribed_subscription_count.
  - exact Hkept.
  - done.
  - exact Hsame.
  - exists row. split_and!; [|done|done|].
    + unfold Topic_all. by rewrite merge_sort_Permutation.
    + rewrite Hrid. by apply Hlags.
  - exact Hlags.
  - intros other text_data v. split; [apply keeps_rows_receive|].
    intros Hv tid. by apply receive_keeps_topic_counts.
  - done.
  - unfold subscription_count. rewrite Hgone, filter_swap.
    apply (length_filter_lt _ _ (set_is_active false s)).
    + by apply list_elem_of_filter.
    + intros Hne. by apply Hne.
  - rewrite Hgone. apply (length_filter_lt _ _ (set_is_active false s)); [done|].
    intros Hne. by apply Hne.
  - by rewrite Hdel.
  - by rewrite Hdeleted.
  - by rewrite Hdeleted.
  - subst deleted. unfold run. rewrite Hdel. cbn [snd].
    by rewrite (only_sends_consumers _ _ Hsends).
  - rewrite Hdeleted. cbn. intros r Hr%list_elem_of_filter. tauto.
  - exact Hnone.
  - rewrite Hnone. subst rows_of. cbn beta.
    destruct (filter (λ r, s_topic r = t_id topic) (subscriptions (db w'))) as [|x l];
      [by apply elem_of_nil in Hkept|cbn; lia].
  - rewrite Hdeleted. cbn.
    apply (length_filter_lt _ _ (set_is_active false s)); [done|].
    intros Hne. by apply Hne.
Qed.

Lemma endpoints_count_inactive_rows_witness :
  let w' := run (handle_unsubscribe 1 (unsubscribe_frame "news" "alice") sample_request_id)
                alice_subscribed in
  (list_topics w').1 = (list_topics alice_subscribed).1 ∧
  length (subscriptions (db (run (disconnect 1) w'))) < length (subscriptions (db w')) ∧
  length (subscriptions (db (run (delete_topic "news") w'))) < length (subscriptions (db w')).
Proof.
  pose proof (endpoints_count_inactive_rows canonical_uuid
                1 (unsubscribe_frame "news" "alice") sample_request_id
                (mkTopic 1 "news" 3 None 0 1 true (JObj [])) "alice" "uuid-0"
                (mkSubscription 1 "uuid-0" 1 4 true) 0 alice_subscribed) as H.
  destruct H
    as (_ & (Hlist & _) & _ & _ & _ & _ & (_ & _ & Hless) & (_ & _ & _ & _ & _ & _ & _ & Hdel)).
  - reflexivity.
  - reflexivity.
  - exact alice_subscribed_live.
  - vm_compute. eauto.
  - exact alice_subscribed_schema.
  - vm_compute. left.
  - vm_compute. reflexivity.
  - split_and!; [exact Hlist | exact Hless | exact Hdel].
Defined.

(** C9, the claim as stated fails in its last part: handles 1 and 2 are
    subscribed to "goner" and the endpoints report two subscribers; the topic
    is deleted and they report none, while every connection row and every
    consumer is where it was, so no disconnect has taken place. *)
Lemma delete_topic_lowers_the_reported_counts :
  let deleted := run (delete_topic "goner") two_on_goner in
  (list_topics two_on_goner).1 =
    Ok (Response 200 (JsonBody (JObj [("topics",
          JArr [JObj [("name", JStr "goner"); ("subscribers", JInt 2)]])]))) ∧
  (get_stats two_on_goner).1 =
    Ok (Response 200 (JsonBody (JObj [("topics",
          JObj [("goner", JObj [("messages", JInt 0); ("subscribers", JInt 2)])])]))) ∧
  (health_check 0 two_on_goner).1 =
    Ok (Response 200 (JsonBody (JObj [("uptime_sec", JInt 0); ("topics", JInt 1);
                                      ("subscribers", JInt 2)]))) ∧
  (list_topics deleted).1 = Ok (Response 200 (JsonBody (JObj [("topics", JArr [])]))) ∧
  (get_stats deleted).1 = Ok (Response 200 (JsonBody (JObj [("topics", JObj [])]))) ∧
  (health_check 0 deleted).1 =
    Ok (Response 200 (JsonBody (JObj [("uptime_sec", JInt 0); ("topics", JInt 0);
                                      ("subscribers", JInt 0)]))) ∧
  connections (db deleted) = connections (db two_on_goner) ∧
  length (connections (db deleted)) = 2 ∧
  consumers deleted = consumers two_on_goner ∧
  closed deleted = closed two_on_goner.
Proof. cbv zeta. split_and!; vm_compute; reflexivity. Qed.
